(** * senso_py: the sensor registry, its bus-resource validators and its
      read-out dispatch

    The repository holds several variants of one [Sensors] class.  Each
    variant is embedded in a module of its own, named after its file:

    - [ParamPack]      sensors.py (range-validated parameter packs),
    - [Exp]            sensors_exp.py (parameter packs and validators),
    - [Consolidated]   sensors_consolidated.py (builder and validators),
    - [ValidatedJson]  sensors_builder_validatedjson.py (read-out dispatch),
    - [ValidatedJsonRegistry]  the same file (builder, validators and
      registry, with the driver functions the file imports).

    [ConsolidatedData], [ParamPackReport] and [ValidatedJsonLookup] hold
    further methods of these classes.

    Python values are dynamically typed: a parameter pack is a tuple of
    values of any type, and an operation applied to a value of the wrong
    type raises.  The embedding keeps that: packs are lists of [pyval],
    and every operation that can raise returns in an error monad. *)

From Stdlib Require Import ZArith List String Ascii Bool Lia SpecFloat DecimalString.
Import ListNotations.
Local Open Scope string_scope.
Local Open Scope list_scope.
Local Open Scope Z_scope.

(** ** Python values and exceptions *)

(** The values a parameter pack or a JSON dictionary carries: integers,
    strings, [None], floats and booleans.  A float is an IEEE 754 value
    as [spec_float] has them: zeros and infinities with their sign, NaN,
    and the finite [(-1)^s * m * 2^e]; every double is one of these, and
    what is proved for all of them holds for the doubles.  Containers
    inside a pack are not modelled. *)
Inductive pyval : Type :=
| PInt (z : Z)
| PStr (s : string)
| PNone
| PFloat (x : spec_float)
| PBool (b : bool).

(** [type(v).__name__]. *)
Definition type_name_of (v : pyval) : string :=
  match v with
  | PInt _ => "int"
  | PStr _ => "str"
  | PNone => "NoneType"
  | PFloat _ => "float"
  | PBool _ => "bool"
  end.

(** A float literal [digits * 10 ^ -scale]; the code only passes floats
    around and prints them. *)
Record pyfloat : Type := Float { digits : Z; scale : nat }.

(** The exception classes the code meets; all derive from [Exception]. *)
Inductive exn : Type :=
| IndexError (msg : string)
| KeyError (key : pyval)
| ValueError (msg : string)
| TypeError (msg : string)
| AttributeError (attr : string)
| PyException (msg : string)
| OverflowError (msg : string).

Inductive res (A : Type) : Type :=
| Ok (a : A)
| Raise (e : exn).
Arguments Ok {A} a.
Arguments Raise {A} e.

(** What a read function returns.  [RInt] stands for the integer
    placeholders of the early variants, a shape the dispatcher does not
    know. *)
Inductive readout : Type :=
| RFloat (x : pyfloat)
| RInt (z : Z)
| RList (items : list pyval)
| RComplex (triggered : bool) (channel : Z) (ch_val : pyfloat).

(** ** Standard output *)

(** One argument of a [print] call or of a [%] format. *)
Inductive atom : Type :=
| AStr (s : string)
| AVal (v : pyval)
| AIdx (n : nat)
| ABool (b : bool)
| AFloat (x : pyfloat)
| ARead (r : readout)
| ARepr (class_name : string)
| AArgs (e : exn).

(** [Print objs] is [print(obj, ...)]; [PrintF fmt args] is
    [print(fmt % args)]. *)
Inductive line : Type :=
| Print (objs : list atom)
| PrintF (fmt : string) (args : list atom).

(** ** The monad of the embedding: printed lines and a result or an
       exception *)

Definition io (A : Type) : Type := (list line * res A)%type.

Definition ret {A} (a : A) : io A := ([], Ok a).

Definition raise {A} (e : exn) : io A := ([], Raise e).

Definition bind {A B} (m : io A) (k : A -> io B) : io B :=
  match m with
  | (out, Ok a) => let (out', r) := k a in (out ++ out', r)
  | (out, Raise e) => (out, Raise e)
  end.

Definition lift {A} (r : res A) : io A := ([], r).

Definition print (l : line) : io unit := ([l], Ok tt).

(** [try: body  except Exception as exc: handler exc]. *)
Definition try_except {A} (body : io A) (handler : exn -> io A) : io A :=
  match body with
  | (out, Ok a) => (out, Ok a)
  | (out, Raise e) => let (out', r) := handler e in (out ++ out', r)
  end.

Declare Scope io_scope.
Delimit Scope io_scope with io.
Notation "x <- m ;; k" := (bind m (fun x => k))
  (at level 61, m at next level, right associativity) : io_scope.
Notation "m ;; k" := (bind m (fun _ => k))
  (at level 61, right associativity) : io_scope.
Local Open Scope io_scope.

Definition stdout {A} (m : io A) : list line := fst m.
Definition result {A} (m : io A) : res A := snd m.

(** ** Operations on Python values *)

(** The number a finite float is, as an integer over a power of two, and
    a float against an integer: Python compares the two exactly.  NaN is
    unordered. *)
Definition float_compare_int (x : spec_float) (z : Z) : option comparison :=
  match x with
  | S754_nan => None
  | S754_infinity s => Some (if s then Lt else Gt)
  | S754_zero _ => Some (0 ?= z)
  | S754_finite s m e =>
      let n := if s then Z.neg m else Z.pos m in
      Some (if 0 <=? e then n * 2 ^ e ?= z else n ?= z * 2 ^ (- e))
  end.

(** [x == y] on floats: NaN equals nothing, the two zeros are equal. *)
Definition float_eqb (x y : spec_float) : bool :=
  match x, y with
  | S754_zero _, S754_zero _ => true
  | S754_infinity s, S754_infinity t => Bool.eqb s t
  | S754_finite s m e, S754_finite t n f =>
      Bool.eqb s t &&
      (Z.pos m * 2 ^ (e - Z.min e f) =? Z.pos n * 2 ^ (f - Z.min e f))
  | _, _ => false
  end.

Definition float_eq_int (x : spec_float) (z : Z) : bool :=
  match float_compare_int x z with
  | Some Eq => true
  | _ => false
  end.

(** [int(x)]: the float cut towards zero. *)
Definition float_to_int (x : spec_float) : res Z :=
  match x with
  | S754_nan => Raise (ValueError "cannot convert float NaN to integer")
  | S754_infinity _ => Raise (OverflowError "cannot convert float infinity to integer")
  | S754_zero _ => Ok 0
  | S754_finite s m e =>
      let n := if s then Z.neg m else Z.pos m in
      Ok (if 0 <=? e then n * 2 ^ e else Z.quot n (2 ^ (- e)))
  end.

(** [a == b]: numbers are compared by value whatever their types, [True]
    being 1 and [False] 0; a string equals strings only, [None] only
    itself. *)
Definition py_eq (a b : pyval) : bool :=
  match a, b with
  | PInt x, PInt y => Z.eqb x y
  | PInt x, PBool t => Z.eqb x (Z.b2z t)
  | PBool t, PInt y => Z.eqb (Z.b2z t) y
  | PBool t, PBool u => Bool.eqb t u
  | PInt x, PFloat f => float_eq_int f x
  | PFloat f, PInt y => float_eq_int f y
  | PBool t, PFloat f => float_eq_int f (Z.b2z t)
  | PFloat f, PBool u => float_eq_int f (Z.b2z u)
  | PFloat f, PFloat g => float_eqb f g
  | PStr s, PStr t => String.eqb s t
  | PNone, PNone => true
  | _, _ => false
  end.

(** [a < b] and [a > b] against an integer bound: numbers are ordered
    with integers, and no comparison with NaN holds; strings and [None]
    are not ordered with integers. *)
Definition py_lt (a : pyval) (b : Z) : res bool :=
  match a with
  | PInt x => Ok (Z.ltb x b)
  | PBool t => Ok (Z.ltb (Z.b2z t) b)
  | PFloat x => Ok (match float_compare_int x b with Some Lt => true | _ => false end)
  | _ => Raise (TypeError (String.append "'<' not supported between instances of '"
                             (String.append (type_name_of a) "' and 'int'")))
  end.

Definition py_gt (a : pyval) (b : Z) : res bool :=
  match a with
  | PInt x => Ok (Z.gtb x b)
  | PBool t => Ok (Z.gtb (Z.b2z t) b)
  | PFloat x => Ok (match float_compare_int x b with Some Gt => true | _ => false end)
  | _ => Raise (TypeError (String.append "'>' not supported between instances of '"
                             (String.append (type_name_of a) "' and 'int'")))
  end.

(** Truth value of [if v:]. *)
Definition truthy (v : pyval) : bool :=
  match v with
  | PInt z => negb (Z.eqb z 0)
  | PStr s => negb (String.eqb s "")
  | PNone => false
  | PFloat (S754_zero _) => false
  | PFloat _ => true
  | PBool b => b
  end.

(** A [%d] conversion prints the integer of a number, a float cut
    towards zero, and accepts numbers only. *)
Definition fmt_d (v : pyval) : res atom :=
  match v with
  | PInt _ => Ok (AVal v)
  | PBool t => Ok (AVal (PInt (Z.b2z t)))
  | PFloat x =>
      match float_to_int x with
      | Ok z => Ok (AVal (PInt z))
      | Raise e => Raise e
      end
  | _ => Raise (TypeError (String.append "%d format: a real number is required, not "
                             (type_name_of v)))
  end.

(** [a, b, ... = t] for [n] names and a tuple [t] of another length. *)
Definition str_nat (n : nat) : string := NilZero.string_of_uint (Nat.to_uint n).

Definition unpack_error (n : nat) (t : list pyval) : exn :=
  if Nat.ltb (List.length t) n then
    ValueError (String.append "not enough values to unpack (expected "
                  (String.append (str_nat n)
                     (String.append ", got "
                        (String.append (str_nat (List.length t)) ")"))))
  else
    ValueError (String.append "too many values to unpack (expected "
                  (String.append (str_nat n) ")")).

(** [t[i]] on a tuple. *)
Definition getitem (t : list pyval) (i : nat) : res pyval :=
  match nth_error t i with
  | Some v => Ok v
  | None => Raise (IndexError "tuple index out of range")
  end.

(** [s.upper()] on ASCII text. *)
Definition upper_ascii (c : ascii) : ascii :=
  let n := nat_of_ascii c in
  if andb (Nat.leb 97 n) (Nat.leb n 122) then ascii_of_nat (n - 32)%nat else c.

Fixpoint upper (s : string) : string :=
  match s with
  | EmptyString => EmptyString
  | String c rest => String (upper_ascii c) (upper rest)
  end.

(** [for idx, x in enumerate(xs): body idx x], from index [idx]. *)
Fixpoint for_enumerate {A} (body : nat -> A -> io unit) (idx : nat) (xs : list A)
  : io unit :=
  match xs with
  | [] => ret tt
  | x :: rest => body idx x ;; for_enumerate body (S idx) rest
  end.

(** [for x in xs: body x]. *)
Fixpoint for_each {A} (body : A -> io unit) (xs : list A) : io unit :=
  match xs with
  | [] => ret tt
  | x :: rest => body x ;; for_each body rest
  end.

(** The module constants, the same in every variant. *)
Definition MAX_BAUD_RATE : Z := 921400.
Definition MIN_BAUD_RATE : Z := 2400.
Definition MAX_CS_VAL : Z := 7.
Definition MAX_I2C_ADDR : Z := 127.

(** ** List objects and aliasing

    A [Sensors] instance does not hold its sensors: it holds a reference
    to a Python list object.  [def __init__(self, sensors=[])] evaluates
    its default once, when the class body runs, so that one list object
    is the default of every later call. *)

Definition loc : Type := nat.

(** The address of the default argument of [Sensors.__init__]. *)
Definition default_sensors : loc := O.

(** An instance of [Sensors]: its attribute [sensors]. *)
Record Sensors : Type := { sensors : loc }.

(** [Sensors(sensors=arg)]: [self.sensors = sensors]. *)
Definition Sensors_init (arg : option loc) : Sensors :=
  {| sensors := match arg with Some l => l | None => default_sensors end |}.

Section Store.
Variable A : Type.

(** The list objects of a run, by address. *)
Definition heap : Type := list (list A).

Definition load (h : heap) (l : loc) : list A := nth l h [].

Fixpoint store (h : heap) (l : loc) (v : list A) : heap :=
  match h, l with
  | [], _ => []
  | _ :: rest, O => v :: rest
  | x :: rest, S l' => x :: store rest l' v
  end.

(** A list display [[]] evaluated at run time: a new list object. *)
Definition alloc (h : heap) : heap * loc := (h ++ [[]], List.length h).

(** The store once the module is loaded: the default list, empty. *)
Definition module_heap : heap := [[]].

(** A method that updates the list [self.sensors], run on the store. *)
Definition on_self (method : list A -> io (list A)) (h : heap) (self : Sensors)
  : io heap :=
  s' <- method (load h (sensors self)) ;;
  ret (store h (sensors self) s').
End Store.

Arguments load {A} h l.
Arguments store {A} h l v.
Arguments alloc {A} h.
Arguments module_heap {A}.
Arguments on_self {A} method h self.

(** * sensors_consolidated.py *)

Module Consolidated.

Inductive config_fn : Type := configure_i2c_sensor | configure_spi_sensor.

Inductive read_fn : Type := get_i2c_val | get_spi_val | get_uart_val.

Definition call_config (f : config_fn) (bus_no x : pyval) : io unit :=
  match f with
  | configure_i2c_sensor =>
      print (PrintF "Configuring I2C-sensor with bus#: %s and address: %s..."
               [AVal bus_no; AVal x])
  | configure_spi_sensor =>
      print (PrintF "Configuring SPI-sensor with bus#: %s and CS-num: %s..."
               [AVal bus_no; AVal x])
  end.

Definition call_read (f : read_fn) : io readout :=
  match f with
  | get_i2c_val =>
      print (Print [AStr "Reading I2C-sensor ..."]) ;; ret (RFloat (Float 5555 3))
  | get_spi_val =>
      print (Print [AStr "Reading SPI-sensor ..."]) ;; ret (RFloat (Float 7777 3))
  | get_uart_val =>
      print (Print [AStr "Reading I2C-sensor ..."]) ;; ret (RFloat (Float 31234 4))
  end.

(** [ExternalSensorBase]: the attributes of an instance. *)
Record ExternalSensorBase : Type := {
  config : option config_fn;
  read : read_fn;
  type_name : string;
  bus_no : pyval;
  dev_name : pyval;
  alias : pyval;
  bus_prop1 : string
}.

Definition bus_property1 (k : string) : res string :=
  if String.eqb k "i2c" then Ok "bus-address"
  else if String.eqb k "spi" then Ok "ChipSelect-number"
  else if String.eqb k "uart" then Ok "baud_rate"
  else Raise (KeyError (PStr k)).

(** [ExternalSensorBase.__init__]. *)
Definition ExternalSensorBase_init (type_name : string) (bus_no dev_name alias : pyval)
    (config : option config_fn) (read : read_fn) : res ExternalSensorBase :=
  match bus_property1 type_name with
  | Ok prop1 =>
      Ok {| config := config;
            read := read;
            type_name := type_name;
            bus_no := bus_no;
            dev_name := if truthy dev_name then dev_name else PStr "none";
            alias := if truthy alias then alias else PStr "none";
            bus_prop1 := prop1 |}
  | Raise e => Raise e
  end.

(** The bus-specific classes; each instance has its own attributes and
    a [base]. *)
Inductive sensor_t : Type :=
| I2cSensor (type_name : string) (i2c_addr : pyval) (base : ExternalSensorBase)
| SpiSensor (type_name : string) (cs_no : pyval) (base : ExternalSensorBase)
| UartSensor (type_name : string) (bus_no baud_rate : pyval)
    (base : ExternalSensorBase).

(** [sensor.base]. *)
Definition base (s : sensor_t) : ExternalSensorBase :=
  match s with
  | I2cSensor _ _ b | SpiSensor _ _ b | UartSensor _ _ _ b => b
  end.

(** [sensor.type_name]. *)
Definition own_type_name (s : sensor_t) : string :=
  match s with
  | I2cSensor t _ _ | SpiSensor t _ _ | UartSensor t _ _ _ => t
  end.

(** [sensor.i2c_addr], [sensor.cs_no], [sensor.baud_rate]: an attribute
    the instance does not have raises. *)
Definition i2c_addr (s : sensor_t) : res pyval :=
  match s with
  | I2cSensor _ a _ => Ok a
  | _ => Raise (AttributeError "i2c_addr")
  end.

Definition cs_no (s : sensor_t) : res pyval :=
  match s with
  | SpiSensor _ c _ => Ok c
  | _ => Raise (AttributeError "cs_no")
  end.

Definition baud_rate (s : sensor_t) : res pyval :=
  match s with
  | UartSensor _ _ r _ => Ok r
  | _ => Raise (AttributeError "baud_rate")
  end.

(** [ExternalSensorBase.get_info].  Its first test, [type_name is None],
    never holds: every constructor passes a string literal. *)
Definition base_get_info (b : ExternalSensorBase) : io unit :=
  let bus_type_name := upper (type_name b) in
  print (PrintF "%s-sensor properties:" [AStr bus_type_name]) ;;
  print (Print [AStr "---------------------"]) ;;
  no <- lift (fmt_d (bus_no b)) ;;
  print (PrintF "%s-interface no: %d" [AStr bus_type_name; no]) ;;
  print (PrintF "%s connected device: %s" [AStr bus_type_name; AVal (dev_name b)]) ;;
  print (PrintF "%s sensor alias: %s" [AStr bus_type_name; AVal (alias b)]) ;;
  print (Print [AStr "Bus-specific properties:"]).

(** [get_info] of the three classes. *)
Definition get_info (s : sensor_t) : io unit :=
  base_get_info (base s) ;;
  match s with
  | I2cSensor _ a _ =>
      x <- lift (fmt_d a) ;; print (PrintF "I2C-address: %d" [x])
  | SpiSensor _ c _ =>
      x <- lift (fmt_d c) ;; print (PrintF "SPI ChipSelect-num: %d" [x])
  | UartSensor _ _ r _ =>
      x <- lift (fmt_d r) ;; print (PrintF "UART baudrate: %d" [x])
  end ;;
  print (Print [AStr ""]).

(** The classes themselves, as the values of [sensor_type_map]. *)
Inductive sensor_class : Type := class_I2cSensor | class_SpiSensor | class_UartSensor.

Definition class_name (c : sensor_class) : string :=
  match c with
  | class_I2cSensor => "I2cSensor"
  | class_SpiSensor => "SpiSensor"
  | class_UartSensor => "UartSensor"
  end.

(** [I2cSensor(base_type=ExternalSensorBase)] and its siblings. *)
Definition I2cSensor_init : io sensor_t :=
  print (Print [AStr "Creating a I2C sensor ..."]) ;;
  b <- lift (ExternalSensorBase_init "i2c" PNone PNone PNone
               (Some configure_i2c_sensor) get_i2c_val) ;;
  match config b with
  | None =>
      print (Print [AStr "No configuration/initialization of sensor specified initially - skipping."])
  | Some f => call_config f (bus_no b) PNone
  end ;;
  ret (I2cSensor "i2c" PNone b).

Definition SpiSensor_init : io sensor_t :=
  print (Print [AStr "Creating a SPI sensor ..."]) ;;
  b <- lift (ExternalSensorBase_init "spi" PNone PNone PNone
               (Some configure_spi_sensor) get_spi_val) ;;
  match config b with
  | None =>
      print (Print [AStr "No configuration/initialization of sensor specified - skipping."])
  | Some f => call_config f (bus_no b) PNone
  end ;;
  ret (SpiSensor "spi" PNone b).

(** [UartSensor] passes no [config]; its [else] branch reads an
    attribute [cs_no] the class does not have. *)
Definition UartSensor_init : io sensor_t :=
  print (Print [AStr "Creating a UART sensor ..."]) ;;
  b <- lift (ExternalSensorBase_init "uart" PNone PNone PNone None get_uart_val) ;;
  match config b with
  | None =>
      print (Print [AStr "No configuration/initialization of sensor specified - skipping."])
  | Some _ => raise (AttributeError "cs_no")
  end ;;
  ret (UartSensor "uart" PNone PNone b).

Definition new_sensor (c : sensor_class) : io sensor_t :=
  match c with
  | class_I2cSensor => I2cSensor_init
  | class_SpiSensor => SpiSensor_init
  | class_UartSensor => UartSensor_init
  end.

(** *** SensorBuilder *)

(** The attribute names of the three property lists, the only names
    [build_sensor] passes to [with_field]. *)
Inductive prop : Type :=
| p_bus_no | p_i2c_addr | p_cs_no | p_baud_rate | p_dev_name | p_alias.

Definition prop_name (p : prop) : string :=
  match p with
  | p_bus_no => "bus_no"
  | p_i2c_addr => "i2c_addr"
  | p_cs_no => "cs_no"
  | p_baud_rate => "baud_rate"
  | p_dev_name => "dev_name"
  | p_alias => "alias"
  end.

Definition uart_prop_list : list prop := [p_bus_no; p_baud_rate; p_dev_name; p_alias].
Definition spi_prop_list : list prop := [p_bus_no; p_cs_no; p_dev_name; p_alias].
Definition i2c_prop_list : list prop := [p_bus_no; p_i2c_addr; p_dev_name; p_alias].

(** [field_name in self.sensor_obj.base.__dict__]. *)
Definition in_base_props (p : prop) : bool :=
  match p with
  | p_bus_no | p_dev_name | p_alias => true
  | _ => false
  end.

(** [field_name in self.sensor_obj.__dict__]. *)
Definition in_dev_props (s : sensor_t) (p : prop) : bool :=
  match s, p with
  | I2cSensor _ _ _, p_i2c_addr => true
  | SpiSensor _ _ _, p_cs_no => true
  | UartSensor _ _ _ _, p_bus_no => true
  | UartSensor _ _ _ _, p_baud_rate => true
  | _, _ => false
  end.

(** [base.__dict__[field_name] = field_value]. *)
Definition set_base_prop (b : ExternalSensorBase) (p : prop) (v : pyval)
  : ExternalSensorBase :=
  match p with
  | p_bus_no =>
      {| config := config b; read := read b; type_name := type_name b;
         bus_no := v; dev_name := dev_name b; alias := alias b;
         bus_prop1 := bus_prop1 b |}
  | p_dev_name =>
      {| config := config b; read := read b; type_name := type_name b;
         bus_no := bus_no b; dev_name := v; alias := alias b;
         bus_prop1 := bus_prop1 b |}
  | p_alias =>
      {| config := config b; read := read b; type_name := type_name b;
         bus_no := bus_no b; dev_name := dev_name b; alias := v;
         bus_prop1 := bus_prop1 b |}
  | _ => b
  end.

Definition with_base (s : sensor_t) (b : ExternalSensorBase) : sensor_t :=
  match s with
  | I2cSensor t a _ => I2cSensor t a b
  | SpiSensor t c _ => SpiSensor t c b
  | UartSensor t n r _ => UartSensor t n r b
  end.

(** [sensor_obj.__dict__[field_name] = field_value]. *)
Definition set_dev_prop (s : sensor_t) (p : prop) (v : pyval) : sensor_t :=
  match s, p with
  | I2cSensor t _ b, p_i2c_addr => I2cSensor t v b
  | SpiSensor t _ b, p_cs_no => SpiSensor t v b
  | UartSensor t _ r b, p_bus_no => UartSensor t v r b
  | UartSensor t n _ b, p_baud_rate => UartSensor t n v b
  | _, _ => s
  end.

(** [SensorBuilder.with_field]: the base object first, then the device
    object; a name in neither is only warned about. *)
Definition with_field (sensor_obj : sensor_t) (field_name : prop) (field_value : pyval)
  : io sensor_t :=
  if negb (in_base_props field_name) then
    print (PrintF "Warning: field named '%s' - not in (base)class! Possibly extending class ..."
             [AStr (prop_name field_name)]) ;;
    if negb (in_dev_props sensor_obj field_name) then
      print (PrintF "Warning: field named '%s' - not in (sub)class! Possibly extending class ..."
               [AStr (prop_name field_name)]) ;;
      ret sensor_obj
    else
      print (PrintF "Sensor-update: field named '%s' - updated with value=%s ..."
               [AStr (prop_name field_name); AVal field_value]) ;;
      ret (set_dev_prop sensor_obj field_name field_value)
  else
    print (PrintF "Sensor-update: field named '%s' - updated with value=%s ..."
             [AStr (prop_name field_name); AVal field_value]) ;;
    ret (with_base sensor_obj (set_base_prop (base sensor_obj) field_name field_value)).

(** *** The registry *)

Definition sensor_type_map (k : pyval) : res sensor_class :=
  match k with
  | PStr s =>
      if String.eqb s "i2c" then Ok class_I2cSensor
      else if String.eqb s "spi" then Ok class_SpiSensor
      else if String.eqb s "uart" then Ok class_UartSensor
      else Raise (KeyError k)
  | _ => Raise (KeyError k)
  end.

Definition is_type (t : string) (s : sensor_t) : bool := String.eqb (type_name (base s)) t.

Definition get_i2c_sensors (sensors : list sensor_t) : list sensor_t :=
  filter (is_type "i2c") sensors.

Definition get_spi_sensors (sensors : list sensor_t) : list sensor_t :=
  filter (is_type "spi") sensors.

Definition get_uart_sensors (sensors : list sensor_t) : list sensor_t :=
  filter (is_type "uart") sensors.

(** The loop of [i2c_validate] over the I2C sensors: only the address
    is compared. *)
Fixpoint i2c_scan (sensor : sensor_t) (i2c_sensors : list sensor_t) : io bool :=
  match i2c_sensors with
  | [] => ret true
  | i2c_sensor :: rest =>
      a <- lift (i2c_addr sensor) ;;
      b <- lift (i2c_addr i2c_sensor) ;;
      if py_eq a b then
        x <- lift (fmt_d a) ;;
        y <- lift (fmt_d (bus_no (base sensor))) ;;
        print (PrintF "ERROR validating I2C-sensor: address=%d already in use on bus#=%d!"
                 [x; y]) ;;
        ret false
      else i2c_scan sensor rest
  end.

Definition i2c_validate (sensors : list sensor_t) (sensor : sensor_t) : io bool :=
  i2c_scan sensor (get_i2c_sensors sensors).

(** The loop of [spi_validate]: bus number and chip select. *)
Fixpoint spi_scan (sensor : sensor_t) (spi_sensors : list sensor_t) : io bool :=
  match spi_sensors with
  | [] => ret true
  | spi_sensor :: rest =>
      same <- (if py_eq (bus_no (base sensor)) (bus_no (base spi_sensor)) then
                 a <- lift (cs_no sensor) ;;
                 b <- lift (cs_no spi_sensor) ;;
                 ret (py_eq a b)
               else ret false) ;;
      if same : bool then
        a <- lift (cs_no sensor) ;;
        x <- lift (fmt_d a) ;;
        y <- lift (fmt_d (bus_no (base sensor))) ;;
        print (PrintF "ERROR validating SPI-sensor: CS=%d already in use on bus#=%d!"
                 [x; y]) ;;
        ret false
      else spi_scan sensor rest
  end.

Definition spi_validate (sensors : list sensor_t) (sensor : sensor_t) : io bool :=
  spi_scan sensor (get_spi_sensors sensors).

(** The loop of [uart_validate]: the port number alone. *)
Fixpoint uart_scan (sensor : sensor_t) (uart_sensors : list sensor_t) : io bool :=
  match uart_sensors with
  | [] => ret true
  | uart_sensor :: rest =>
      if py_eq (bus_no (base sensor)) (bus_no (base uart_sensor)) then
        x <- lift (fmt_d (bus_no (base sensor))) ;;
        print (PrintF "ERROR validating UART-sensor: serialport=%d already in use!" [x]) ;;
        ret false
      else uart_scan sensor rest
  end.

Definition uart_validate (sensors : list sensor_t) (sensor : sensor_t) : io bool :=
  uart_scan sensor (get_uart_sensors sensors).

(** The dictionary [validators] of [add_sensor]. *)
Definition validators (k : string) : res (list sensor_t -> sensor_t -> io bool) :=
  if String.eqb k "i2c" then Ok i2c_validate
  else if String.eqb k "spi" then Ok spi_validate
  else if String.eqb k "uart" then Ok uart_validate
  else Raise (KeyError (PStr k)).

(** The choice of the property list in [build_sensor], on the type name
    of the raw object. *)
Definition select_prop_list (raw_type_name : string) : io (option (list prop)) :=
  if String.eqb raw_type_name "uart" then
    print (Print [AStr "Using UART properties ..."]) ;; ret (Some uart_prop_list)
  else if String.eqb raw_type_name "spi" then
    print (Print [AStr "Using SPI properties ..."]) ;; ret (Some spi_prop_list)
  else if String.eqb raw_type_name "i2c" then
    print (Print [AStr "Using I2C properties ..."]) ;; ret (Some i2c_prop_list)
  else
    print (Print [AStr "BUILDER ERROR: sensor is of UNKNOWN type!!"]) ;; ret None.

(** The building loop of [build_sensor]: property [idx] takes
    [ppack[idx]]. *)
Fixpoint build_fields (tmp : sensor_t) (idx : nat) (prop_list : list prop)
    (ppack : list pyval) : io sensor_t :=
  match prop_list with
  | [] => ret tmp
  | sensor_prop_name :: rest =>
      field_val <- lift (getitem ppack idx) ;;
      print (PrintF "Building sensor with property %s = '%s'"
               [AStr (prop_name sensor_prop_name); AVal field_val]) ;;
      tmp' <- with_field tmp sensor_prop_name field_val ;;
      build_fields tmp' (S idx) rest ppack
  end.

(** [Sensors.build_sensor], as [add_sensor] calls it: all three
    arguments given, so the guard on [None] does not fire, and
    [base_clsname=ExternalSensorBase].  [repr] of an object prints its
    class and an address; [ARepr] keeps the class. *)
Definition build_sensor (sensor_clsname : sensor_class) (ppack : list pyval)
  : io sensor_t :=
  print (PrintF "Building sensor using class '%s' with base '%s' ..."
           [ARepr (class_name sensor_clsname); ARepr "ExternalSensorBase"]) ;;
  for_enumerate
    (fun pidx param => print (PrintF "Parameter %s: %s" [AIdx pidx; AVal param]))
    O ppack ;;
  raw_obj <- new_sensor sensor_clsname ;;
  print (PrintF "Created raw sensor object: %s" [ARepr (class_name sensor_clsname)]) ;;
  print (Print [AStr "SensorBuilder() running ..."]) ;;
  print (PrintF "Created sensor object of type: %s" [ARepr (class_name sensor_clsname)]) ;;
  print (PrintF "Created sensor builder: %s" [ARepr "SensorBuilder"]) ;;
  prop_list <- select_prop_list (own_type_name raw_obj) ;;
  match prop_list with
  | None => raise (TypeError "'NoneType' object is not iterable")
  | Some props =>
      sensor <- build_fields raw_obj O props ppack ;;
      print (PrintF "Built sensor: %s" [ARepr (class_name sensor_clsname)]) ;;
      ret sensor
  end.

(** The body of the [try] of [add_sensor]. *)
Definition add_sensor_try (sensors : list sensor_t) (sensor_class_type : sensor_class)
    (ppack : list pyval) : io (list sensor_t) :=
  sensor <- build_sensor sensor_class_type (tl ppack) ;;
  print (Print [AStr "Validating sensor properties ..."]) ;;
  validator <- lift (validators (type_name (base sensor))) ;;
  ok <- validator sensors sensor ;;
  if ok : bool then ret (sensors ++ [sensor])
  else raise (PyException "Parameter ERROR: cannot add sensor to sensor-list!").

(** The [except Exception as exc] of [add_sensor]. *)
Definition add_sensor_except (sensors : list sensor_t) (exc : exn) : io (list sensor_t) :=
  print (Print [AStr "ERROR creating sensor!!"]) ;;
  print (Print [AArgs exc]) ;;
  ret sensors.

(** [Sensors.add_sensor], on the list [self.sensors]: the result is the
    list after the call.  The look-up in [sensor_type_map] comes before
    the [try]. *)
Definition add_sensor (sensors : list sensor_t) (ppack : list pyval) : io (list sensor_t) :=
  sensor_type <- lift (getitem ppack 0) ;;
  print (Print [AStr "Type: "; AVal sensor_type]) ;;
  sensor_class_type <- lift (sensor_type_map sensor_type) ;;
  try_except (add_sensor_try sensors sensor_class_type ppack)
             (add_sensor_except sensors).

(** [Sensors.list_sensors]. *)
Definition list_sensors (sensors : list sensor_t) : io unit :=
  if Nat.eqb (List.length sensors) 0 then
    print (Print [AStr "No sensors registered!"])
  else
    print (Print [AStr ""]) ;;
    print (Print [AStr "Registered sensors:"]) ;;
    print (Print [AStr "==================="]) ;;
    for_each get_info sensors.

(** The body of the loop of [read_sensors], from the value read: the
    branch for structured values is disabled in this file. *)
Definition read_sensors_dispatch (idx : nat) (sensor : sensor_t) (val : readout)
  : io unit :=
  print (PrintF "Sensor no.%d: %s (type=%s) value = %s"
           [AIdx idx; AVal (alias (base sensor)); AVal (dev_name (base sensor));
            ARead val]) ;;
  match val with
  | RFloat _ => ret tt
  | RList items =>
      print (Print [AStr "Value list:"]) ;;
      print (Print [AStr "------------"]) ;;
      for_enumerate
        (fun val_no item_val =>
           x <- lift (fmt_d item_val) ;;
           print (PrintF "Value no.%d = %d" [AIdx val_no; x]))
        O items ;;
      print (Print [AStr ""])
  | _ => print (Print [AStr "Reading sensor: complex value - cannot parse!"])
  end.

(** [Sensors.read_sensors]. *)
Definition read_sensors (sensors : list sensor_t) : io unit :=
  print (Print [AStr "Registered sensors:"]) ;;
  print (Print [AStr "==================="]) ;;
  for_enumerate
    (fun idx sensor =>
       val <- call_read (read (base sensor)) ;;
       read_sensors_dispatch idx sensor val)
    O sensors.

(** [add_sensor] as a method of an instance, on the store. *)
Definition add_sensor_method (h : heap sensor_t) (self : Sensors)
    (ppack : list pyval) : io (heap sensor_t) :=
  on_self (fun l => add_sensor l ppack) h self.

End Consolidated.

(** * sensors.py *)

Module ParamPack.

Inductive read_fn : Type := get_i2c_val | get_spi_val | get_uart_val.

Definition call_read (f : read_fn) : io readout :=
  match f with
  | get_i2c_val =>
      print (Print [AStr "Getting I2C-sensor value ..."]) ;; ret (RInt 1)
  | get_spi_val =>
      print (Print [AStr "Getting SPI-sensor value ..."]) ;; ret (RInt 2)
  | get_uart_val =>
      print (Print [AStr "Getting UART-sensor value ..."]) ;; ret (RInt 3)
  end.

(** The attributes [SensorBase.__init__] sets. *)
Record SensorBase : Type := {
  read : read_fn;
  bus_no : pyval;
  dev_name : pyval;
  alias : pyval
}.

Definition SensorBase_init (bus_no dev_name alias : pyval) (read : read_fn)
  : SensorBase :=
  {| read := read;
     bus_no := bus_no;
     dev_name := if truthy dev_name then dev_name else PStr "none";
     alias := if truthy alias then alias else PStr "none" |}.

(** The three subclasses: the attribute of the subclass and the
    inherited ones. *)
Inductive sensor_t : Type :=
| I2cSensor (i2c_addr : pyval) (base : SensorBase)
| SpiSensor (cs_no : pyval) (base : SensorBase)
| UartSensor (baud_rate : pyval) (base : SensorBase).

(** [a, b, c, d = ppack]. *)
Definition unpack4 (ppack : list pyval) : res (pyval * pyval * pyval * pyval) :=
  match ppack with
  | [a; b; c; d] => Ok (a, b, c, d)
  | _ => Raise (unpack_error 4 ppack)
  end.

(** [v < lo or v > hi]. *)
Definition outside (v : pyval) (lo hi : Z) : res bool :=
  match py_lt v lo with
  | Ok true => Ok true
  | Ok false => py_gt v hi
  | Raise e => Raise e
  end.

(** [I2cSensor.__init__]. *)
Definition I2cSensor_init (ppack : list pyval) : res sensor_t :=
  match unpack4 ppack with
  | Ok (bus_no, i2c_addr, dev_name, alias) =>
      match outside i2c_addr 0 MAX_I2C_ADDR with
      | Ok true => Raise (ValueError "Invalid I2C-address specified!")
      | Ok false =>
          Ok (I2cSensor i2c_addr (SensorBase_init bus_no dev_name alias get_i2c_val))
      | Raise e => Raise e
      end
  | Raise e => Raise e
  end.

(** [SpiSensor.__init__]. *)
Definition SpiSensor_init (ppack : list pyval) : res sensor_t :=
  match unpack4 ppack with
  | Ok (bus_no, cs_no, dev_name, alias) =>
      match outside cs_no 0 MAX_CS_VAL with
      | Ok true => Raise (ValueError "Invalid CS-number specified!")
      | Ok false =>
          Ok (SpiSensor cs_no (SensorBase_init bus_no dev_name alias get_spi_val))
      | Raise e => Raise e
      end
  | Raise e => Raise e
  end.

(** [UartSensor.__init__]. *)
Definition UartSensor_init (ppack : list pyval) : res sensor_t :=
  match unpack4 ppack with
  | Ok (bus_no, baud_rate, dev_name, alias) =>
      match outside baud_rate MIN_BAUD_RATE MAX_BAUD_RATE with
      | Ok true => Raise (ValueError "Invalid baud-rate specified!")
      | Ok false =>
          Ok (UartSensor baud_rate (SensorBase_init bus_no dev_name alias get_uart_val))
      | Raise e => Raise e
      end
  | Raise e => Raise e
  end.

Definition sensor_type_map (k : pyval) : res (list pyval -> res sensor_t) :=
  match k with
  | PStr s =>
      if String.eqb s "i2c" then Ok I2cSensor_init
      else if String.eqb s "spi" then Ok SpiSensor_init
      else if String.eqb s "uart" then Ok UartSensor_init
      else Raise (KeyError k)
  | _ => Raise (KeyError k)
  end.

(** The [except Exception as exc] of [add_sensor]. *)
Definition add_sensor_except (sensors : list sensor_t) (exc : exn) : io (list sensor_t) :=
  print (Print [AStr "ERROR creating sensor!!"]) ;;
  print (Print [AArgs exc]) ;;
  ret sensors.

(** [Sensors.add_sensor]: no validator in this variant. *)
Definition add_sensor (sensors : list sensor_t) (ppack : list pyval) : io (list sensor_t) :=
  type <- lift (getitem ppack 0) ;;
  let sub_ppack := tl ppack in
  print (Print [AStr "Type: "; AVal type]) ;;
  sensor_creator <- lift (sensor_type_map type) ;;
  try_except
    (sensor <- lift (sensor_creator sub_ppack) ;;
     ret (sensors ++ [sensor]))
    (add_sensor_except sensors).

(** [add_sensor] as a method of an instance, on the store. *)
Definition add_sensor_method (h : heap sensor_t) (self : Sensors)
    (ppack : list pyval) : io (heap sensor_t) :=
  on_self (fun l => add_sensor l ppack) h self.

End ParamPack.

(** * sensors_exp.py *)

Module Exp.

Inductive read_fn : Type := get_i2c_val | get_spi_val | get_uart_val.

(** The attributes [SensorBase.__init__] sets. *)
Record SensorBase : Type := {
  read : read_fn;
  type_name : string;
  bus_no : pyval;
  dev_name : pyval;
  alias : pyval;
  bus_prop1 : string
}.

Definition bus_property1 (k : pyval) : res (string * string) :=
  match k with
  | PStr s =>
      if String.eqb s "i2c" then Ok (s, "bus-address")
      else if String.eqb s "spi" then Ok (s, "ChipSelect-number")
      else if String.eqb s "uart" then Ok (s, "baud_rate")
      else Raise (KeyError k)
  | _ => Raise (KeyError k)
  end.

(** [SensorBase.__init__]: the last statement looks the type name up in
    [bus_property1]. *)
Definition SensorBase_init (type_name bus_no dev_name alias : pyval) (read : read_fn)
  : res SensorBase :=
  match bus_property1 type_name with
  | Ok (name, prop1) =>
      Ok {| read := read;
            type_name := name;
            bus_no := bus_no;
            dev_name := if truthy dev_name then dev_name else PStr "none";
            alias := if truthy alias then alias else PStr "none";
            bus_prop1 := prop1 |}
  | Raise e => Raise e
  end.

Inductive sensor_t : Type :=
| I2cSensor (i2c_addr : pyval) (base : SensorBase)
| SpiSensor (cs_no : pyval) (base : SensorBase)
| UartSensor (baud_rate : pyval) (base : SensorBase).

(** The inherited attributes of an instance. *)
Definition base (s : sensor_t) : SensorBase :=
  match s with
  | I2cSensor _ b | SpiSensor _ b | UartSensor _ b => b
  end.

Definition i2c_addr (s : sensor_t) : res pyval :=
  match s with
  | I2cSensor a _ => Ok a
  | _ => Raise (AttributeError "i2c_addr")
  end.

Definition cs_no (s : sensor_t) : res pyval :=
  match s with
  | SpiSensor c _ => Ok c
  | _ => Raise (AttributeError "cs_no")
  end.

(** [a, b, c, d, e = ppack]. *)
Definition unpack5 (ppack : list pyval)
  : res (pyval * pyval * pyval * pyval * pyval) :=
  match ppack with
  | [a; b; c; d; e] => Ok (a, b, c, d, e)
  | _ => Raise (unpack_error 5 ppack)
  end.

(** [v < lo or v > hi]. *)
Definition outside (v : pyval) (lo hi : Z) : res bool :=
  match py_lt v lo with
  | Ok true => Ok true
  | Ok false => py_gt v hi
  | Raise e => Raise e
  end.

(** [I2cSensor.__init__]. *)
Definition I2cSensor_init (ppack : list pyval) : res sensor_t :=
  match unpack5 ppack with
  | Ok (type_name, bus_no, i2c_addr, dev_name, alias) =>
      match outside i2c_addr 0 MAX_I2C_ADDR with
      | Ok true => Raise (ValueError "Invalid I2C-address specified!")
      | Ok false =>
          match SensorBase_init type_name bus_no dev_name alias get_i2c_val with
          | Ok b => Ok (I2cSensor i2c_addr b)
          | Raise e => Raise e
          end
      | Raise e => Raise e
      end
  | Raise e => Raise e
  end.

(** [SpiSensor.__init__]. *)
Definition SpiSensor_init (ppack : list pyval) : res sensor_t :=
  match unpack5 ppack with
  | Ok (type_name, bus_no, cs_no, dev_name, alias) =>
      match outside cs_no 0 MAX_CS_VAL with
      | Ok true => Raise (ValueError "Invalid CS-number specified!")
      | Ok false =>
          match SensorBase_init type_name bus_no dev_name alias get_spi_val with
          | Ok b => Ok (SpiSensor cs_no b)
          | Raise e => Raise e
          end
      | Raise e => Raise e
      end
  | Raise e => Raise e
  end.

(** [UartSensor.__init__]. *)
Definition UartSensor_init (ppack : list pyval) : res sensor_t :=
  match unpack5 ppack with
  | Ok (type_name, bus_no, baud_rate, dev_name, alias) =>
      match outside baud_rate MIN_BAUD_RATE MAX_BAUD_RATE with
      | Ok true => Raise (ValueError "Invalid baud-rate specified!")
      | Ok false =>
          match SensorBase_init type_name bus_no dev_name alias get_uart_val with
          | Ok b => Ok (UartSensor baud_rate b)
          | Raise e => Raise e
          end
      | Raise e => Raise e
      end
  | Raise e => Raise e
  end.

Definition sensor_type_map (k : pyval) : res (list pyval -> res sensor_t) :=
  match k with
  | PStr s =>
      if String.eqb s "i2c" then Ok I2cSensor_init
      else if String.eqb s "spi" then Ok SpiSensor_init
      else if String.eqb s "uart" then Ok UartSensor_init
      else Raise (KeyError k)
  | _ => Raise (KeyError k)
  end.

Definition is_type (t : string) (s : sensor_t) : bool := String.eqb (type_name (base s)) t.

Definition get_i2c_sensors (sensors : list sensor_t) : list sensor_t :=
  filter (is_type "i2c") sensors.

Definition get_spi_sensors (sensors : list sensor_t) : list sensor_t :=
  filter (is_type "spi") sensors.

Definition get_uart_sensors (sensors : list sensor_t) : list sensor_t :=
  filter (is_type "uart") sensors.

(** The loop of [i2c_validate]: only the address is compared. *)
Fixpoint i2c_scan (sensor : sensor_t) (i2c_sensors : list sensor_t) : io bool :=
  match i2c_sensors with
  | [] => ret true
  | i2c_sensor :: rest =>
      a <- lift (i2c_addr sensor) ;;
      b <- lift (i2c_addr i2c_sensor) ;;
      if py_eq a b then
        x <- lift (fmt_d a) ;;
        y <- lift (fmt_d (bus_no (base sensor))) ;;
        print (PrintF "ERROR validating I2C-sensor: address=%d already in use on bus#=%d!"
                 [x; y]) ;;
        ret false
      else i2c_scan sensor rest
  end.

Definition i2c_validate (sensors : list sensor_t) (sensor : sensor_t) : io bool :=
  i2c_scan sensor (get_i2c_sensors sensors).

(** The loop of [spi_validate]: bus number and chip select. *)
Fixpoint spi_scan (sensor : sensor_t) (spi_sensors : list sensor_t) : io bool :=
  match spi_sensors with
  | [] => ret true
  | spi_sensor :: rest =>
      same <- (if py_eq (bus_no (base sensor)) (bus_no (base spi_sensor)) then
                 a <- lift (cs_no sensor) ;;
                 b <- lift (cs_no spi_sensor) ;;
                 ret (py_eq a b)
               else ret false) ;;
      if same : bool then
        a <- lift (cs_no sensor) ;;
        x <- lift (fmt_d a) ;;
        y <- lift (fmt_d (bus_no (base sensor))) ;;
        print (PrintF "ERROR validating SPI-sensor: CS=%d already in use on bus#=%d!"
                 [x; y]) ;;
        ret false
      else spi_scan sensor rest
  end.

Definition spi_validate (sensors : list sensor_t) (sensor : sensor_t) : io bool :=
  spi_scan sensor (get_spi_sensors sensors).

(** The loop of [uart_validate]: the port number alone. *)
Fixpoint uart_scan (sensor : sensor_t) (uart_sensors : list sensor_t) : io bool :=
  match uart_sensors with
  | [] => ret true
  | uart_sensor :: rest =>
      if py_eq (bus_no (base sensor)) (bus_no (base uart_sensor)) then
        x <- lift (fmt_d (bus_no (base sensor))) ;;
        print (PrintF "ERROR validating UART-sensor: serialport=%d already in use!" [x]) ;;
        ret false
      else uart_scan sensor rest
  end.

Definition uart_validate (sensors : list sensor_t) (sensor : sensor_t) : io bool :=
  uart_scan sensor (get_uart_sensors sensors).

(** The dictionary [validators] of [add_sensor]. *)
Definition validators (k : string) : res (list sensor_t -> sensor_t -> io bool) :=
  if String.eqb k "i2c" then Ok i2c_validate
  else if String.eqb k "spi" then Ok spi_validate
  else if String.eqb k "uart" then Ok uart_validate
  else Raise (KeyError (PStr k)).

(** The body of the [try] of [add_sensor]: the creator takes the whole
    pack. *)
Definition add_sensor_try (sensors : list sensor_t)
    (sensor_creator : list pyval -> res sensor_t) (ppack : list pyval)
  : io (list sensor_t) :=
  sensor <- lift (sensor_creator ppack) ;;
  validator <- lift (validators (type_name (base sensor))) ;;
  ok <- validator sensors sensor ;;
  if ok : bool then ret (sensors ++ [sensor])
  else raise (PyException "Parameter ERROR: cannot add sensor to sensor-list!").

(** The [except Exception as exc] of [add_sensor]. *)
Definition add_sensor_except (sensors : list sensor_t) (exc : exn) : io (list sensor_t) :=
  print (Print [AStr "ERROR creating sensor!!"]) ;;
  print (Print [AArgs exc]) ;;
  ret sensors.

(** [Sensors.add_sensor]. *)
Definition add_sensor (sensors : list sensor_t) (ppack : list pyval) : io (list sensor_t) :=
  type <- lift (getitem ppack 0) ;;
  print (Print [AStr "Type: "; AVal type]) ;;
  sensor_creator <- lift (sensor_type_map type) ;;
  try_except (add_sensor_try sensors sensor_creator ppack)
             (add_sensor_except sensors).

End Exp.

(** * sensors_builder_validatedjson.py: the read-out *)

Module ValidatedJson.

(** sensor_drivers/sensor_driver.py: the three read functions return a
    float, a [ComplexValue] and a list. *)
Inductive read_fn : Type := get_i2c_val | get_spi_val | get_uart_val.

Definition call_read (f : read_fn) : io readout :=
  match f with
  | get_i2c_val =>
      print (Print [AStr "Getting I2C-sensor value ..."]) ;;
      ret (RFloat (Float 112345 5))
  | get_spi_val =>
      print (Print [AStr "Getting SPI-sensor value ..."]) ;;
      ret (RComplex true 7 (Float 8765 3))
  | get_uart_val =>
      print (Print [AStr "Getting UART-sensor value ..."]) ;;
      ret (RList [PInt 3; PInt 4; PInt 5])
  end.

(** What [read_sensors] uses of a sensor: [sensor.base.read],
    [sensor.base.alias] and [sensor.base.dev_name]. *)
Record ExternalSensorBase : Type := {
  read : read_fn;
  dev_name : pyval;
  alias : pyval
}.

Record sensor_t : Type := { base : ExternalSensorBase }.

(** The body of the loop of [read_sensors], from the value read. *)
Definition read_sensors_dispatch (idx : nat) (sensor : sensor_t) (val : readout)
  : io unit :=
  match val with
  | RFloat _ =>
      print (PrintF "Sensor no.%d: %s (type=%s) value = %s"
               [AIdx idx; AVal (alias (base sensor)); AVal (dev_name (base sensor));
                ARead val])
  | RList items =>
      print (Print [AStr "Value list:"]) ;;
      print (Print [AStr "------------"]) ;;
      for_enumerate
        (fun val_no item_val =>
           x <- lift (fmt_d item_val) ;;
           print (PrintF "Value no.%d = %d" [AIdx val_no; x]))
        O items ;;
      print (Print [AStr ""])
  | RComplex triggered channel ch_val =>
      print (Print [AStr "Complex value:"]) ;;
      print (Print [AStr "--------------"]) ;;
      print (Print [AStr "Triggered: "; ABool triggered]) ;;
      print (Print [AStr "Channel no: "; AVal (PInt channel)]) ;;
      print (Print [AStr "Value: "; AFloat ch_val]) ;;
      print (Print [AStr ""])
  | _ => print (Print [AStr "ERROR: cannot parse sensor readout result!"])
  end.

(** [Sensors.read_sensors]. *)
Definition read_sensors (sensors : list sensor_t) : io unit :=
  print (Print [AStr "Registered sensors:"]) ;;
  print (Print [AStr "==================="]) ;;
  for_enumerate
    (fun idx sensor =>
       val <- call_read (read (base sensor)) ;;
       read_sensors_dispatch idx sensor val)
    O sensors.

End ValidatedJson.

(** * sensors_consolidated.py: the generator *)

Module ConsolidatedData.

(** The generator object [get_sensor_data()] returns: how far its loop
    over [self.sensors] has come, and whether it has returned.  Calling
    the generator function runs none of its body. *)
Record sensor_data : Type := { position : nat; exhausted : bool }.

Definition get_sensor_data : sensor_data := {| position := O; exhausted := false |}.

(** [next(sdata)], with the list [self.sensors] as it is at that moment:
    the loop of the generator reads the list object by position, and the
    read function of a sensor runs when its item is asked for.  [None]
    stands for [StopIteration]; a generator that has returned stays so. *)
Definition next (sensors : list Consolidated.sensor_t) (sdata : sensor_data)
  : io (option (pyval * readout) * sensor_data) :=
  if exhausted sdata then ret (None, sdata)
  else
    match nth_error sensors (position sdata) with
    | None => ret (None, {| position := position sdata; exhausted := true |})
    | Some sensor =>
        sensor_val <- Consolidated.call_read (Consolidated.read (Consolidated.base sensor)) ;;
        let sensor_name := Consolidated.alias (Consolidated.base sensor) in
        ret (Some (sensor_name, sensor_val),
             {| position := S (position sdata); exhausted := false |})
    end.

(** [for sd_item in sdata: ...], collecting the items, on a list that
    does not change meanwhile; [fuel] bounds the number of items. *)
Fixpoint items (fuel : nat) (sensors : list Consolidated.sensor_t) (sdata : sensor_data)
  : io (list (pyval * readout) * sensor_data) :=
  match fuel with
  | O => ret ([], sdata)
  | S fuel' =>
      step <- next sensors sdata ;;
      match step with
      | (None, sdata') => ret ([], sdata')
      | (Some item, sdata') =>
          more <- items fuel' sensors sdata' ;;
          ret (item :: fst more, snd more)
      end
  end.

End ConsolidatedData.

(** * sensors.py: listing and reading *)

Module ParamPackReport.

(** The inherited attributes of an instance. *)
Definition base (s : ParamPack.sensor_t) : ParamPack.SensorBase :=
  match s with
  | ParamPack.I2cSensor _ b | ParamPack.SpiSensor _ b | ParamPack.UartSensor _ b => b
  end.

(** [get_info] of the three classes. *)
Definition get_info (s : ParamPack.sensor_t) : io unit :=
  match s with
  | ParamPack.I2cSensor i2c_addr b =>
      print (Print [AStr "I2C-sensor properties:"]) ;;
      no <- lift (fmt_d (ParamPack.bus_no b)) ;;
      print (PrintF "I2C-bus no: %d" [no]) ;;
      x <- lift (fmt_d i2c_addr) ;;
      print (PrintF "I2C-bus address: %d" [x]) ;;
      print (PrintF "I2C-bus connected device: %s" [AVal (ParamPack.dev_name b)]) ;;
      print (PrintF "I2C-bus sensor alias: %s" [AVal (ParamPack.alias b)]) ;;
      print (Print [AStr ""])
  | ParamPack.SpiSensor cs_no b =>
      print (Print [AStr "SPI-sensor properties:"]) ;;
      no <- lift (fmt_d (ParamPack.bus_no b)) ;;
      print (PrintF "SPI-bus no: %d" [no]) ;;
      x <- lift (fmt_d cs_no) ;;
      print (PrintF "SPI-bus ChipSelect no: %d" [x]) ;;
      print (PrintF "SPI-bus connected device: %s" [AVal (ParamPack.dev_name b)]) ;;
      print (PrintF "SPI-bus sensor alias: %s" [AVal (ParamPack.alias b)]) ;;
      print (Print [AStr ""])
  | ParamPack.UartSensor baud_rate b =>
      print (Print [AStr "UART-sensor properties:"]) ;;
      no <- lift (fmt_d (ParamPack.bus_no b)) ;;
      print (PrintF "UART-interface no: %d" [no]) ;;
      x <- lift (fmt_d baud_rate) ;;
      print (PrintF "UART-bus baudrate no: %d" [x]) ;;
      print (PrintF "UART-bus connected device: %s" [AVal (ParamPack.dev_name b)]) ;;
      print (PrintF "UART-bus sensor alias: %s" [AVal (ParamPack.alias b)]) ;;
      print (Print [AStr ""])
  end.

(** [Sensors.list_sensors]. *)
Definition list_sensors (sensors : list ParamPack.sensor_t) : io unit :=
  if Nat.eqb (List.length sensors) 0 then
    print (Print [AStr "No sensors registered!"])
  else
    print (Print [AStr ""]) ;;
    print (Print [AStr "Registered sensors:"]) ;;
    print (Print [AStr "==================="]) ;;
    for_each get_info sensors.

(** A [%d] conversion of a value read: numbers only, a float cut towards
    zero. *)
Definition fmt_d_read (val : readout) : res atom :=
  match val with
  | RInt z => Ok (AVal (PInt z))
  | RFloat x => Ok (AVal (PInt (Z.quot (digits x) (10 ^ Z.of_nat (scale x)))))
  | RList _ => Raise (TypeError "%d format: a real number is required, not list")
  | RComplex _ _ _ =>
      Raise (TypeError "%d format: a real number is required, not ComplexValue")
  end.

(** [Sensors.read_sensors]. *)
Definition read_sensors (sensors : list ParamPack.sensor_t) : io unit :=
  print (Print [AStr "Registered sensors:"]) ;;
  print (Print [AStr "==================="]) ;;
  for_enumerate
    (fun idx sensor =>
       val <- ParamPack.call_read (ParamPack.read (base sensor)) ;;
       x <- lift (fmt_d_read val) ;;
       print (PrintF "Sensor no.%d: %s (type=%s) value = %d"
                [AIdx idx; AVal (ParamPack.alias (base sensor));
                 AVal (ParamPack.dev_name (base sensor)); x]))
    O sensors.

End ParamPackReport.

(** * sensors_builder_validatedjson.py: the look-up by alias *)

Module ValidatedJsonLookup.

(** The loop of [get_sensor_by_alias]: the first sensor whose alias
    equals [s_alias]. *)
Fixpoint first_with_alias (s_alias : pyval) (sensors : list ValidatedJson.sensor_t)
  : option ValidatedJson.sensor_t :=
  match sensors with
  | [] => None
  | sensor :: rest =>
      if py_eq s_alias (ValidatedJson.alias (ValidatedJson.base sensor))
      then Some sensor
      else first_with_alias s_alias rest
  end.

(** [Sensors.get_sensor_by_alias]: [None] for an argument that is [None]
    (after an error line) and when no sensor has the alias. *)
Definition get_sensor_by_alias (sensors : list ValidatedJson.sensor_t) (s_alias : pyval)
  : io (option ValidatedJson.sensor_t) :=
  match s_alias with
  | PNone =>
      print (Print [AStr "ERROR: no sensor name specified!"]) ;; ret None
  | _ => ret (first_with_alias s_alias sensors)
  end.

End ValidatedJsonLookup.

(** * sensors_builder_validatedjson.py: the builder and the registry

    The builder of this file writes attributes by name into the
    dictionaries of the sensor object and of its base object, so both are
    modelled with the attributes a name can reach.  The file is embedded
    as it is shipped: [MOCKED_DRIVER_TEST = False], so the functions of
    sensor_drivers/sensor_driver.py are the ones imported. *)

Module ValidatedJsonRegistry.

(** A dictionary as [json.loads] returns it: its items in order, the keys
    distinct.  The values are numbers, booleans, strings and [null]. *)
Definition dict : Type := list (string * pyval).

Fixpoint dict_has (d : dict) (key : string) : bool :=
  match d with
  | [] => false
  | (k, _) :: rest => if String.eqb k key then true else dict_has rest key
  end.

(** [d[key]]. *)
Fixpoint dict_get (d : dict) (key : string) : res pyval :=
  match d with
  | [] => Raise (KeyError (PStr key))
  | (k, v) :: rest => if String.eqb k key then Ok v else dict_get rest key
  end.

(** [d[key] = value]: an old key keeps its place, a new one goes last. *)
Fixpoint dict_set (d : dict) (key : string) (value : pyval) : dict :=
  match d with
  | [] => [(key, value)]
  | (k, v) :: rest =>
      if String.eqb k key then (k, value) :: rest
      else (k, v) :: dict_set rest key value
  end.

(** sensor_drivers/sensor_driver.py: both functions format their two
    arguments with [%d]. *)
Inductive config_fn : Type := configure_i2c_sensor | configure_spi_sensor.

Definition call_config (f : config_fn) (bus_no x : pyval) : io unit :=
  match f with
  | configure_i2c_sensor =>
      a <- lift (fmt_d bus_no) ;;
      b <- lift (fmt_d x) ;;
      print (PrintF "Configuring I2C-sensor on bus no.%d, address=%d ..." [a; b])
  | configure_spi_sensor =>
      a <- lift (fmt_d bus_no) ;;
      b <- lift (fmt_d x) ;;
      print (PrintF "Configuring SPI-sensor on bus no.%d, CS-num=%d..." [a; b])
  end.

(** The exception of a call of a value that is no function. *)
Definition not_callable (v : pyval) : exn :=
  TypeError (String.append "'" (String.append (type_name_of v) "' object is not callable")).

(** An attribute that holds a function until the builder writes a value
    over it. *)
Inductive slot (F : Type) : Type :=
| Fn (f : F)
| Val (v : pyval).
Arguments Fn {F} f.
Arguments Val {F} v.

(** [ExternalSensorBase]: the dictionary of an instance, with its seven
    keys. *)
Record ExternalSensorBase : Type := {
  config : slot config_fn;
  read : slot ValidatedJson.read_fn;
  type_name : pyval;
  bus_no : pyval;
  dev_name : pyval;
  alias : pyval;
  bus_prop1 : pyval
}.

Definition bus_property1 (k : string) : res string :=
  if String.eqb k "i2c" then Ok "bus-address"
  else if String.eqb k "spi" then Ok "ChipSelect-number"
  else if String.eqb k "uart" then Ok "baud_rate"
  else Raise (KeyError (PStr k)).

(** [ExternalSensorBase.__init__]. *)
Definition ExternalSensorBase_init (type_name : string) (bus_no dev_name alias : pyval)
    (config : option config_fn) (read : ValidatedJson.read_fn) : res ExternalSensorBase :=
  match bus_property1 type_name with
  | Ok prop1 =>
      Ok {| config := match config with Some f => Fn f | None => Val PNone end;
            read := Fn read;
            type_name := PStr type_name;
            bus_no := bus_no;
            dev_name := if truthy dev_name then dev_name else PStr "none";
            alias := if truthy alias then alias else PStr "none";
            bus_prop1 := PStr prop1 |}
  | Raise e => Raise e
  end.

Inductive sensor_class : Type := class_I2cSensor | class_SpiSensor | class_UartSensor.

(** An instance of one of the three classes: its class, the items of its
    dictionary other than [base], and what [base] holds, the base object
    or a value the builder wrote over it. *)
Record sensor_t : Type := {
  class : sensor_class;
  own : dict;
  base : ExternalSensorBase + pyval
}.

(** [I2cSensor(base_type=ExternalSensorBase)] and its siblings: the
    configuration function is called with the bus number and the address
    the new object has, both [None]. *)
Definition I2cSensor_init : io sensor_t :=
  print (Print [AStr "Creating a I2C sensor ..."]) ;;
  b <- lift (ExternalSensorBase_init "i2c" PNone PNone PNone
               (Some configure_i2c_sensor) ValidatedJson.get_i2c_val) ;;
  match config b with
  | Val PNone =>
      print (Print [AStr "No configuration/initialization of sensor specified initially - skipping."])
  | Fn f => call_config f (bus_no b) PNone
  | Val v => raise (not_callable v)
  end ;;
  ret {| class := class_I2cSensor;
         own := [("type_name", PStr "i2c"); ("i2c_addr", PNone)];
         base := inl b |}.

Definition SpiSensor_init : io sensor_t :=
  print (Print [AStr "Creating a SPI sensor ..."]) ;;
  b <- lift (ExternalSensorBase_init "spi" PNone PNone PNone
               (Some configure_spi_sensor) ValidatedJson.get_spi_val) ;;
  match config b with
  | Val PNone =>
      print (Print [AStr "No configuration/initialization of sensor specified - skipping."])
  | Fn f => call_config f (bus_no b) PNone
  | Val v => raise (not_callable v)
  end ;;
  ret {| class := class_SpiSensor;
         own := [("type_name", PStr "spi"); ("cs_no", PNone)];
         base := inl b |}.

(** [UartSensor] passes no [config]; its [else] branch reads an attribute
    [cs_no] the class does not have. *)
Definition UartSensor_init : io sensor_t :=
  print (Print [AStr "Creating a UART sensor ..."]) ;;
  b <- lift (ExternalSensorBase_init "uart" PNone PNone PNone None
               ValidatedJson.get_uart_val) ;;
  match config b with
  | Val PNone =>
      print (Print [AStr "No configuration/initialization of sensor specified - skipping."])
  | _ => raise (AttributeError "cs_no")
  end ;;
  ret {| class := class_UartSensor;
         own := [("type_name", PStr "uart"); ("bus_no", PNone); ("baud_rate", PNone)];
         base := inl b |}.

Definition new_sensor (c : sensor_class) : io sensor_t :=
  match c with
  | class_I2cSensor => I2cSensor_init
  | class_SpiSensor => SpiSensor_init
  | class_UartSensor => UartSensor_init
  end.

(** [field_name in self.sensor_obj.base.__dict__]. *)
Definition in_base_props (field_name : string) : bool :=
  existsb (String.eqb field_name)
    ["config"; "read"; "type_name"; "bus_no"; "dev_name"; "alias"; "bus_prop1"].

(** [field_name in self.sensor_obj.__dict__]. *)
Definition in_dev_props (s : sensor_t) (field_name : string) : bool :=
  if String.eqb field_name "base" then true else dict_has (own s) field_name.

(** [base.__dict__[field_name] = field_value], for a key of the base. *)
Definition set_base_prop (b : ExternalSensorBase) (field_name : string) (v : pyval)
  : ExternalSensorBase :=
  if String.eqb field_name "config" then
    {| config := Val v; read := read b; type_name := type_name b; bus_no := bus_no b;
       dev_name := dev_name b; alias := alias b; bus_prop1 := bus_prop1 b |}
  else if String.eqb field_name "read" then
    {| config := config b; read := Val v; type_name := type_name b; bus_no := bus_no b;
       dev_name := dev_name b; alias := alias b; bus_prop1 := bus_prop1 b |}
  else if String.eqb field_name "type_name" then
    {| config := config b; read := read b; type_name := v; bus_no := bus_no b;
       dev_name := dev_name b; alias := alias b; bus_prop1 := bus_prop1 b |}
  else if String.eqb field_name "bus_no" then
    {| config := config b; read := read b; type_name := type_name b; bus_no := v;
       dev_name := dev_name b; alias := alias b; bus_prop1 := bus_prop1 b |}
  else if String.eqb field_name "dev_name" then
    {| config := config b; read := read b; type_name := type_name b; bus_no := bus_no b;
       dev_name := v; alias := alias b; bus_prop1 := bus_prop1 b |}
  else if String.eqb field_name "alias" then
    {| config := config b; read := read b; type_name := type_name b; bus_no := bus_no b;
       dev_name := dev_name b; alias := v; bus_prop1 := bus_prop1 b |}
  else if String.eqb field_name "bus_prop1" then
    {| config := config b; read := read b; type_name := type_name b; bus_no := bus_no b;
       dev_name := dev_name b; alias := alias b; bus_prop1 := v |}
  else b.

(** [sensor_obj.__dict__[field_name] = field_value]. *)
Definition set_dev_prop (s : sensor_t) (field_name : string) (v : pyval) : sensor_t :=
  if String.eqb field_name "base" then
    {| class := class s; own := own s; base := inr v |}
  else
    {| class := class s; own := dict_set (own s) field_name v; base := base s |}.

(** [SensorBuilder.with_field]: a key of the base object is written
    there, any other name is written to the sensor object, which gains
    the attribute if it had none.  The warning is tested for after the
    assignment, on the dictionary just written. *)
Definition with_field (sensor_obj : sensor_t) (field_name : string) (field_value : pyval)
  : io sensor_t :=
  match base sensor_obj with
  | inr _ => raise (AttributeError "__dict__")
  | inl b =>
      if negb (in_base_props field_name) then
        let sensor_obj' := set_dev_prop sensor_obj field_name field_value in
        (if negb (in_dev_props sensor_obj' field_name) then
           print (PrintF "Warning: field named '%s' - not in (sub)class! Possibly extending class ..."
                    [AStr field_name])
         else ret tt) ;;
        ret sensor_obj'
      else
        ret {| class := class sensor_obj; own := own sensor_obj;
               base := inl (set_base_prop b field_name field_value) |}
  end.

(** [sensor.base.type_name] and [sensor.base.bus_no]: a value written
    over [base] has no such attribute. *)
Definition base_type_name (s : sensor_t) : res pyval :=
  match base s with
  | inl b => Ok (type_name b)
  | inr _ => Raise (AttributeError "type_name")
  end.

Definition base_bus_no (s : sensor_t) : res pyval :=
  match base s with
  | inl b => Ok (bus_no b)
  | inr _ => Raise (AttributeError "bus_no")
  end.

(** [sensor.i2c_addr] and the like: a key of the dictionary of the
    object. *)
Definition getattr (s : sensor_t) (name : string) : res pyval :=
  match dict_get (own s) name with
  | Ok v => Ok v
  | Raise _ => Raise (AttributeError name)
  end.

(** [get_i2c_sensors] and its siblings: the sensors whose base has the
    type name [t]. *)
Fixpoint get_sensors_of (t : string) (sensors : list sensor_t) : res (list sensor_t) :=
  match sensors with
  | [] => Ok []
  | sensor :: rest =>
      match base_type_name sensor with
      | Raise e => Raise e
      | Ok name =>
          match get_sensors_of t rest with
          | Raise e => Raise e
          | Ok found => Ok (if py_eq name (PStr t) then sensor :: found else found)
          end
      end
  end.

Definition get_i2c_sensors := get_sensors_of "i2c".
Definition get_spi_sensors := get_sensors_of "spi".
Definition get_uart_sensors := get_sensors_of "uart".

Fixpoint i2c_scan (sensor : sensor_t) (i2c_sensors : list sensor_t) : io bool :=
  match i2c_sensors with
  | [] => ret true
  | i2c_sensor :: rest =>
      a <- lift (getattr sensor "i2c_addr") ;;
      b <- lift (getattr i2c_sensor "i2c_addr") ;;
      if py_eq a b then
        bus <- lift (base_bus_no sensor) ;;
        x <- lift (fmt_d a) ;;
        y <- lift (fmt_d bus) ;;
        print (PrintF "ERROR validating I2C-sensor: address=%d already in use on bus#=%d!"
                 [x; y]) ;;
        ret false
      else i2c_scan sensor rest
  end.

Definition i2c_validate (sensors : list sensor_t) (sensor : sensor_t) : io bool :=
  i2c_sensors <- lift (get_i2c_sensors sensors) ;;
  i2c_scan sensor i2c_sensors.

Fixpoint spi_scan (sensor : sensor_t) (spi_sensors : list sensor_t) : io bool :=
  match spi_sensors with
  | [] => ret true
  | spi_sensor :: rest =>
      bus <- lift (base_bus_no sensor) ;;
      bus' <- lift (base_bus_no spi_sensor) ;;
      same <- (if py_eq bus bus' then
                 a <- lift (getattr sensor "cs_no") ;;
                 b <- lift (getattr spi_sensor "cs_no") ;;
                 ret (py_eq a b)
               else ret false) ;;
      if same : bool then
        a <- lift (getattr sensor "cs_no") ;;
        x <- lift (fmt_d a) ;;
        y <- lift (fmt_d bus) ;;
        print (PrintF "ERROR: validating SPI-sensor: CS=%d already in use on bus#=%d!"
                 [x; y]) ;;
        ret false
      else spi_scan sensor rest
  end.

Definition spi_validate (sensors : list sensor_t) (sensor : sensor_t) : io bool :=
  spi_sensors <- lift (get_spi_sensors sensors) ;;
  spi_scan sensor spi_sensors.

Fixpoint uart_scan (sensor : sensor_t) (uart_sensors : list sensor_t) : io bool :=
  match uart_sensors with
  | [] => ret true
  | uart_sensor :: rest =>
      bus <- lift (base_bus_no sensor) ;;
      bus' <- lift (base_bus_no uart_sensor) ;;
      if py_eq bus bus' then
        x <- lift (fmt_d bus) ;;
        print (PrintF "ERROR: validating UART-sensor: serialport=%d already in use!" [x]) ;;
        ret false
      else uart_scan sensor rest
  end.

Definition uart_validate (sensors : list sensor_t) (sensor : sensor_t) : io bool :=
  uart_sensors <- lift (get_uart_sensors sensors) ;;
  uart_scan sensor uart_sensors.

(** The dictionaries of [add_sensor] and the map of the module. *)
Definition validators (k : pyval) : res (list sensor_t -> sensor_t -> io bool) :=
  match k with
  | PStr s =>
      if String.eqb s "i2c" then Ok i2c_validate
      else if String.eqb s "spi" then Ok spi_validate
      else if String.eqb s "uart" then Ok uart_validate
      else Raise (KeyError k)
  | _ => Raise (KeyError k)
  end.

Definition sensor_type_map (k : pyval) : res sensor_class :=
  match k with
  | PStr s =>
      if String.eqb s "i2c" then Ok class_I2cSensor
      else if String.eqb s "spi" then Ok class_SpiSensor
      else if String.eqb s "uart" then Ok class_UartSensor
      else Raise (KeyError k)
  | _ => Raise (KeyError k)
  end.

(** The four schemas of the module. *)
Inductive schema : Type :=
| sensor_base_schema | sensor_i2c_schema | sensor_spi_schema | sensor_uart_schema.

Definition json_dev_schemas (k : pyval) : res schema :=
  match k with
  | PStr s =>
      if String.eqb s "i2c" then Ok sensor_i2c_schema
      else if String.eqb s "spi" then Ok sensor_spi_schema
      else if String.eqb s "uart" then Ok sensor_uart_schema
      else Raise (KeyError k)
  | _ => Raise (KeyError k)
  end.

Section Registry.

(** [JsonValidator(schema).check(json_input)] rests on the jsonschema
    package, which the repository does not hold: it is a parameter, and
    what is proved holds for every such function.  So is the exception
    Python raises for the local [tmp] of [build_sensor] when no property
    has bound it, whose class the exceptions above do not list. *)
Variable check : schema -> dict -> io bool.
Variable unbound_tmp : exn.

(** The loop of [build_sensor] over [props.items()]; [first_pass] tells
    whether [tmp] is still unbound. *)
Fixpoint build_fields (sensor_obj : sensor_t) (first_pass : bool) (props : dict)
  : io (sensor_t * bool) :=
  match props with
  | [] => ret (sensor_obj, first_pass)
  | (sensor_prop_name, prop_value) :: rest =>
      if negb (String.eqb sensor_prop_name "sensor_type") then
        sensor_obj' <- with_field sensor_obj sensor_prop_name prop_value ;;
        build_fields sensor_obj' false rest
      else build_fields sensor_obj first_pass rest
  end.

(** [Sensors.build_sensor], as [add_sensor] calls it: all three arguments
    given and [base_clsname=ExternalSensorBase]. *)
Definition build_sensor (sensor_clsname : sensor_class) (props : dict) : io sensor_t :=
  raw_obj <- new_sensor sensor_clsname ;;
  built <- build_fields raw_obj true props ;;
  if snd built : bool then raise unbound_tmp else ret (fst built).

(** The body of the [try] of [add_sensor]. *)
Definition add_sensor_try (sensors : list sensor_t) (sensor_class_type : sensor_class)
    (sensor_spec : dict) : io (list sensor_t) :=
  sensor <- build_sensor sensor_class_type sensor_spec ;;
  name <- lift (base_type_name sensor) ;;
  validator <- lift (validators name) ;;
  ok <- validator sensors sensor ;;
  if ok : bool then ret (sensors ++ [sensor])
  else raise (PyException "Parameter ERROR: cannot add sensor to sensor-list!").

(** The [except Exception as exc] of [add_sensor]. *)
Definition add_sensor_except (sensors : list sensor_t) (exc : exn) : io (list sensor_t) :=
  print (Print [AStr "ERROR creating sensor!!"]) ;;
  print (Print [AArgs exc]) ;;
  ret sensors.

(** [Sensors.add_sensor] on the list [self.sensors], from the point
    where [json.loads(json_spec)] has returned the dictionary
    [sensor_spec]. *)
Definition add_sensor (sensors : list sensor_t) (sensor_spec : dict)
  : io (list sensor_t) :=
  base_ok <- check sensor_base_schema sensor_spec ;;
  if negb base_ok then
    print (Print [AStr "ERROR: invalid sensor JSON input!"]) ;; ret sensors
  else
    sensor_type <- lift (dict_get sensor_spec "sensor_type") ;;
    sensor_class_type <- lift (sensor_type_map sensor_type) ;;
    json_dev_spec_schema <- lift (json_dev_schemas sensor_type) ;;
    dev_ok <- check json_dev_spec_schema sensor_spec ;;
    if negb dev_ok then
      print (Print [AStr "ERROR: invalid device-specific JSON input!"]) ;; ret sensors
    else
      try_except (add_sensor_try sensors sensor_class_type sensor_spec)
                 (add_sensor_except sensors).

End Registry.

(** The body of the loop of [read_sensors] on a registered object:
    [sensor.base.read()] calls what the attribute holds, and the value
    read goes through the dispatch of [ValidatedJson], which prints
    [sensor.base.alias] and [sensor.base.dev_name] for a float. *)
Definition read_one (idx : nat) (sensor : sensor_t) : io unit :=
  match base sensor with
  | inr _ => raise (AttributeError "read")
  | inl b =>
      match read b with
      | Fn f =>
          val <- ValidatedJson.call_read f ;;
          ValidatedJson.read_sensors_dispatch idx
            {| ValidatedJson.base :=
                 {| ValidatedJson.read := f;
                    ValidatedJson.dev_name := dev_name b;
                    ValidatedJson.alias := alias b |} |}
            val
      | Val v => raise (not_callable v)
      end
  end.

(** [Sensors.read_sensors]. *)
Definition read_sensors (sensors : list sensor_t) : io unit :=
  print (Print [AStr "Registered sensors:"]) ;;
  print (Print [AStr "==================="]) ;;
  for_enumerate read_one O sensors.

End ValidatedJsonRegistry.

(** * Vocabulary of the statements *)

(** The list [self.sensors] after a call, whether it returned or raised:
    the only mutation is the [append] that ends the [try], so a call that
    raises leaves the list as it was. *)
Definition after {A} (sensors : list A) (call : io (list A)) : list A :=
  match result call with
  | Ok sensors' => sensors'
  | Raise _ => sensors
  end.

(** The call ended in the [except] branch of [add_sensor] with [exc]: the
    last two lines printed are the error banner and [exc.args]. *)
Definition recovered {A} (exc : exn) (call : io A) : Prop :=
  exists out,
    stdout call = out ++ [Print [AStr "ERROR creating sensor!!"]; Print [AArgs exc]].

(** The exception [add_sensor] raises when the validator answers
    [False]. *)
Definition conflict : exn :=
  PyException "Parameter ERROR: cannot add sensor to sensor-list!".

(** Parameter packs with integer fields, as the demo blocks write them. *)
Definition i2c_pack (bus addr : Z) (name alias : pyval) : list pyval :=
  [PStr "i2c"; PInt bus; PInt addr; name; alias].

Definition spi_pack (bus cs : Z) (name alias : pyval) : list pyval :=
  [PStr "spi"; PInt bus; PInt cs; name; alias].

Definition uart_pack (port baud : Z) (name alias : pyval) : list pyval :=
  [PStr "uart"; PInt port; PInt baud; name; alias].

Definition i2c_conflict_line (addr bus : Z) : line :=
  PrintF "ERROR validating I2C-sensor: address=%d already in use on bus#=%d!"
    [AVal (PInt addr); AVal (PInt bus)].

Definition uart_conflict_line (port : Z) : line :=
  PrintF "ERROR validating UART-sensor: serialport=%d already in use!"
    [AVal (PInt port)].

(** The sensor object [Consolidated.build_sensor] returns for a class and
    the first four values of the pack. *)
Definition consolidated_built (cls : Consolidated.sensor_class)
    (bus_no field dev_name alias : pyval) : Consolidated.sensor_t :=
  match cls with
  | Consolidated.class_I2cSensor =>
      Consolidated.I2cSensor "i2c" field
        {| Consolidated.config := Some Consolidated.configure_i2c_sensor;
           Consolidated.read := Consolidated.get_i2c_val;
           Consolidated.type_name := "i2c";
           Consolidated.bus_no := bus_no;
           Consolidated.dev_name := dev_name;
           Consolidated.alias := alias;
           Consolidated.bus_prop1 := "bus-address" |}
  | Consolidated.class_SpiSensor =>
      Consolidated.SpiSensor "spi" field
        {| Consolidated.config := Some Consolidated.configure_spi_sensor;
           Consolidated.read := Consolidated.get_spi_val;
           Consolidated.type_name := "spi";
           Consolidated.bus_no := bus_no;
           Consolidated.dev_name := dev_name;
           Consolidated.alias := alias;
           Consolidated.bus_prop1 := "ChipSelect-number" |}
  | Consolidated.class_UartSensor =>
      Consolidated.UartSensor "uart" PNone field
        {| Consolidated.config := None;
           Consolidated.read := Consolidated.get_uart_val;
           Consolidated.type_name := "uart";
           Consolidated.bus_no := bus_no;
           Consolidated.dev_name := dev_name;
           Consolidated.alias := alias;
           Consolidated.bus_prop1 := "baud_rate" |}
  end.


(** A sensor of the consolidated registry sits on bus or port [n]. *)
Definition consolidated_on_bus (n : Z) (x : Consolidated.sensor_t) : bool :=
  py_eq (PInt n) (Consolidated.bus_no (Consolidated.base x)).

(** The sensor objects the constructors of sensors_exp.py return for
    packs with integer fields. *)
Definition exp_base (kind : string) (prop1 : string) (read : Exp.read_fn)
    (bus : Z) (name alias : pyval) : Exp.SensorBase :=
  {| Exp.read := read;
     Exp.type_name := kind;
     Exp.bus_no := PInt bus;
     Exp.dev_name := if truthy name then name else PStr "none";
     Exp.alias := if truthy alias then alias else PStr "none";
     Exp.bus_prop1 := prop1 |}.

Definition exp_i2c (bus addr : Z) (name alias : pyval) : Exp.sensor_t :=
  Exp.I2cSensor (PInt addr) (exp_base "i2c" "bus-address" Exp.get_i2c_val bus name alias).

Definition exp_uart (port baud : Z) (name alias : pyval) : Exp.sensor_t :=
  Exp.UartSensor (PInt baud) (exp_base "uart" "baud_rate" Exp.get_uart_val port name alias).

(** A sensor of the registry of sensors_exp.py sits on bus or port [n]. *)
Definition exp_on_bus (n : Z) (x : Exp.sensor_t) : bool :=
  py_eq (PInt n) (Exp.bus_no (Exp.base x)).

(** A registered sensor of sensors.py whose range-checked field is an
    integer of its domain. *)
Definition in_domain (s : ParamPack.sensor_t) : Prop :=
  match s with
  | ParamPack.I2cSensor i2c_addr _ =>
      exists z, i2c_addr = PInt z /\ 0 <= z <= 127
  | ParamPack.SpiSensor cs_no _ =>
      exists z, cs_no = PInt z /\ 0 <= z <= 7
  | ParamPack.UartSensor baud_rate _ =>
      exists z, baud_rate = PInt z /\ 2400 <= z <= 921400
  end.

(** A value the range test [v < lo or v > hi] lets through: a number
    that is neither below [lo] nor above [hi].  Beside the integers of
    the domain these are the booleans ([True] is 1), the floats between
    the bounds, and NaN, of which no comparison holds. *)
Definition within (lo hi : Z) (v : pyval) : Prop :=
  match v with
  | PInt z => lo <= z <= hi
  | PBool t => lo <= Z.b2z t <= hi
  | PFloat x => float_compare_int x lo <> Some Lt /\ float_compare_int x hi <> Some Gt
  | PStr _ | PNone => False
  end.

(** The range-checked field of a sensor of sensors.py, and a sensor
    whose field the test of its class lets through. *)
Definition parampack_field (s : ParamPack.sensor_t) : pyval :=
  match s with
  | ParamPack.I2cSensor v _ | ParamPack.SpiSensor v _ | ParamPack.UartSensor v _ => v
  end.

Definition admitted (s : ParamPack.sensor_t) : Prop :=
  match s with
  | ParamPack.I2cSensor i2c_addr _ => within 0 127 i2c_addr
  | ParamPack.SpiSensor cs_no _ => within 0 7 cs_no
  | ParamPack.UartSensor baud_rate _ => within 2400 921400 baud_rate
  end.

(** An I2C sensor whose address is NaN, and one whose address is 78.5. *)
Definition nan_address : ParamPack.sensor_t :=
  ParamPack.I2cSensor (PFloat S754_nan)
    (ParamPack.SensorBase_init (PInt 2) (PStr "BM280") (PStr "RHT-sensor1")
       ParamPack.get_i2c_val).

Definition fractional_address : ParamPack.sensor_t :=
  ParamPack.I2cSensor (PFloat (S754_finite false 157 (-1)))
    (ParamPack.SensorBase_init (PInt 2) (PStr "BM280") (PStr "RHT-sensor1")
       ParamPack.get_i2c_val).

(** The registries of sensors.py that calls of [add_sensor], with any
    packs, reach from the empty one. *)
Inductive reachable : list ParamPack.sensor_t -> Prop :=
| reach_empty : reachable []
| reach_add (registry : list ParamPack.sensor_t) (ppack : list pyval) :
    reachable registry ->
    reachable (after registry (ParamPack.add_sensor registry ppack)).

(** The lines of the elements of a list read-out, from position [idx]. *)
Fixpoint element_lines (idx : nat) (items : list Z) : list line :=
  match items with
  | [] => []
  | z :: rest =>
      PrintF "Value no.%d = %d" [AIdx idx; AVal (PInt z)] :: element_lines (S idx) rest
  end.

(** The three shapes of a read-out: a float, a list of integers, a
    [ComplexValue]. *)
Definition defined_shape (val : readout) : Prop :=
  match val with
  | RFloat _ => True
  | RList items => exists zs, items = map PInt zs
  | RComplex _ _ _ => True
  | RInt _ => False
  end.

(** The line [read_sensors] of sensors_builder_validatedjson.py prints
    for a value it cannot classify. *)
Definition unrecognized_line : line :=
  Print [AStr "ERROR: cannot parse sensor readout result!"].






Definition demo_registry : list Consolidated.sensor_t :=
  [consolidated_built Consolidated.class_I2cSensor
     (PInt 2) (PInt 78) (PStr "BM280") (PStr "RHT-sensor1");
   consolidated_built Consolidated.class_SpiSensor
     (PInt 1) (PInt 3) (PStr "SHT721") (PStr "RHT-sensor2A");
   consolidated_built Consolidated.class_SpiSensor
     (PInt 1) (PInt 8) (PStr "SHT721") (PStr "RHT-sensor2B");
   consolidated_built Consolidated.class_UartSensor
     (PInt 4) (PInt 115200) (PStr "CustomHygrometerSubmodule") (PStr "RHT-sensor3")].

(** A sensor object as [Consolidated.build_sensor] makes them. *)
Definition consolidated_made (x : Consolidated.sensor_t) : Prop :=
  exists cls bus_no field dev_name alias,
    x = consolidated_built cls bus_no field dev_name alias.

(** The test the validator of the kind of [x] applies to a registered
    sensor [y] of that kind: the address for I2C, the bus number and the
    chip select for SPI, the port for UART. *)
Definition consolidated_clash (x y : Consolidated.sensor_t) : bool :=
  match x, y with
  | Consolidated.I2cSensor _ a _, Consolidated.I2cSensor _ a' _ => py_eq a a'
  | Consolidated.SpiSensor _ c b, Consolidated.SpiSensor _ c' b' =>
      py_eq (Consolidated.bus_no b) (Consolidated.bus_no b') && py_eq c c'
  | Consolidated.UartSensor _ _ _ b, Consolidated.UartSensor _ _ _ b' =>
      py_eq (Consolidated.bus_no b) (Consolidated.bus_no b')
  | _, _ => false
  end.

(** The registries of sensors_consolidated.py that calls of
    [add_sensor], with any packs, reach from the empty one. *)
Inductive consolidated_reachable : list Consolidated.sensor_t -> Prop :=
| creach_empty : consolidated_reachable []
| creach_add (registry : list Consolidated.sensor_t) (ppack : list pyval) :
    consolidated_reachable registry ->
    consolidated_reachable (after registry (Consolidated.add_sensor registry ppack)).

(** The value a read function of sensors_consolidated.py returns, and the
    item [get_sensor_data] yields for a sensor. *)
Definition consolidated_value (f : Consolidated.read_fn) : readout :=
  match f with
  | Consolidated.get_i2c_val => RFloat (Float 5555 3)
  | Consolidated.get_spi_val => RFloat (Float 7777 3)
  | Consolidated.get_uart_val => RFloat (Float 31234 4)
  end.

Definition consolidated_item (sensor : Consolidated.sensor_t) : pyval * readout :=
  (Consolidated.alias (Consolidated.base sensor),
   consolidated_value (Consolidated.read (Consolidated.base sensor))).

(** A sensor of sensors.py with a device name and an alias that count as
    present. *)
Definition parampack_named (s : ParamPack.sensor_t) : Prop :=
  truthy (ParamPack.dev_name (ParamPackReport.base s)) = true /\
  truthy (ParamPack.alias (ParamPackReport.base s)) = true.




(** A sensor of sensors_exp.py whose type name is the one of its class,
    whose checked field the range test of the class lets through, and
    whose names count as present. *)
Definition exp_kind (x : Exp.sensor_t) : string :=
  match x with
  | Exp.I2cSensor _ _ => "i2c"
  | Exp.SpiSensor _ _ => "spi"
  | Exp.UartSensor _ _ => "uart"
  end.

Definition exp_sound (x : Exp.sensor_t) : Prop :=
  Exp.type_name (Exp.base x) = exp_kind x /\
  match x with
  | Exp.I2cSensor i2c_addr _ => within 0 127 i2c_addr
  | Exp.SpiSensor cs_no _ => within 0 7 cs_no
  | Exp.UartSensor baud_rate _ => within 2400 921400 baud_rate
  end /\
  truthy (Exp.dev_name (Exp.base x)) = true /\
  truthy (Exp.alias (Exp.base x)) = true.

(** The test the validator of the kind of [x] applies to a registered
    sensor [y] of that kind in sensors_exp.py. *)
Definition exp_clash (x y : Exp.sensor_t) : bool :=
  match x, y with
  | Exp.I2cSensor a _, Exp.I2cSensor a' _ => py_eq a a'
  | Exp.SpiSensor c b, Exp.SpiSensor c' b' =>
      py_eq (Exp.bus_no b) (Exp.bus_no b') && py_eq c c'
  | Exp.UartSensor _ b, Exp.UartSensor _ b' => py_eq (Exp.bus_no b) (Exp.bus_no b')
  | _, _ => false
  end.

(** The registries of sensors_exp.py that calls of [add_sensor], with
    any packs, reach from the empty one. *)
Inductive exp_reachable : list Exp.sensor_t -> Prop :=
| ereach_empty : exp_reachable []
| ereach_add (registry : list Exp.sensor_t) (ppack : list pyval) :
    exp_reachable registry ->
    exp_reachable (after registry (Exp.add_sensor registry ppack)).

(** The exception of a [%d] conversion of a value that is no number. *)
Definition not_a_number : exn :=
  TypeError "%d format: a real number is required, not NoneType".

(** The registered sensors [uart_validate] of
    sensors_builder_validatedjson.py compares with: those whose base has
    the type name "uart" and the bus number [bus]. *)
Definition validatedjson_on_port (bus : pyval) (x : ValidatedJsonRegistry.sensor_t) : bool :=
  match ValidatedJsonRegistry.base x with
  | inl b =>
      py_eq (ValidatedJsonRegistry.type_name b) (PStr "uart") &&
      py_eq bus (ValidatedJsonRegistry.bus_no b)
  | inr _ => false
  end.

(** A dictionary that names neither [base] nor [type_name], the two keys
    that would replace the base object or the type name the validator is
    chosen by. *)
Definition validatedjson_plain (sensor_spec : ValidatedJsonRegistry.dict) : Prop :=
  ValidatedJsonRegistry.dict_has sensor_spec "base" = false /\
  ValidatedJsonRegistry.dict_has sensor_spec "type_name" = false.

(** Both schema checks of [add_sensor] answer [True] for the
    dictionary. *)
Definition validatedjson_checked (check : ValidatedJsonRegistry.schema ->
                                          ValidatedJsonRegistry.dict -> io bool)
    (sensor_spec : ValidatedJsonRegistry.dict) : Prop :=
  result (check ValidatedJsonRegistry.sensor_base_schema sensor_spec) = Ok true /\
  forall sensor_type dev_schema,
    ValidatedJsonRegistry.dict_get sensor_spec "sensor_type" = Ok sensor_type ->
    ValidatedJsonRegistry.json_dev_schemas sensor_type = Ok dev_schema ->
    result (check dev_schema sensor_spec) = Ok true.

(** The registries of sensors_builder_validatedjson.py that calls of
    [add_sensor], with any dictionaries, reach from the empty one. *)
Inductive validatedjson_reachable
    (check : ValidatedJsonRegistry.schema -> ValidatedJsonRegistry.dict -> io bool)
    (unbound_tmp : exn) : list ValidatedJsonRegistry.sensor_t -> Prop :=
| vreach_empty : validatedjson_reachable check unbound_tmp []
| vreach_add (registry : list ValidatedJsonRegistry.sensor_t)
    (sensor_spec : ValidatedJsonRegistry.dict) :
    validatedjson_reachable check unbound_tmp registry ->
    validatedjson_reachable check unbound_tmp
      (after registry
         (ValidatedJsonRegistry.add_sensor check unbound_tmp registry sensor_spec)).

(** A registered sensor whose base still has its read function. *)
Definition validatedjson_read_kept (x : ValidatedJsonRegistry.sensor_t) : bool :=
  match ValidatedJsonRegistry.base x with
  | inl b =>
      match ValidatedJsonRegistry.read b with
      | ValidatedJsonRegistry.Fn _ => true
      | ValidatedJsonRegistry.Val _ => false
      end
  | inr _ => false
  end.

(** A schema check that accepts every dictionary and prints nothing, and
    a stand-in for the exception of the unbound local, for runs that do
    not reach it. *)
Definition validatedjson_accept
  : ValidatedJsonRegistry.schema -> ValidatedJsonRegistry.dict -> io bool :=
  fun _ _ => ret true.

Definition validatedjson_unbound : exn :=
  PyException "local variable 'tmp' referenced before assignment".

(** Dictionaries of the demo block of sensors_builder_validatedjson.py. *)
Definition validatedjson_i2c_demo : ValidatedJsonRegistry.dict :=
  [("sensor_type", PStr "i2c"); ("bus_no", PInt 2); ("i2c_addr", PInt 78);
   ("dev_name", PStr "BM280"); ("alias", PStr "RHT-sensor1")].

Definition validatedjson_uart_demo (baud_rate : Z) (alias : string)
  : ValidatedJsonRegistry.dict :=
  [("sensor_type", PStr "uart"); ("bus_no", PInt 4); ("baud_rate", PInt baud_rate);
   ("dev_name", PStr "CustomHygrometerSubmodule"); ("alias", PStr alias)].

(** A second UART dictionary, of port 5. *)
Definition validatedjson_port5_demo : ValidatedJsonRegistry.dict :=
  [("sensor_type", PStr "uart"); ("bus_no", PInt 5); ("baud_rate", PInt 38400);
   ("dev_name", PStr "CustomHygrometerSubmodule"); ("alias", PStr "RHT-sensor4")].

(** A UART dictionary that names a key [read]. *)
Definition validatedjson_read_demo : ValidatedJsonRegistry.dict :=
  [("sensor_type", PStr "uart"); ("bus_no", PInt 5); ("baud_rate", PInt 9600);
   ("dev_name", PStr "CustomHygrometerSubmodule"); ("read", PInt 5)].

(** The object [UartSensor(base_type=ExternalSensorBase)] makes. *)
Definition validatedjson_uart_raw : ValidatedJsonRegistry.sensor_t :=
  {| ValidatedJsonRegistry.class := ValidatedJsonRegistry.class_UartSensor;
     ValidatedJsonRegistry.own :=
       [("type_name", PStr "uart"); ("bus_no", PNone); ("baud_rate", PNone)];
     ValidatedJsonRegistry.base :=
       inl {| ValidatedJsonRegistry.config := ValidatedJsonRegistry.Val PNone;
              ValidatedJsonRegistry.read :=
                ValidatedJsonRegistry.Fn ValidatedJson.get_uart_val;
              ValidatedJsonRegistry.type_name := PStr "uart";
              ValidatedJsonRegistry.bus_no := PNone;
              ValidatedJsonRegistry.dev_name := PStr "none";
              ValidatedJsonRegistry.alias := PStr "none";
              ValidatedJsonRegistry.bus_prop1 := PStr "baud_rate" |} |}.

(** The registry after the first UART dictionary of the demo block. *)
Definition validatedjson_demo_registry : list ValidatedJsonRegistry.sensor_t :=
  after []
    (ValidatedJsonRegistry.add_sensor validatedjson_accept validatedjson_unbound []
       (validatedjson_uart_demo 115200 "RHT-sensor3")).

(** * Proofs *)

(** Two steps on a computed output: cut its last two lines off, find a
    line in it. *)
Ltac split_last_two :=
  match goal with
  | |- exists out, ?l = out ++ _ => exists (removelast (removelast l)); reflexivity
  end.

Ltac find_line := cbn [In]; repeat first [left; reflexivity | right].

(** ** The monad *)

Lemma result_bind {A B} (m : io A) (k : A -> io B) :
  result (bind m k) =
  match result m with
  | Ok a => result (k a)
  | Raise e => Raise e
  end.
Proof.
  destruct m as [out [a | e]]; cbn; [destruct (k a) | ]; reflexivity.
Qed.

Lemma stdout_bind {A B} (m : io A) (k : A -> io B) :
  stdout (bind m k) =
  stdout m ++ match result m with
              | Ok a => stdout (k a)
              | Raise _ => []
              end.
Proof.
  destruct m as [out [a | e]]; cbn; [destruct (k a) | rewrite app_nil_r]; reflexivity.
Qed.

Lemma result_ret {A} (a : A) : result (ret a) = Ok a.
Proof. reflexivity. Qed.

Lemma result_raise {A} (e : exn) : result (@raise A e) = Raise e.
Proof. reflexivity. Qed.

Lemma result_lift {A} (r : res A) : result (lift r) = r.
Proof. reflexivity. Qed.

Lemma result_print (l : line) : result (print l) = Ok tt.
Proof. reflexivity. Qed.

Lemma stdout_ret {A} (a : A) : stdout (ret a) = [].
Proof. reflexivity. Qed.

Lemma stdout_raise {A} (e : exn) : stdout (@raise A e) = [].
Proof. reflexivity. Qed.

Lemma stdout_lift {A} (r : res A) : stdout (lift r) = [].
Proof. reflexivity. Qed.

Lemma stdout_print (l : line) : stdout (print l) = [l].
Proof. reflexivity. Qed.

Create Rewrite HintDb io.
#[local] Hint Rewrite @result_bind @result_ret @result_raise @result_lift result_print
  @stdout_bind @stdout_ret @stdout_raise @stdout_lift stdout_print : io.


Lemma result_try_except {A} (body : io A) (handler : exn -> io A) :
  result (try_except body handler) =
  match result body with
  | Ok a => Ok a
  | Raise e => result (handler e)
  end.
Proof.
  destruct body as [out [a | e]]; cbn; [ | destruct (handler e)]; reflexivity.
Qed.

Lemma stdout_try_except {A} (body : io A) (handler : exn -> io A) :
  stdout (try_except body handler) =
  stdout body ++ match result body with
                 | Ok _ => []
                 | Raise e => stdout (handler e)
                 end.
Proof.
  destruct body as [out [a | e]]; cbn;
    [rewrite app_nil_r | destruct (handler e)]; reflexivity.
Qed.

(** A loop whose body only prints runs to its end. *)
Lemma result_for_enumerate_print {A} (f : nat -> A -> line) (xs : list A) :
  forall idx, result (for_enumerate (fun i x => print (f i x)) idx xs) = Ok tt.
Proof.
  induction xs as [| x rest IH]; intros idx; cbn [for_enumerate].
  - reflexivity.
  - rewrite result_bind. cbn. apply IH.
Qed.

(** ** Construction (sensors.py) *)

Lemma outside_int (z lo hi : Z) :
  ParamPack.outside (PInt z) lo hi = Ok (negb ((lo <=? z) && (z <=? hi))).
Proof.
  unfold ParamPack.outside, py_lt, py_gt. rewrite Z.gtb_ltb.
  destruct (Z.ltb_spec z lo), (Z.leb_spec lo z), (Z.ltb_spec hi z), (Z.leb_spec z hi);
    try lia; reflexivity.
Qed.





(** ** The registry of sensors_consolidated.py *)

Module ConsolidatedFacts.
Import Consolidated.

Lemma consolidated_add_sensor_run (sensors : list sensor_t) (ppack : list pyval)
      (k : pyval) (cls : sensor_class) :
  getitem ppack 0 = Ok k ->
  sensor_type_map k = Ok cls ->
  add_sensor sensors ppack =
  (Print [AStr "Type: "; AVal k]
     :: stdout (try_except (add_sensor_try sensors cls ppack)
                           (add_sensor_except sensors)),
   result (try_except (add_sensor_try sensors cls ppack)
                      (add_sensor_except sensors))).
Proof.
  intros Hk Hcls. unfold add_sensor. rewrite Hk. cbn. rewrite Hcls. cbn.
  destruct (try_except _ _); reflexivity.
Qed.

Lemma consolidated_add_sensor_try_result (sensors : list sensor_t) (cls : sensor_class)
      (ppack : list pyval) :
  result (add_sensor_try sensors cls ppack) =
  match result (build_sensor cls (tl ppack)) with
  | Raise e => Raise e
  | Ok sensor =>
      match validators (type_name (base sensor)) with
      | Raise e => Raise e
      | Ok validator =>
          match result (validator sensors sensor) with
          | Ok true => Ok (sensors ++ [sensor])
          | Ok false => Raise conflict
          | Raise e => Raise e
          end
      end
  end.
Proof.
  unfold add_sensor_try. rewrite result_bind.
  destruct (result (build_sensor cls (tl ppack))) as [sensor | e]; [ | reflexivity].
  autorewrite with io.
  destruct (validators (type_name (base sensor))) as [validator | e]; [ | reflexivity].
  autorewrite with io.
  destruct (result (validator sensors sensor)) as [[ | ] | e]; reflexivity.
Qed.

Lemma consolidated_add_sensor_except_run (sensors : list sensor_t) (exc : exn) :
  add_sensor_except sensors exc =
  ([Print [AStr "ERROR creating sensor!!"]; Print [AArgs exc]], Ok sensors).
Proof. reflexivity. Qed.

(** A call that reaches the [try] returns: with the sensor appended, or
    with the list as it was and the exception reported. *)
Lemma consolidated_add_sensor_outcome (sensors : list sensor_t) (ppack : list pyval)
      (k : pyval) (cls : sensor_class) :
  getitem ppack 0 = Ok k ->
  sensor_type_map k = Ok cls ->
  match result (add_sensor_try sensors cls ppack) with
  | Ok sensors' => result (add_sensor sensors ppack) = Ok sensors'
  | Raise e =>
      result (add_sensor sensors ppack) = Ok sensors /\
      recovered e (add_sensor sensors ppack)
  end.
Proof.
  intros Hk Hcls. rewrite (consolidated_add_sensor_run _ _ _ _ Hk Hcls).
  unfold recovered. cbn [result stdout fst snd].
  rewrite result_try_except, stdout_try_except.
  destruct (result (add_sensor_try sensors cls ppack)) as [sensors' | e].
  - reflexivity.
  - split; [reflexivity | ].
    exists (Print [AStr "Type: "; AVal k] :: stdout (add_sensor_try sensors cls ppack)).
    reflexivity.
Qed.

Lemma consolidated_build_sensor_result (cls : sensor_class) (ppack : list pyval) :
  result (build_sensor cls ppack) =
  match ppack with
  | bus_no :: field :: dev_name :: alias :: _ =>
      Ok (consolidated_built cls bus_no field dev_name alias)
  | _ => Raise (IndexError "tuple index out of range")
  end.
Proof.
  unfold build_sensor. autorewrite with io.
  rewrite result_for_enumerate_print.
  destruct ppack as [ | bus_no [ | field [ | dev_name [ | alias rest]]]];
    destruct cls; reflexivity.
Qed.

Lemma consolidated_add_sensor_try_stdout (sensors : list sensor_t) (cls : sensor_class)
      (ppack : list pyval) :
  stdout (add_sensor_try sensors cls ppack) =
  stdout (build_sensor cls (tl ppack)) ++
  match result (build_sensor cls (tl ppack)) with
  | Raise _ => []
  | Ok sensor =>
      Print [AStr "Validating sensor properties ..."] ::
      match validators (type_name (base sensor)) with
      | Raise _ => []
      | Ok validator => stdout (validator sensors sensor)
      end
  end.
Proof.
  unfold add_sensor_try. rewrite stdout_bind.
  destruct (result (build_sensor cls (tl ppack))) as [sensor | e]; [ | reflexivity].
  autorewrite with io. cbn [app]. do 2 f_equal.
  destruct (validators (type_name (base sensor))) as [validator | e]; [ | reflexivity].
  autorewrite with io. cbn [app].
  destruct (result (validator sensors sensor)) as [[ | ] | e];
    autorewrite with io; rewrite ?app_nil_r; reflexivity.
Qed.

Lemma consolidated_validators_built (cls : sensor_class) (bus_no field dev_name alias : pyval) :
  validators (type_name (base (consolidated_built cls bus_no field dev_name alias))) =
  Ok match cls with
     | class_I2cSensor => i2c_validate
     | class_SpiSensor => spi_validate
     | class_UartSensor => uart_validate
     end.
Proof. destruct cls; reflexivity. Qed.

(** [uart_validate] for a sensor on an integer port: it answers
    [False], with one error line, exactly when a UART sensor already
    sits on that port. *)
Lemma consolidated_uart_scan_run (sensor : sensor_t) (port : Z) (uart_sensors : list sensor_t) :
  bus_no (base sensor) = PInt port ->
  uart_scan sensor uart_sensors =
  (if existsb (consolidated_on_bus port) uart_sensors
   then [uart_conflict_line port] else [],
   Ok (negb (existsb (consolidated_on_bus port) uart_sensors))).
Proof.
  intros Hport. induction uart_sensors as [ | x rest IH]; cbn [uart_scan existsb].
  - reflexivity.
  - rewrite Hport. fold (consolidated_on_bus port x).
    destruct (consolidated_on_bus port x); cbn [orb].
    + reflexivity.
    + exact IH.
Qed.

Lemma consolidated_get_uart_sensors_app (l1 l2 : list sensor_t) :
  get_uart_sensors (l1 ++ l2) = get_uart_sensors l1 ++ get_uart_sensors l2.
Proof. apply filter_app. Qed.

(** Adding a UART pack with integer fields: accepted when the port is
    free, rejected with the conflict otherwise. *)
Lemma consolidated_add_uart_free (sensors : list sensor_t) (port baud : Z) (name alias : pyval) :
  existsb (consolidated_on_bus port) (get_uart_sensors sensors) = false ->
  result (add_sensor sensors (uart_pack port baud name alias)) =
  Ok (sensors ++ [consolidated_built class_UartSensor (PInt port) (PInt baud) name alias]).
Proof.
  intros Hfree.
  pose proof (consolidated_add_sensor_outcome sensors (uart_pack port baud name alias)
                (PStr "uart") class_UartSensor eq_refl eq_refl) as H.
  rewrite consolidated_add_sensor_try_result, consolidated_build_sensor_result in H. cbn [tl uart_pack] in H.
  rewrite consolidated_validators_built in H. unfold uart_validate in H.
  rewrite (consolidated_uart_scan_run _ port) in H by reflexivity.
  rewrite Hfree in H. exact H.
Qed.

Lemma consolidated_add_uart_taken (sensors : list sensor_t) (port baud : Z) (name alias : pyval) :
  existsb (consolidated_on_bus port) (get_uart_sensors sensors) = true ->
  result (add_sensor sensors (uart_pack port baud name alias)) = Ok sensors /\
  recovered conflict (add_sensor sensors (uart_pack port baud name alias)) /\
  In (uart_conflict_line port)
     (stdout (add_sensor sensors (uart_pack port baud name alias))).
Proof.
  intros Htaken.
  pose proof (consolidated_add_sensor_outcome sensors (uart_pack port baud name alias)
                (PStr "uart") class_UartSensor eq_refl eq_refl) as H.
  rewrite consolidated_add_sensor_try_result, consolidated_build_sensor_result in H. cbn [tl uart_pack] in H.
  rewrite consolidated_validators_built in H. unfold uart_validate in H.
  rewrite (consolidated_uart_scan_run _ port) in H by reflexivity.
  rewrite Htaken in H. destruct H as [Hres Hrec].
  split; [exact Hres | split; [exact Hrec | ]].
  rewrite (consolidated_add_sensor_run sensors (uart_pack port baud name alias)
             (PStr "uart") class_UartSensor eq_refl eq_refl).
  cbn [stdout fst]. right.
  rewrite stdout_try_except. apply in_or_app. left.
  rewrite consolidated_add_sensor_try_stdout, consolidated_build_sensor_result. cbn [tl uart_pack].
  apply in_or_app. right. right.
  rewrite consolidated_validators_built. unfold uart_validate.
  rewrite (consolidated_uart_scan_run _ port) by reflexivity.
  rewrite Htaken. left. reflexivity.
Qed.

(** Before the [try]: an empty pack or a key the map does not hold. *)
Lemma consolidated_add_sensor_raises (sensors : list sensor_t) (ppack : list pyval) :
  match getitem ppack 0 with
  | Raise e => add_sensor sensors ppack = ([], Raise e)
  | Ok k =>
      match sensor_type_map k with
      | Raise e => add_sensor sensors ppack = ([Print [AStr "Type: "; AVal k]], Raise e)
      | Ok _ => True
      end
  end.
Proof.
  unfold add_sensor. destruct (getitem ppack 0) as [k | e]; [ | reflexivity].
  cbn. destruct (sensor_type_map k); [exact I | reflexivity].
Qed.

Lemma consolidated_sensor_type_map_unknown (k : pyval) :
  k <> PStr "i2c" -> k <> PStr "spi" -> k <> PStr "uart" ->
  sensor_type_map k = Raise (KeyError k).
Proof.
  intros Hi Hs Hu. destruct k as [z | s | | x | t]; try reflexivity.
  unfold sensor_type_map.
  destruct (String.eqb_spec s "i2c") as [-> | _]; [congruence | ].
  destruct (String.eqb_spec s "spi") as [-> | _]; [congruence | ].
  destruct (String.eqb_spec s "uart") as [-> | _]; [congruence | ].
  reflexivity.
Qed.

End ConsolidatedFacts.

(** ** The registry of sensors_exp.py *)

Module ExpFacts.
Import Exp.

Lemma exp_outside_int (z lo hi : Z) :
  outside (PInt z) lo hi = Ok (negb ((lo <=? z) && (z <=? hi))).
Proof.
  unfold outside, py_lt, py_gt. rewrite Z.gtb_ltb.
  destruct (Z.ltb_spec z lo), (Z.leb_spec lo z), (Z.ltb_spec hi z), (Z.leb_spec z hi);
    try lia; reflexivity.
Qed.

Lemma exp_I2cSensor_init_int (bus addr : Z) (name alias : pyval) :
  0 <= addr <= MAX_I2C_ADDR ->
  I2cSensor_init (i2c_pack bus addr name alias) = Ok (exp_i2c bus addr name alias).
Proof.
  intros H. unfold I2cSensor_init, i2c_pack, unpack5. rewrite exp_outside_int.
  replace ((0 <=? addr) && (addr <=? MAX_I2C_ADDR)) with true by lia.
  reflexivity.
Qed.

Lemma exp_UartSensor_init_int (port baud : Z) (name alias : pyval) :
  MIN_BAUD_RATE <= baud <= MAX_BAUD_RATE ->
  UartSensor_init (uart_pack port baud name alias) = Ok (exp_uart port baud name alias).
Proof.
  intros H. unfold UartSensor_init, uart_pack, unpack5. rewrite exp_outside_int.
  replace ((MIN_BAUD_RATE <=? baud) && (baud <=? MAX_BAUD_RATE)) with true by lia.
  reflexivity.
Qed.

Lemma exp_add_sensor_run (sensors : list sensor_t) (ppack : list pyval)
      (k : pyval) (creator : list pyval -> res sensor_t) :
  getitem ppack 0 = Ok k ->
  sensor_type_map k = Ok creator ->
  add_sensor sensors ppack =
  (Print [AStr "Type: "; AVal k]
     :: stdout (try_except (add_sensor_try sensors creator ppack)
                           (add_sensor_except sensors)),
   result (try_except (add_sensor_try sensors creator ppack)
                      (add_sensor_except sensors))).
Proof.
  intros Hk Hc. unfold add_sensor. rewrite Hk. cbn. rewrite Hc. cbn.
  destruct (try_except _ _); reflexivity.
Qed.

Lemma exp_add_sensor_try_result (sensors : list sensor_t)
      (creator : list pyval -> res sensor_t) (ppack : list pyval) :
  result (add_sensor_try sensors creator ppack) =
  match creator ppack with
  | Raise e => Raise e
  | Ok sensor =>
      match validators (type_name (base sensor)) with
      | Raise e => Raise e
      | Ok validator =>
          match result (validator sensors sensor) with
          | Ok true => Ok (sensors ++ [sensor])
          | Ok false => Raise conflict
          | Raise e => Raise e
          end
      end
  end.
Proof.
  unfold add_sensor_try. autorewrite with io.
  destruct (creator ppack) as [sensor | e]; [ | reflexivity].
  autorewrite with io.
  destruct (validators (type_name (base sensor))) as [validator | e]; [ | reflexivity].
  autorewrite with io.
  destruct (result (validator sensors sensor)) as [[ | ] | e]; reflexivity.
Qed.

Lemma exp_add_sensor_try_stdout (sensors : list sensor_t)
      (creator : list pyval -> res sensor_t) (ppack : list pyval) :
  stdout (add_sensor_try sensors creator ppack) =
  match creator ppack with
  | Raise _ => []
  | Ok sensor =>
      match validators (type_name (base sensor)) with
      | Raise _ => []
      | Ok validator => stdout (validator sensors sensor)
      end
  end.
Proof.
  unfold add_sensor_try. autorewrite with io.
  destruct (creator ppack) as [sensor | e]; [ | reflexivity].
  autorewrite with io. cbn [app].
  destruct (validators (type_name (base sensor))) as [validator | e]; [ | reflexivity].
  autorewrite with io. cbn [app].
  destruct (result (validator sensors sensor)) as [[ | ] | e];
    autorewrite with io; rewrite ?app_nil_r; reflexivity.
Qed.

Lemma exp_add_sensor_outcome (sensors : list sensor_t) (ppack : list pyval)
      (k : pyval) (creator : list pyval -> res sensor_t) :
  getitem ppack 0 = Ok k ->
  sensor_type_map k = Ok creator ->
  match result (add_sensor_try sensors creator ppack) with
  | Ok sensors' => result (add_sensor sensors ppack) = Ok sensors'
  | Raise e =>
      result (add_sensor sensors ppack) = Ok sensors /\
      recovered e (add_sensor sensors ppack)
  end.
Proof.
  intros Hk Hc. rewrite (exp_add_sensor_run _ _ _ _ Hk Hc).
  unfold recovered. cbn [result stdout fst snd].
  rewrite result_try_except, stdout_try_except.
  destruct (result (add_sensor_try sensors creator ppack)) as [sensors' | e].
  - reflexivity.
  - split; [reflexivity | ].
    exists (Print [AStr "Type: "; AVal k] :: stdout (add_sensor_try sensors creator ppack)).
    reflexivity.
Qed.

Lemma exp_uart_scan_run (sensor : sensor_t) (port : Z) (uart_sensors : list sensor_t) :
  bus_no (base sensor) = PInt port ->
  uart_scan sensor uart_sensors =
  (if existsb (exp_on_bus port) uart_sensors
   then [uart_conflict_line port] else [],
   Ok (negb (existsb (exp_on_bus port) uart_sensors))).
Proof.
  intros Hport. induction uart_sensors as [ | x rest IH]; cbn [uart_scan existsb].
  - reflexivity.
  - rewrite Hport. fold (exp_on_bus port x).
    destruct (exp_on_bus port x); cbn [orb].
    + reflexivity.
    + exact IH.
Qed.

Lemma exp_add_uart_free (sensors : list sensor_t) (port baud : Z) (name alias : pyval) :
  MIN_BAUD_RATE <= baud <= MAX_BAUD_RATE ->
  existsb (exp_on_bus port) (get_uart_sensors sensors) = false ->
  result (add_sensor sensors (uart_pack port baud name alias)) =
  Ok (sensors ++ [exp_uart port baud name alias]).
Proof.
  intros Hbaud Hfree.
  pose proof (exp_add_sensor_outcome sensors (uart_pack port baud name alias)
                (PStr "uart") UartSensor_init eq_refl eq_refl) as H.
  rewrite exp_add_sensor_try_result, (exp_UartSensor_init_int _ _ _ _ Hbaud) in H.
  cbn [validators exp_uart exp_base base type_name String.eqb Ascii.eqb Bool.eqb] in H.
  unfold uart_validate in H.
  rewrite (exp_uart_scan_run _ port) in H by reflexivity.
  rewrite Hfree in H. exact H.
Qed.

Lemma exp_add_uart_taken (sensors : list sensor_t) (port baud : Z) (name alias : pyval) :
  MIN_BAUD_RATE <= baud <= MAX_BAUD_RATE ->
  existsb (exp_on_bus port) (get_uart_sensors sensors) = true ->
  result (add_sensor sensors (uart_pack port baud name alias)) = Ok sensors /\
  recovered conflict (add_sensor sensors (uart_pack port baud name alias)) /\
  In (uart_conflict_line port)
     (stdout (add_sensor sensors (uart_pack port baud name alias))).
Proof.
  intros Hbaud Htaken.
  pose proof (exp_add_sensor_outcome sensors (uart_pack port baud name alias)
                (PStr "uart") UartSensor_init eq_refl eq_refl) as H.
  rewrite exp_add_sensor_try_result, (exp_UartSensor_init_int _ _ _ _ Hbaud) in H.
  cbn [validators exp_uart exp_base base type_name String.eqb Ascii.eqb Bool.eqb] in H.
  unfold uart_validate in H.
  rewrite (exp_uart_scan_run _ port) in H by reflexivity.
  rewrite Htaken in H. destruct H as [Hres Hrec].
  split; [exact Hres | split; [exact Hrec | ]].
  rewrite (exp_add_sensor_run sensors (uart_pack port baud name alias)
             (PStr "uart") UartSensor_init eq_refl eq_refl).
  cbn [stdout fst]. right.
  rewrite stdout_try_except. apply in_or_app. left.
  rewrite exp_add_sensor_try_stdout, (exp_UartSensor_init_int _ _ _ _ Hbaud).
  cbn [validators exp_uart exp_base base type_name String.eqb Ascii.eqb Bool.eqb].
  unfold uart_validate.
  rewrite (exp_uart_scan_run _ port) by reflexivity.
  rewrite Htaken. left. reflexivity.
Qed.

End ExpFacts.

(** ** One device per serial port *)

Lemma consolidated_port_taken (sensors : list Consolidated.sensor_t)
      (port baud : Z) (name alias : pyval) :
  existsb (consolidated_on_bus port)
    (Consolidated.get_uart_sensors
       (sensors ++ [consolidated_built Consolidated.class_UartSensor
                      (PInt port) (PInt baud) name alias])) = true.
Proof.
  rewrite ConsolidatedFacts.consolidated_get_uart_sensors_app, existsb_app.
  cbn. unfold consolidated_on_bus. cbn. rewrite Z.eqb_refl. apply orb_true_r.
Qed.

Lemma exp_port_taken (sensors : list Exp.sensor_t) (port baud : Z) (name alias : pyval) :
  existsb (exp_on_bus port)
    (Exp.get_uart_sensors (sensors ++ [exp_uart port baud name alias])) = true.
Proof.
  unfold Exp.get_uart_sensors. rewrite filter_app, existsb_app.
  cbn. unfold exp_on_bus. cbn. rewrite Z.eqb_refl. apply orb_true_r.
Qed.

(** C5. Two UART packs with the same port number and baud rates in
    [2400,921400], equal or not: on any registry where the port is free,
    [add_sensor] appends the sensor of the first pack and rejects the
    second, which leaves the registry as it was, prints the validator's
    error line and ends in the [except] branch with the conflict
    exception.  The baud rates are never compared.  Proved for
    sensors_consolidated.py and for sensors_exp.py. *)
Theorem uart_same_port_rejected :
  forall (port baud1 baud2 : Z) (name1 alias1 name2 alias2 : pyval)
         (registry : list Consolidated.sensor_t) (registry' : list Exp.sensor_t),
    MIN_BAUD_RATE <= baud1 <= MAX_BAUD_RATE ->
    MIN_BAUD_RATE <= baud2 <= MAX_BAUD_RATE ->
    existsb (consolidated_on_bus port) (Consolidated.get_uart_sensors registry) = false ->
    existsb (exp_on_bus port) (Exp.get_uart_sensors registry') = false ->
    (result (Consolidated.add_sensor registry (uart_pack port baud1 name1 alias1)) =
       Ok (registry ++ [consolidated_built Consolidated.class_UartSensor
                          (PInt port) (PInt baud1) name1 alias1]) /\
     result (Consolidated.add_sensor
               (registry ++ [consolidated_built Consolidated.class_UartSensor
                               (PInt port) (PInt baud1) name1 alias1])
               (uart_pack port baud2 name2 alias2)) =
       Ok (registry ++ [consolidated_built Consolidated.class_UartSensor
                          (PInt port) (PInt baud1) name1 alias1]) /\
     recovered conflict
       (Consolidated.add_sensor
          (registry ++ [consolidated_built Consolidated.class_UartSensor
                          (PInt port) (PInt baud1) name1 alias1])
          (uart_pack port baud2 name2 alias2)) /\
     In (uart_conflict_line port)
        (stdout (Consolidated.add_sensor
                   (registry ++ [consolidated_built Consolidated.class_UartSensor
                                   (PInt port) (PInt baud1) name1 alias1])
                   (uart_pack port baud2 name2 alias2)))) /\
    (result (Exp.add_sensor registry' (uart_pack port baud1 name1 alias1)) =
       Ok (registry' ++ [exp_uart port baud1 name1 alias1]) /\
     result (Exp.add_sensor (registry' ++ [exp_uart port baud1 name1 alias1])
               (uart_pack port baud2 name2 alias2)) =
       Ok (registry' ++ [exp_uart port baud1 name1 alias1]) /\
     recovered conflict
       (Exp.add_sensor (registry' ++ [exp_uart port baud1 name1 alias1])
          (uart_pack port baud2 name2 alias2)) /\
     In (uart_conflict_line port)
        (stdout (Exp.add_sensor (registry' ++ [exp_uart port baud1 name1 alias1])
                   (uart_pack port baud2 name2 alias2)))).
Proof.
  intros port baud1 baud2 name1 alias1 name2 alias2 registry registry'
         Hb1 Hb2 Hfree Hfree'.
  split.
  - split; [apply ConsolidatedFacts.consolidated_add_uart_free; exact Hfree | ].
    apply ConsolidatedFacts.consolidated_add_uart_taken, consolidated_port_taken.
  - split; [apply ExpFacts.exp_add_uart_free; assumption | ].
    apply ExpFacts.exp_add_uart_taken; [exact Hb2 | apply exp_port_taken].
Qed.

(** The demo block of both files: port 4 at 115200 baud, then port 4 at
    38400 baud. *)
Lemma uart_same_port_rejected_witness :
  MIN_BAUD_RATE <= 115200 <= MAX_BAUD_RATE /\
  MIN_BAUD_RATE <= 38400 <= MAX_BAUD_RATE /\
  result (Consolidated.add_sensor
            ([] ++ [consolidated_built Consolidated.class_UartSensor (PInt 4)
                      (PInt 115200) (PStr "CustomHygrometerSubmodule")
                      (PStr "RHT-sensor3")])
            (uart_pack 4 38400 (PStr "CustomHygrometerSubmodule") (PStr "RHT-sensor4"))) =
    Ok ([] ++ [consolidated_built Consolidated.class_UartSensor (PInt 4)
                 (PInt 115200) (PStr "CustomHygrometerSubmodule")
                 (PStr "RHT-sensor3")]) /\
  result (Exp.add_sensor
            ([] ++ [exp_uart 4 115200 (PStr "CustomHygrometerSubmodule")
                      (PStr "RHT-sensor3")])
            (uart_pack 4 38400 (PStr "CustomHygrometerSubmodule") (PStr "RHT-sensor4"))) =
    Ok ([] ++ [exp_uart 4 115200 (PStr "CustomHygrometerSubmodule")
                 (PStr "RHT-sensor3")]).
Proof.
  assert (H1 : MIN_BAUD_RATE <= 115200 <= MAX_BAUD_RATE)
    by (unfold MIN_BAUD_RATE, MAX_BAUD_RATE; lia).
  assert (H2 : MIN_BAUD_RATE <= 38400 <= MAX_BAUD_RATE)
    by (unfold MIN_BAUD_RATE, MAX_BAUD_RATE; lia).
  split; [exact H1 | split; [exact H2 | ]].
  destruct (uart_same_port_rejected 4 115200 38400
              (PStr "CustomHygrometerSubmodule") (PStr "RHT-sensor3")
              (PStr "CustomHygrometerSubmodule") (PStr "RHT-sensor4")
              [] [] H1 H2 eq_refl eq_refl) as [[_ [Hc _]] [_ [He _]]].
  split; [exact Hc | exact He].
Defined.

(** ** One I2C address *)

Lemma consolidated_add_i2c_empty (bus addr : Z) (name alias : pyval) :
  result (Consolidated.add_sensor [] (i2c_pack bus addr name alias)) =
  Ok [consolidated_built Consolidated.class_I2cSensor (PInt bus) (PInt addr) name alias].
Proof. reflexivity. Qed.

(** The validator of sensors_consolidated.py compares the address and
    nothing else: a second I2C sensor with the address of the first is
    rejected on any bus. *)
Lemma consolidated_add_i2c_same_address (bus1 bus2 addr : Z)
      (name1 alias1 name2 alias2 : pyval) :
  result (Consolidated.add_sensor
            [consolidated_built Consolidated.class_I2cSensor
               (PInt bus1) (PInt addr) name1 alias1]
            (i2c_pack bus2 addr name2 alias2)) =
    Ok [consolidated_built Consolidated.class_I2cSensor
          (PInt bus1) (PInt addr) name1 alias1] /\
  recovered conflict
    (Consolidated.add_sensor
       [consolidated_built Consolidated.class_I2cSensor
          (PInt bus1) (PInt addr) name1 alias1]
       (i2c_pack bus2 addr name2 alias2)) /\
  In (i2c_conflict_line addr bus2)
     (stdout (Consolidated.add_sensor
                [consolidated_built Consolidated.class_I2cSensor
                   (PInt bus1) (PInt addr) name1 alias1]
                (i2c_pack bus2 addr name2 alias2))).
Proof.
  unfold recovered. cbn. rewrite Z.eqb_refl. cbn.
  split; [reflexivity | split; [split_last_two | find_line]].
Qed.

Lemma exp_add_i2c_empty (bus addr : Z) (name alias : pyval) :
  0 <= addr <= MAX_I2C_ADDR ->
  result (Exp.add_sensor [] (i2c_pack bus addr name alias)) =
  Ok [exp_i2c bus addr name alias].
Proof.
  intros Haddr.
  pose proof (ExpFacts.exp_add_sensor_outcome [] (i2c_pack bus addr name alias)
                (PStr "i2c") Exp.I2cSensor_init eq_refl eq_refl) as H.
  rewrite ExpFacts.exp_add_sensor_try_result, (ExpFacts.exp_I2cSensor_init_int _ _ _ _ Haddr) in H.
  exact H.
Qed.

Lemma exp_add_i2c_same_address (bus1 bus2 addr : Z) (name1 alias1 name2 alias2 : pyval) :
  0 <= addr <= MAX_I2C_ADDR ->
  result (Exp.add_sensor [exp_i2c bus1 addr name1 alias1]
            (i2c_pack bus2 addr name2 alias2)) =
    Ok [exp_i2c bus1 addr name1 alias1] /\
  recovered conflict
    (Exp.add_sensor [exp_i2c bus1 addr name1 alias1] (i2c_pack bus2 addr name2 alias2)) /\
  In (i2c_conflict_line addr bus2)
     (stdout (Exp.add_sensor [exp_i2c bus1 addr name1 alias1]
                (i2c_pack bus2 addr name2 alias2))).
Proof.
  intros Haddr.
  pose proof (ExpFacts.exp_add_sensor_outcome [exp_i2c bus1 addr name1 alias1]
                (i2c_pack bus2 addr name2 alias2)
                (PStr "i2c") Exp.I2cSensor_init eq_refl eq_refl) as H.
  rewrite ExpFacts.exp_add_sensor_try_result, (ExpFacts.exp_I2cSensor_init_int _ _ _ _ Haddr) in H.
  cbn in H. rewrite Z.eqb_refl in H. cbn in H.
  destruct H as [Hres Hrec].
  split; [exact Hres | split; [exact Hrec | ]].
  rewrite (ExpFacts.exp_add_sensor_run [exp_i2c bus1 addr name1 alias1]
             (i2c_pack bus2 addr name2 alias2)
             (PStr "i2c") Exp.I2cSensor_init eq_refl eq_refl).
  cbn [stdout fst]. right.
  rewrite stdout_try_except. apply in_or_app. left.
  rewrite ExpFacts.exp_add_sensor_try_stdout, (ExpFacts.exp_I2cSensor_init_int _ _ _ _ Haddr).
  cbn. rewrite Z.eqb_refl. cbn. left. reflexivity.
Qed.

(** C1. Two I2C packs with the same bus number and the same address in
    [0,127], added to an empty registry: the first is appended, the
    second is rejected and reported with the conflict exception, and the
    registry holds the first sensor alone.  Proved for
    sensors_consolidated.py and for sensors_exp.py. *)
Theorem i2c_same_key_conflict :
  forall (bus addr : Z) (name1 alias1 name2 alias2 : pyval),
    0 <= addr <= MAX_I2C_ADDR ->
    (result (Consolidated.add_sensor [] (i2c_pack bus addr name1 alias1)) =
       Ok [consolidated_built Consolidated.class_I2cSensor
             (PInt bus) (PInt addr) name1 alias1] /\
     result (Consolidated.add_sensor
               [consolidated_built Consolidated.class_I2cSensor
                  (PInt bus) (PInt addr) name1 alias1]
               (i2c_pack bus addr name2 alias2)) =
       Ok [consolidated_built Consolidated.class_I2cSensor
             (PInt bus) (PInt addr) name1 alias1] /\
     recovered conflict
       (Consolidated.add_sensor
          [consolidated_built Consolidated.class_I2cSensor
             (PInt bus) (PInt addr) name1 alias1]
          (i2c_pack bus addr name2 alias2)) /\
     In (i2c_conflict_line addr bus)
        (stdout (Consolidated.add_sensor
                   [consolidated_built Consolidated.class_I2cSensor
                      (PInt bus) (PInt addr) name1 alias1]
                   (i2c_pack bus addr name2 alias2)))) /\
    (result (Exp.add_sensor [] (i2c_pack bus addr name1 alias1)) =
       Ok [exp_i2c bus addr name1 alias1] /\
     result (Exp.add_sensor [exp_i2c bus addr name1 alias1]
               (i2c_pack bus addr name2 alias2)) =
       Ok [exp_i2c bus addr name1 alias1] /\
     recovered conflict
       (Exp.add_sensor [exp_i2c bus addr name1 alias1] (i2c_pack bus addr name2 alias2)) /\
     In (i2c_conflict_line addr bus)
        (stdout (Exp.add_sensor [exp_i2c bus addr name1 alias1]
                   (i2c_pack bus addr name2 alias2)))).
Proof.
  intros bus addr name1 alias1 name2 alias2 Haddr. split.
  - split; [apply consolidated_add_i2c_empty | apply consolidated_add_i2c_same_address].
  - split; [apply exp_add_i2c_empty | apply exp_add_i2c_same_address]; exact Haddr.
Qed.

(** The demo block: bus 2, address 78, twice. *)
Lemma i2c_same_key_conflict_witness :
  0 <= 78 <= MAX_I2C_ADDR /\
  result (Consolidated.add_sensor
            [consolidated_built Consolidated.class_I2cSensor
               (PInt 2) (PInt 78) (PStr "BM280") (PStr "RHT-sensor1")]
            (i2c_pack 2 78 (PStr "BM281") (PStr "sensor2C"))) =
    Ok [consolidated_built Consolidated.class_I2cSensor
          (PInt 2) (PInt 78) (PStr "BM280") (PStr "RHT-sensor1")] /\
  result (Exp.add_sensor [exp_i2c 2 78 (PStr "BM280") (PStr "RHT-sensor1")]
            (i2c_pack 2 78 (PStr "BM281") (PStr "sensor2C"))) =
    Ok [exp_i2c 2 78 (PStr "BM280") (PStr "RHT-sensor1")].
Proof.
  assert (H : 0 <= 78 <= MAX_I2C_ADDR) by (unfold MAX_I2C_ADDR; lia).
  split; [exact H | ].
  destruct (i2c_same_key_conflict 2 78 (PStr "BM280") (PStr "RHT-sensor1")
              (PStr "BM281") (PStr "sensor2C") H) as [[_ [Hc _]] [_ [He _]]].
  split; [exact Hc | exact He].
Defined.

(** C2, at the input where the code departs from the claim: an I2C
    sensor at address 78 of bus 2, then one at address 78 of bus 3.  Both
    files reject the second, with the error line naming bus 3, and keep
    the first sensor alone. *)
Theorem i2c_other_bus_same_address_rejected :
  (result (Consolidated.add_sensor [] (i2c_pack 2 78 (PStr "BM280") (PStr "RHT-sensor1"))) =
     Ok [consolidated_built Consolidated.class_I2cSensor
           (PInt 2) (PInt 78) (PStr "BM280") (PStr "RHT-sensor1")] /\
   result (Consolidated.add_sensor
             [consolidated_built Consolidated.class_I2cSensor
                (PInt 2) (PInt 78) (PStr "BM280") (PStr "RHT-sensor1")]
             (i2c_pack 3 78 (PStr "BM281") (PStr "sensor2C"))) =
     Ok [consolidated_built Consolidated.class_I2cSensor
           (PInt 2) (PInt 78) (PStr "BM280") (PStr "RHT-sensor1")] /\
   recovered conflict
     (Consolidated.add_sensor
        [consolidated_built Consolidated.class_I2cSensor
           (PInt 2) (PInt 78) (PStr "BM280") (PStr "RHT-sensor1")]
        (i2c_pack 3 78 (PStr "BM281") (PStr "sensor2C"))) /\
   In (i2c_conflict_line 78 3)
      (stdout (Consolidated.add_sensor
                 [consolidated_built Consolidated.class_I2cSensor
                    (PInt 2) (PInt 78) (PStr "BM280") (PStr "RHT-sensor1")]
                 (i2c_pack 3 78 (PStr "BM281") (PStr "sensor2C"))))) /\
  (result (Exp.add_sensor [] (i2c_pack 2 78 (PStr "BM280") (PStr "RHT-sensor1"))) =
     Ok [exp_i2c 2 78 (PStr "BM280") (PStr "RHT-sensor1")] /\
   result (Exp.add_sensor [exp_i2c 2 78 (PStr "BM280") (PStr "RHT-sensor1")]
             (i2c_pack 3 78 (PStr "BM281") (PStr "sensor2C"))) =
     Ok [exp_i2c 2 78 (PStr "BM280") (PStr "RHT-sensor1")] /\
   recovered conflict
     (Exp.add_sensor [exp_i2c 2 78 (PStr "BM280") (PStr "RHT-sensor1")]
        (i2c_pack 3 78 (PStr "BM281") (PStr "sensor2C"))) /\
   In (i2c_conflict_line 78 3)
      (stdout (Exp.add_sensor [exp_i2c 2 78 (PStr "BM280") (PStr "RHT-sensor1")]
                 (i2c_pack 3 78 (PStr "BM281") (PStr "sensor2C"))))).
Proof.
  assert (H : 0 <= 78 <= MAX_I2C_ADDR) by (unfold MAX_I2C_ADDR; lia).
  split.
  - split; [apply consolidated_add_i2c_empty | apply consolidated_add_i2c_same_address].
  - split; [apply exp_add_i2c_empty | apply exp_add_i2c_same_address]; exact H.
Qed.

(** ** The registry of sensors.py *)

Module ParamPackFacts.
Import ParamPack.

Lemma parampack_add_sensor_run (sensors : list sensor_t) (ppack : list pyval)
      (k : pyval) (creator : list pyval -> res sensor_t) :
  getitem ppack 0 = Ok k ->
  sensor_type_map k = Ok creator ->
  add_sensor sensors ppack =
  match creator (tl ppack) with
  | Ok sensor => ([Print [AStr "Type: "; AVal k]], Ok (sensors ++ [sensor]))
  | Raise exc =>
      ([Print [AStr "Type: "; AVal k];
        Print [AStr "ERROR creating sensor!!"]; Print [AArgs exc]], Ok sensors)
  end.
Proof.
  intros Hk Hc. unfold add_sensor. rewrite Hk. cbn. rewrite Hc. cbn.
  destruct (creator (tl ppack)); reflexivity.
Qed.

Lemma parampack_add_sensor_outcome (sensors : list sensor_t) (ppack : list pyval)
      (k : pyval) (creator : list pyval -> res sensor_t) :
  getitem ppack 0 = Ok k ->
  sensor_type_map k = Ok creator ->
  match creator (tl ppack) with
  | Ok sensor => result (add_sensor sensors ppack) = Ok (sensors ++ [sensor])
  | Raise exc =>
      result (add_sensor sensors ppack) = Ok sensors /\
      recovered exc (add_sensor sensors ppack)
  end.
Proof.
  intros Hk Hc. rewrite (parampack_add_sensor_run _ _ _ _ Hk Hc).
  destruct (creator (tl ppack)) as [sensor | exc]; [reflexivity | ].
  split; [reflexivity | ]. exists [Print [AStr "Type: "; AVal k]]. reflexivity.
Qed.

(** Before the [try]: an empty pack or a key the map does not hold. *)
Lemma parampack_add_sensor_raises (sensors : list sensor_t) (ppack : list pyval) :
  match getitem ppack 0 with
  | Raise e => add_sensor sensors ppack = ([], Raise e)
  | Ok k =>
      match sensor_type_map k with
      | Raise e => add_sensor sensors ppack = ([Print [AStr "Type: "; AVal k]], Raise e)
      | Ok _ => True
      end
  end.
Proof.
  unfold add_sensor. destruct (getitem ppack 0) as [k | e]; [ | reflexivity].
  cbn. destruct (sensor_type_map k); [exact I | reflexivity].
Qed.

Lemma parampack_sensor_type_map_unknown (k : pyval) :
  k <> PStr "i2c" -> k <> PStr "spi" -> k <> PStr "uart" ->
  sensor_type_map k = Raise (KeyError k).
Proof.
  intros Hi Hs Hu. destruct k as [z | s | | x | t]; try reflexivity.
  unfold sensor_type_map.
  destruct (String.eqb_spec s "i2c") as [-> | _]; [congruence | ].
  destruct (String.eqb_spec s "spi") as [-> | _]; [congruence | ].
  destruct (String.eqb_spec s "uart") as [-> | _]; [congruence | ].
  reflexivity.
Qed.

End ParamPackFacts.

(** ** Failures inside the [try] *)

(** C3. A call of [add_sensor] that reaches its [try] and fails there,
    because the construction of the sensor raises or because the
    validator of the kind answers [False], returns to its caller: the
    list of sensors is the list before the call, and the last two lines
    printed are the error banner and the arguments of the exception (the
    one the construction raised, or the conflict).  Proved for
    sensors_consolidated.py and, where only the construction can fail,
    for sensors.py. *)
Theorem add_sensor_atomic :
  forall (ppack : list pyval) (k : pyval),
    getitem ppack 0 = Ok k ->
    (forall (registry : list Consolidated.sensor_t) (cls : Consolidated.sensor_class),
        Consolidated.sensor_type_map k = Ok cls ->
        (forall exc,
            result (Consolidated.build_sensor cls (tl ppack)) = Raise exc ->
            result (Consolidated.add_sensor registry ppack) = Ok registry /\
            recovered exc (Consolidated.add_sensor registry ppack)) /\
        (forall sensor validator,
            result (Consolidated.build_sensor cls (tl ppack)) = Ok sensor ->
            Consolidated.validators
              (Consolidated.type_name (Consolidated.base sensor)) = Ok validator ->
            result (validator registry sensor) = Ok false ->
            result (Consolidated.add_sensor registry ppack) = Ok registry /\
            recovered conflict (Consolidated.add_sensor registry ppack))) /\
    (forall (registry : list ParamPack.sensor_t) creator exc,
        ParamPack.sensor_type_map k = Ok creator ->
        creator (tl ppack) = Raise exc ->
        result (ParamPack.add_sensor registry ppack) = Ok registry /\
        recovered exc (ParamPack.add_sensor registry ppack)).
Proof.
  intros ppack k Hk. split.
  - intros registry cls Hcls.
    pose proof (ConsolidatedFacts.consolidated_add_sensor_outcome registry ppack k cls Hk Hcls) as H.
    rewrite ConsolidatedFacts.consolidated_add_sensor_try_result in H.
    split.
    + intros exc Hbuild. rewrite Hbuild in H. exact H.
    + intros sensor validator Hbuild Hval Hfalse.
      rewrite Hbuild, Hval, Hfalse in H. exact H.
  - intros registry creator exc Hc Hraise.
    pose proof (ParamPackFacts.parampack_add_sensor_outcome registry ppack k creator Hk Hc) as H.
    rewrite Hraise in H. exact H.
Qed.

(** From the demo blocks: chip select 8 in sensors.py, out of its domain;
    in sensors_consolidated.py a pack cut short, and chip select 3 of
    bus 1 added twice. *)
Lemma add_sensor_atomic_witness :
  (result (ParamPack.add_sensor []
             (spi_pack 1 8 (PStr "SHT721") (PStr "RHT-sensor2B"))) = Ok [] /\
   recovered (ValueError "Invalid CS-number specified!")
     (ParamPack.add_sensor [] (spi_pack 1 8 (PStr "SHT721") (PStr "RHT-sensor2B")))) /\
  (result (Consolidated.add_sensor [] [PStr "i2c"; PInt 2]) = Ok [] /\
   recovered (IndexError "tuple index out of range")
     (Consolidated.add_sensor [] [PStr "i2c"; PInt 2])) /\
  (result (Consolidated.add_sensor
             [consolidated_built Consolidated.class_SpiSensor
                (PInt 1) (PInt 3) (PStr "SHT721") (PStr "RHT-sensor2A")]
             (spi_pack 1 3 (PStr "MPU6050") (PStr "IMU-A1"))) =
     Ok [consolidated_built Consolidated.class_SpiSensor
           (PInt 1) (PInt 3) (PStr "SHT721") (PStr "RHT-sensor2A")] /\
   recovered conflict
     (Consolidated.add_sensor
        [consolidated_built Consolidated.class_SpiSensor
           (PInt 1) (PInt 3) (PStr "SHT721") (PStr "RHT-sensor2A")]
        (spi_pack 1 3 (PStr "MPU6050") (PStr "IMU-A1")))).
Proof.
  split; [ | split].
  - exact (proj2 (add_sensor_atomic
                    (spi_pack 1 8 (PStr "SHT721") (PStr "RHT-sensor2B"))
                    (PStr "spi") eq_refl)
             [] ParamPack.SpiSensor_init
             (ValueError "Invalid CS-number specified!") eq_refl eq_refl).
  - exact (proj1 (proj1 (add_sensor_atomic [PStr "i2c"; PInt 2] (PStr "i2c") eq_refl)
                    [] Consolidated.class_I2cSensor eq_refl)
             (IndexError "tuple index out of range") eq_refl).
  - exact (proj2 (proj1 (add_sensor_atomic
                           (spi_pack 1 3 (PStr "MPU6050") (PStr "IMU-A1"))
                           (PStr "spi") eq_refl)
                    [consolidated_built Consolidated.class_SpiSensor
                       (PInt 1) (PInt 3) (PStr "SHT721") (PStr "RHT-sensor2A")]
                    Consolidated.class_SpiSensor eq_refl)
             (consolidated_built Consolidated.class_SpiSensor
                (PInt 1) (PInt 3) (PStr "MPU6050") (PStr "IMU-A1"))
             Consolidated.spi_validate eq_refl eq_refl eq_refl).
Defined.

(** ** An unknown kind *)

(** C4, as stated, fails: with the kind ["can"] the call does not return,
    in either file; [KeyError] reaches the caller. *)
Lemma unknown_kind_escapes :
  Consolidated.add_sensor []
    [PStr "can"; PInt 1; PInt 5; PStr "MCP2515"; PStr "bus-monitor"] =
    ([Print [AStr "Type: "; AVal (PStr "can")]], Raise (KeyError (PStr "can"))) /\
  ParamPack.add_sensor []
    [PStr "can"; PInt 1; PInt 5; PStr "MCP2515"; PStr "bus-monitor"] =
    ([Print [AStr "Type: "; AVal (PStr "can")]], Raise (KeyError (PStr "can"))).
Proof. split; reflexivity. Qed.

(** C4, amended.  When the first value of the pack is none of ["i2c"],
    ["spi"], ["uart"], [add_sensor] prints the type line and raises
    [KeyError] with that value to its caller: the look-up comes before
    the [try], so nothing recovers it inside the call.  Nothing was
    appended: the list of sensors after the call is the list before it,
    so a caller that handles the error goes on with the same registry.
    Proved for sensors_consolidated.py and for sensors.py. *)
Theorem unknown_kind_raises_key_error :
  forall (ppack : list pyval) (k : pyval)
         (registry : list Consolidated.sensor_t) (registry' : list ParamPack.sensor_t),
    getitem ppack 0 = Ok k ->
    k <> PStr "i2c" -> k <> PStr "spi" -> k <> PStr "uart" ->
    (Consolidated.add_sensor registry ppack =
       ([Print [AStr "Type: "; AVal k]], Raise (KeyError k)) /\
     after registry (Consolidated.add_sensor registry ppack) = registry) /\
    (ParamPack.add_sensor registry' ppack =
       ([Print [AStr "Type: "; AVal k]], Raise (KeyError k)) /\
     after registry' (ParamPack.add_sensor registry' ppack) = registry').
Proof.
  intros ppack k registry registry' Hk Hi Hs Hu. split.
  - pose proof (ConsolidatedFacts.consolidated_add_sensor_raises registry ppack) as H.
    rewrite Hk, (ConsolidatedFacts.consolidated_sensor_type_map_unknown k Hi Hs Hu) in H.
    split; [exact H | ]. unfold after. rewrite H. reflexivity.
  - pose proof (ParamPackFacts.parampack_add_sensor_raises registry' ppack) as H.
    rewrite Hk, (ParamPackFacts.parampack_sensor_type_map_unknown k Hi Hs Hu) in H.
    split; [exact H | ]. unfold after. rewrite H. reflexivity.
Qed.

Lemma unknown_kind_raises_key_error_witness :
  getitem [PStr "can"; PInt 1; PInt 5; PStr "MCP2515"; PStr "bus-monitor"] 0 =
    Ok (PStr "can") /\
  after [consolidated_built Consolidated.class_I2cSensor
           (PInt 2) (PInt 78) (PStr "BM280") (PStr "RHT-sensor1")]
    (Consolidated.add_sensor
       [consolidated_built Consolidated.class_I2cSensor
          (PInt 2) (PInt 78) (PStr "BM280") (PStr "RHT-sensor1")]
       [PStr "can"; PInt 1; PInt 5; PStr "MCP2515"; PStr "bus-monitor"]) =
    [consolidated_built Consolidated.class_I2cSensor
       (PInt 2) (PInt 78) (PStr "BM280") (PStr "RHT-sensor1")].
Proof.
  split; [reflexivity | ].
  refine (proj2 (proj1 (unknown_kind_raises_key_error
                          [PStr "can"; PInt 1; PInt 5; PStr "MCP2515"; PStr "bus-monitor"]
                          (PStr "can") _ [] eq_refl _ _ _)));
    intros H; discriminate H.
Defined.

(** ** The default list of [Sensors.__init__] *)

Lemma load_store_same {A} (h : heap A) (l : loc) (v : list A) :
  (l < List.length h)%nat -> load (store h l v) l = v.
Proof.
  revert l. induction h as [ | x rest IH]; intros [ | l] Hl; cbn in *;
    try lia; [reflexivity | apply IH; lia].
Qed.

Lemma load_store_other {A} (h : heap A) (l l' : loc) (v : list A) :
  l <> l' -> load (store h l v) l' = load h l'.
Proof.
  revert l l'. induction h as [ | x rest IH]; intros [ | l] [ | l'] Hne; cbn;
    try reflexivity; try congruence.
  - apply IH. congruence.
Qed.

(** Two instances built on list objects of their own do not see each
    other's sensors. *)
Lemma own_lists_independent (h : heap Consolidated.sensor_t) (l l' : loc)
      (ppack : list pyval) (h' : heap Consolidated.sensor_t) :
  l <> l' ->
  result (Consolidated.add_sensor_method h (Sensors_init (Some l)) ppack) = Ok h' ->
  load h' (sensors (Sensors_init (Some l'))) = load h (sensors (Sensors_init (Some l'))).
Proof.
  intros Hne. unfold Consolidated.add_sensor_method, on_self. cbn [sensors Sensors_init].
  rewrite result_bind.
  destruct (result (Consolidated.add_sensor (load h l) ppack)) as [s' | e];
    [ | discriminate].
  cbn. intros [= <-]. apply load_store_other. exact Hne.
Qed.

(** C9, at the input where the code departs from the claim: two
    registries built without an argument, the first pack of the demo
    block added to the first.  In both files the second registry, empty
    before the call, holds the new sensor after it: an instance built
    without an argument holds the address of the one default list, and
    so do all such instances. *)
Theorem default_list_is_shared :
  (sensors (Sensors_init None) = default_sensors /\
   load (@module_heap Consolidated.sensor_t) (sensors (Sensors_init None)) = [] /\
   exists h,
     result (Consolidated.add_sensor_method module_heap (Sensors_init None)
               (i2c_pack 2 78 (PStr "BM280") (PStr "RHT-sensor1"))) = Ok h /\
     load h (sensors (Sensors_init None)) =
       [consolidated_built Consolidated.class_I2cSensor
          (PInt 2) (PInt 78) (PStr "BM280") (PStr "RHT-sensor1")]) /\
  (load (@module_heap ParamPack.sensor_t) (sensors (Sensors_init None)) = [] /\
   exists h,
     result (ParamPack.add_sensor_method module_heap (Sensors_init None)
               (i2c_pack 2 78 (PStr "BM280") (PStr "RHT-sensor1"))) = Ok h /\
     load h (sensors (Sensors_init None)) =
       [ParamPack.I2cSensor (PInt 78)
          (ParamPack.SensorBase_init (PInt 2) (PStr "BM280") (PStr "RHT-sensor1")
             ParamPack.get_i2c_val)]).
Proof.
  split.
  - split; [reflexivity | split; [reflexivity | ]].
    eexists. split; reflexivity.
  - split; [reflexivity | ]. eexists. split; reflexivity.
Qed.

(** ** The domains of the registered sensors (sensors.py) *)

Lemma float_not_both (x : spec_float) (lo hi : Z) :
  match float_compare_int x lo with Some Lt => true | _ => false end = false ->
  match float_compare_int x hi with Some Gt => true | _ => false end = false ->
  float_compare_int x lo <> Some Lt /\ float_compare_int x hi <> Some Gt.
Proof.
  destruct (float_compare_int x lo) as [[ | | ] | ],
           (float_compare_int x hi) as [[ | | ] | ];
    intros H1 H2; try discriminate; split; discriminate.
Qed.

Lemma outside_within (v : pyval) (lo hi : Z) :
  ParamPack.outside v lo hi = Ok false -> within lo hi v.
Proof.
  destruct v as [z | s | | x | t]; try discriminate.
  - rewrite outside_int. intros [= H]. cbn. lia.
  - unfold ParamPack.outside, py_lt, py_gt.
    destruct (match float_compare_int x lo with Some Lt => true | _ => false end) eqn:H1;
      [discriminate | ].
    intros [= H2]. exact (float_not_both x lo hi H1 H2).
  - unfold ParamPack.outside, py_lt, py_gt. rewrite Z.gtb_ltb.
    destruct (Z.ltb_spec (Z.b2z t) lo); [discriminate | ].
    destruct (Z.ltb_spec hi (Z.b2z t)); [discriminate | ].
    intros _. cbn. lia.
Qed.

Lemma unpack4_ok (ppack : list pyval) (a b c d : pyval) :
  ParamPack.unpack4 ppack = Ok (a, b, c, d) -> ppack = [a; b; c; d].
Proof.
  destruct ppack as [ | a' [ | b' [ | c' [ | d' [ | ? ?]]]]]; try discriminate.
  intros [= -> -> -> ->]. reflexivity.
Qed.

Lemma I2cSensor_init_admitted (ppack : list pyval) (s : ParamPack.sensor_t) :
  ParamPack.I2cSensor_init ppack = Ok s -> admitted s.
Proof.
  unfold ParamPack.I2cSensor_init.
  destruct (ParamPack.unpack4 ppack) as [[[[bus_no i2c_addr] dev_name] alias] | e];
    [ | discriminate].
  destruct (ParamPack.outside i2c_addr 0 MAX_I2C_ADDR) as [[ | ] | e] eqn:Hout;
    try discriminate.
  intros [= <-]. exact (outside_within _ _ _ Hout).
Qed.

Lemma SpiSensor_init_admitted (ppack : list pyval) (s : ParamPack.sensor_t) :
  ParamPack.SpiSensor_init ppack = Ok s -> admitted s.
Proof.
  unfold ParamPack.SpiSensor_init.
  destruct (ParamPack.unpack4 ppack) as [[[[bus_no cs_no] dev_name] alias] | e];
    [ | discriminate].
  destruct (ParamPack.outside cs_no 0 MAX_CS_VAL) as [[ | ] | e] eqn:Hout;
    try discriminate.
  intros [= <-]. exact (outside_within _ _ _ Hout).
Qed.

Lemma UartSensor_init_admitted (ppack : list pyval) (s : ParamPack.sensor_t) :
  ParamPack.UartSensor_init ppack = Ok s -> admitted s.
Proof.
  unfold ParamPack.UartSensor_init.
  destruct (ParamPack.unpack4 ppack) as [[[[bus_no baud_rate] dev_name] alias] | e];
    [ | discriminate].
  destruct (ParamPack.outside baud_rate MIN_BAUD_RATE MAX_BAUD_RATE)
    as [[ | ] | e] eqn:Hout; try discriminate.
  intros [= <-]. exact (outside_within _ _ _ Hout).
Qed.

Lemma creator_admitted (k : pyval) (creator : list pyval -> res ParamPack.sensor_t)
      (ppack : list pyval) (s : ParamPack.sensor_t) :
  ParamPack.sensor_type_map k = Ok creator -> creator ppack = Ok s -> admitted s.
Proof.
  unfold ParamPack.sensor_type_map. destruct k as [z | str | | x | t]; try discriminate.
  destruct (String.eqb str "i2c");
    [intros [= <-]; apply I2cSensor_init_admitted | ].
  destruct (String.eqb str "spi");
    [intros [= <-]; apply SpiSensor_init_admitted | ].
  destruct (String.eqb str "uart");
    [intros [= <-]; apply UartSensor_init_admitted | discriminate].
Qed.

(** One call keeps the invariant, however it ends. *)
Lemma add_sensor_keeps_admitted (registry : list ParamPack.sensor_t) (ppack : list pyval) :
  Forall admitted registry ->
  Forall admitted (after registry (ParamPack.add_sensor registry ppack)).
Proof.
  intros Hinv. unfold after.
  pose proof (ParamPackFacts.parampack_add_sensor_raises registry ppack) as Hraise.
  destruct (getitem ppack 0) as [k | e] eqn:Hk; [ | rewrite Hraise; exact Hinv].
  destruct (ParamPack.sensor_type_map k) as [creator | e] eqn:Hc;
    [ | rewrite Hraise; exact Hinv].
  pose proof (ParamPackFacts.parampack_add_sensor_outcome registry ppack k creator Hk Hc) as H.
  destruct (creator (tl ppack)) as [s | exc] eqn:Hs.
  - rewrite H. apply Forall_app. split; [exact Hinv | ].
    constructor; [ | constructor]. exact (creator_admitted _ _ _ _ Hc Hs).
  - destruct H as [H _]. rewrite H. exact Hinv.
Qed.

Lemma reachable_admitted (registry : list ParamPack.sensor_t) :
  reachable registry -> Forall admitted registry.
Proof.
  induction 1 as [ | registry ppack _ IH]; [constructor | ].
  apply add_sensor_keeps_admitted. exact IH.
Qed.

(** A sensor the test let through with an integer field is in its
    domain. *)
Lemma admitted_integer (s : ParamPack.sensor_t) (z : Z) :
  admitted s -> parampack_field s = PInt z -> in_domain s.
Proof.
  destruct s as [v b | v b | v b]; cbn [admitted parampack_field in_domain];
    intros Hw ->; exists z; split; try reflexivity; exact Hw.
Qed.

(** C10, as stated, fails: the constructors of sensors.py test the field
    with [<] and [>] only, and no comparison with NaN holds, so an I2C
    sensor whose address is NaN is registered. *)
Lemma nan_address_registered :
  reachable [nan_address] /\ ~ Forall in_domain [nan_address].
Proof.
  split.
  - exact (reach_add []
             [PStr "i2c"; PInt 2; PFloat S754_nan; PStr "BM280"; PStr "RHT-sensor1"]
             reach_empty).
  - intros H. inversion H as [ | ? ? Hd _]. unfold nan_address, in_domain in Hd.
    destruct Hd as (z & Hz & _). discriminate Hz.
Qed.

(** C10. In sensors.py every registry that calls of [add_sensor] reach
    from the empty one holds only sensors whose checked field the range
    test of the class let through: a number neither below the lower
    bound nor above the upper one.  So a registered field that is an
    integer lies in its domain, I2C addresses in [0,127], SPI chip
    selects in [0,7], UART baud rates in [2400,921400], and no string or
    [None] is registered as a field; a float between the bounds, a
    boolean or NaN can be. *)
Theorem registered_sensors_in_domain :
  forall registry : list ParamPack.sensor_t,
    reachable registry ->
    Forall admitted registry /\
    forall (s : ParamPack.sensor_t) (z : Z),
      In s registry -> parampack_field s = PInt z -> in_domain s.
Proof.
  intros registry Hreach.
  pose proof (reachable_admitted registry Hreach) as Hall.
  split; [exact Hall | ].
  intros s z Hin Hz.
  exact (admitted_integer s z (proj1 (Forall_forall _ _) Hall s Hin) Hz).
Qed.

(** The demo block of sensors.py followed by an address of 78.5: address
    78 is registered and in its domain, chip select 8 is not registered,
    and 78.5 is let through. *)
Lemma registered_sensors_in_domain_witness :
  reachable
    [ParamPack.I2cSensor (PInt 78)
       (ParamPack.SensorBase_init (PInt 2) (PStr "BM280") (PStr "RHT-sensor1")
          ParamPack.get_i2c_val);
     fractional_address] /\
  Forall admitted
    [ParamPack.I2cSensor (PInt 78)
       (ParamPack.SensorBase_init (PInt 2) (PStr "BM280") (PStr "RHT-sensor1")
          ParamPack.get_i2c_val);
     fractional_address] /\
  in_domain
    (ParamPack.I2cSensor (PInt 78)
       (ParamPack.SensorBase_init (PInt 2) (PStr "BM280") (PStr "RHT-sensor1")
          ParamPack.get_i2c_val)).
Proof.
  assert (H : reachable
                [ParamPack.I2cSensor (PInt 78)
                   (ParamPack.SensorBase_init (PInt 2) (PStr "BM280") (PStr "RHT-sensor1")
                      ParamPack.get_i2c_val);
                 fractional_address]).
  { exact (reach_add _
             [PStr "i2c"; PInt 2; PFloat (S754_finite false 157 (-1)); PStr "BM280";
              PStr "RHT-sensor1"]
             (reach_add _ (spi_pack 1 8 (PStr "SHT721") (PStr "RHT-sensor2B"))
                (reach_add [] (i2c_pack 2 78 (PStr "BM280") (PStr "RHT-sensor1"))
                   reach_empty))). }
  destruct (registered_sensors_in_domain _ H) as [Hall Hint].
  split; [exact H | ]. split; [exact Hall | ].
  exact (Hint _ 78 (or_introl eq_refl) eq_refl).
Defined.

(** ** The read-out dispatch *)

Lemma value_list_loop (zs : list Z) :
  forall idx,
    for_enumerate
      (fun val_no item_val =>
         x <- lift (fmt_d item_val) ;;
         print (PrintF "Value no.%d = %d" [AIdx val_no; x]))
      idx (map PInt zs) =
    (element_lines idx zs, Ok tt).
Proof.
  induction zs as [ | z rest IH]; intros idx; cbn [for_enumerate map element_lines].
  - reflexivity.
  - rewrite (IH (S idx)). reflexivity.
Qed.

Lemma element_lines_not_unrecognized (zs : list Z) :
  forall idx, ~ In unrecognized_line (element_lines idx zs).
Proof.
  induction zs as [ | z rest IH]; intros idx; cbn.
  - intros [].
  - intros [H | H]; [discriminate H | exact (IH _ H)].
Qed.

Lemma validatedjson_scalar (idx : nat) (s : ValidatedJson.sensor_t) (x : pyfloat) :
  ValidatedJson.read_sensors_dispatch idx s (RFloat x) =
  ([PrintF "Sensor no.%d: %s (type=%s) value = %s"
      [AIdx idx; AVal (ValidatedJson.alias (ValidatedJson.base s));
       AVal (ValidatedJson.dev_name (ValidatedJson.base s)); ARead (RFloat x)]],
   Ok tt).
Proof. reflexivity. Qed.

Lemma validatedjson_list (idx : nat) (s : ValidatedJson.sensor_t) (zs : list Z) :
  ValidatedJson.read_sensors_dispatch idx s (RList (map PInt zs)) =
  ([Print [AStr "Value list:"]; Print [AStr "------------"]]
     ++ element_lines 0 zs ++ [Print [AStr ""]],
   Ok tt).
Proof.
  unfold ValidatedJson.read_sensors_dispatch. rewrite value_list_loop. reflexivity.
Qed.

Lemma validatedjson_structured (idx : nat) (s : ValidatedJson.sensor_t)
      (triggered : bool) (channel : Z) (ch_val : pyfloat) :
  ValidatedJson.read_sensors_dispatch idx s (RComplex triggered channel ch_val) =
  ([Print [AStr "Complex value:"]; Print [AStr "--------------"];
    Print [AStr "Triggered: "; ABool triggered];
    Print [AStr "Channel no: "; AVal (PInt channel)];
    Print [AStr "Value: "; AFloat ch_val];
    Print [AStr ""]],
   Ok tt).
Proof. reflexivity. Qed.

(** The dispatcher does have a failing branch: an integer read-out, as
    the read functions of sensors.py return, is not classified. *)
Lemma validatedjson_integer_unrecognized (idx : nat) (s : ValidatedJson.sensor_t) (z : Z) :
  ValidatedJson.read_sensors_dispatch idx s (RInt z) = ([unrecognized_line], Ok tt).
Proof. reflexivity. Qed.

Lemma validatedjson_shapes_recognized (idx : nat) (s : ValidatedJson.sensor_t)
      (val : readout) :
  defined_shape val ->
  result (ValidatedJson.read_sensors_dispatch idx s val) = Ok tt /\
  ~ In unrecognized_line (stdout (ValidatedJson.read_sensors_dispatch idx s val)).
Proof.
  destruct val as [x | z | items | t c v]; cbn [defined_shape].
  - intros _. split; [reflexivity | ].
    cbn. intros [H | []]. discriminate H.
  - intros [].
  - intros [zs ->]. rewrite validatedjson_list. split; [reflexivity | ].
    cbn [stdout fst app In].
    intros [H | [H | H]]; try discriminate H.
    apply in_app_or in H. destruct H as [H | [H | []]].
    + exact (element_lines_not_unrecognized _ _ H).
    + discriminate H.
  - intros _. split; [reflexivity | ].
    cbn. intros H. repeat (destruct H as [H | H]; [discriminate H | ]). exact H.
Qed.

Lemma consolidated_scalar (idx : nat) (s : Consolidated.sensor_t) (x : pyfloat) :
  Consolidated.read_sensors_dispatch idx s (RFloat x) =
  ([PrintF "Sensor no.%d: %s (type=%s) value = %s"
      [AIdx idx; AVal (Consolidated.alias (Consolidated.base s));
       AVal (Consolidated.dev_name (Consolidated.base s)); ARead (RFloat x)]],
   Ok tt).
Proof. reflexivity. Qed.

Lemma consolidated_list (idx : nat) (s : Consolidated.sensor_t) (zs : list Z) :
  Consolidated.read_sensors_dispatch idx s (RList (map PInt zs)) =
  (PrintF "Sensor no.%d: %s (type=%s) value = %s"
     [AIdx idx; AVal (Consolidated.alias (Consolidated.base s));
      AVal (Consolidated.dev_name (Consolidated.base s)); ARead (RList (map PInt zs))]
     :: [Print [AStr "Value list:"]; Print [AStr "------------"]]
     ++ element_lines 0 zs ++ [Print [AStr ""]],
   Ok tt).
Proof.
  unfold Consolidated.read_sensors_dispatch. rewrite value_list_loop. reflexivity.
Qed.

Lemma consolidated_structured (idx : nat) (s : Consolidated.sensor_t)
      (triggered : bool) (channel : Z) (ch_val : pyfloat) :
  Consolidated.read_sensors_dispatch idx s (RComplex triggered channel ch_val) =
  ([PrintF "Sensor no.%d: %s (type=%s) value = %s"
      [AIdx idx; AVal (Consolidated.alias (Consolidated.base s));
       AVal (Consolidated.dev_name (Consolidated.base s));
       ARead (RComplex triggered channel ch_val)];
    Print [AStr "Reading sensor: complex value - cannot parse!"]],
   Ok tt).
Proof. reflexivity. Qed.

(** C8, as stated, fails in sensors_consolidated.py: for the
    [ComplexValue] the SPI driver returns, [read_sensors] prints the
    summary line and that it cannot parse the value, and none of the
    three fields. *)
Lemma consolidated_structured_not_classified :
  Consolidated.read_sensors_dispatch 1
    (consolidated_built Consolidated.class_SpiSensor
       (PInt 1) (PInt 3) (PStr "SHT721") (PStr "RHT-sensor2A"))
    (RComplex true 7 (Float 8765 3)) =
  ([PrintF "Sensor no.%d: %s (type=%s) value = %s"
      [AIdx 1; AVal (PStr "RHT-sensor2A"); AVal (PStr "SHT721");
       ARead (RComplex true 7 (Float 8765 3))];
    Print [AStr "Reading sensor: complex value - cannot parse!"]],
   Ok tt) /\
  ~ In (Print [AStr "Triggered: "; ABool true])
      (stdout (Consolidated.read_sensors_dispatch 1
                 (consolidated_built Consolidated.class_SpiSensor
                    (PInt 1) (PInt 3) (PStr "SHT721") (PStr "RHT-sensor2A"))
                 (RComplex true 7 (Float 8765 3)))).
Proof.
  split; [reflexivity | ].
  cbn. intros [H | [H | []]]; discriminate H.
Qed.

(** C8, amended.  In sensors_builder_validatedjson.py the loop body of
    [read_sensors] classifies each of the three shapes and never prints
    its cannot-parse line for them: a float gives the one summary line, a
    list of integers gives the list header, one line per element with
    its position, and an empty line, a [ComplexValue] gives its header,
    the three fields triggered, channel and value, and an empty line.
    In sensors_consolidated.py the summary line comes first for every
    value; a float gives nothing more, a list of integers gives the same
    list lines, and the branch for [ComplexValue] is disabled: such a
    value gets the line saying it cannot be parsed. *)
Theorem readout_dispatch_by_variant :
  forall (idx : nat) (s : ValidatedJson.sensor_t) (s' : Consolidated.sensor_t),
    (forall x,
        ValidatedJson.read_sensors_dispatch idx s (RFloat x) =
        ([PrintF "Sensor no.%d: %s (type=%s) value = %s"
            [AIdx idx; AVal (ValidatedJson.alias (ValidatedJson.base s));
             AVal (ValidatedJson.dev_name (ValidatedJson.base s)); ARead (RFloat x)]],
         Ok tt)) /\
    (forall zs,
        ValidatedJson.read_sensors_dispatch idx s (RList (map PInt zs)) =
        ([Print [AStr "Value list:"]; Print [AStr "------------"]]
           ++ element_lines 0 zs ++ [Print [AStr ""]],
         Ok tt)) /\
    (forall triggered channel ch_val,
        ValidatedJson.read_sensors_dispatch idx s (RComplex triggered channel ch_val) =
        ([Print [AStr "Complex value:"]; Print [AStr "--------------"];
          Print [AStr "Triggered: "; ABool triggered];
          Print [AStr "Channel no: "; AVal (PInt channel)];
          Print [AStr "Value: "; AFloat ch_val];
          Print [AStr ""]],
         Ok tt)) /\
    (forall val,
        defined_shape val ->
        result (ValidatedJson.read_sensors_dispatch idx s val) = Ok tt /\
        ~ In unrecognized_line
            (stdout (ValidatedJson.read_sensors_dispatch idx s val))) /\
    (forall x,
        Consolidated.read_sensors_dispatch idx s' (RFloat x) =
        ([PrintF "Sensor no.%d: %s (type=%s) value = %s"
            [AIdx idx; AVal (Consolidated.alias (Consolidated.base s'));
             AVal (Consolidated.dev_name (Consolidated.base s')); ARead (RFloat x)]],
         Ok tt)) /\
    (forall zs,
        Consolidated.read_sensors_dispatch idx s' (RList (map PInt zs)) =
        (PrintF "Sensor no.%d: %s (type=%s) value = %s"
           [AIdx idx; AVal (Consolidated.alias (Consolidated.base s'));
            AVal (Consolidated.dev_name (Consolidated.base s'));
            ARead (RList (map PInt zs))]
           :: [Print [AStr "Value list:"]; Print [AStr "------------"]]
           ++ element_lines 0 zs ++ [Print [AStr ""]],
         Ok tt)) /\
    (forall triggered channel ch_val,
        Consolidated.read_sensors_dispatch idx s' (RComplex triggered channel ch_val) =
        ([PrintF "Sensor no.%d: %s (type=%s) value = %s"
            [AIdx idx; AVal (Consolidated.alias (Consolidated.base s'));
             AVal (Consolidated.dev_name (Consolidated.base s'));
             ARead (RComplex triggered channel ch_val)];
          Print [AStr "Reading sensor: complex value - cannot parse!"]],
         Ok tt)).
Proof.
  intros idx s s'.
  split; [intros x; apply validatedjson_scalar | ].
  split; [intros zs; apply validatedjson_list | ].
  split; [intros t c v; apply validatedjson_structured | ].
  split; [intros val; apply validatedjson_shapes_recognized | ].
  split; [intros x; apply consolidated_scalar | ].
  split; [intros zs; apply consolidated_list | ].
  intros t c v; apply consolidated_structured.
Qed.

(** The read-outs of the driver module: the float of the I2C driver, the
    [ComplexValue] of the SPI driver, the list of the UART driver. *)
Lemma readout_dispatch_by_variant_witness :
  defined_shape (RList [PInt 3; PInt 4; PInt 5]) /\
  result (ValidatedJson.read_sensors_dispatch 2
            {| ValidatedJson.base :=
                 {| ValidatedJson.read := ValidatedJson.get_uart_val;
                    ValidatedJson.dev_name := PStr "CustomHygrometerSubmodule";
                    ValidatedJson.alias := PStr "RHT-sensor3" |} |}
            (RList [PInt 3; PInt 4; PInt 5])) = Ok tt /\
  ~ In unrecognized_line
      (stdout (ValidatedJson.read_sensors_dispatch 2
                 {| ValidatedJson.base :=
                      {| ValidatedJson.read := ValidatedJson.get_uart_val;
                         ValidatedJson.dev_name := PStr "CustomHygrometerSubmodule";
                         ValidatedJson.alias := PStr "RHT-sensor3" |} |}
                 (RList [PInt 3; PInt 4; PInt 5]))).
Proof.
  assert (H : defined_shape (RList [PInt 3; PInt 4; PInt 5]))
    by (exists [3; 4; 5]; reflexivity).
  split; [exact H | ].
  exact (proj1 (proj2 (proj2 (proj2
           (readout_dispatch_by_variant 2
              {| ValidatedJson.base :=
                   {| ValidatedJson.read := ValidatedJson.get_uart_val;
                      ValidatedJson.dev_name := PStr "CustomHygrometerSubmodule";
                      ValidatedJson.alias := PStr "RHT-sensor3" |} |}
              (consolidated_built Consolidated.class_UartSensor
                 (PInt 4) (PInt 115200) (PStr "CustomHygrometerSubmodule")
                 (PStr "RHT-sensor3"))))))
           (RList [PInt 3; PInt 4; PInt 5]) H).
Defined.

(** ** Adding, then listing (sensors_consolidated.py) *)











(** ** The sibling validator *)

(** [spi_validate] does compare the bus number: chip select 3 of bus 2
    is accepted beside chip select 3 of bus 1. *)
Lemma spi_other_bus_same_chip_select_accepted :
  result (Consolidated.add_sensor
            [consolidated_built Consolidated.class_SpiSensor
               (PInt 1) (PInt 3) (PStr "SHT721") (PStr "RHT-sensor2A")]
            (spi_pack 2 3 (PStr "MPU6050") (PStr "IMU-A1"))) =
  Ok [consolidated_built Consolidated.class_SpiSensor
        (PInt 1) (PInt 3) (PStr "SHT721") (PStr "RHT-sensor2A");
      consolidated_built Consolidated.class_SpiSensor
        (PInt 2) (PInt 3) (PStr "MPU6050") (PStr "IMU-A1")].
Proof. reflexivity. Qed.

(** ** When sensors_consolidated.py accepts a sensor *)

Ltac io_step :=
  repeat first
    [ progress autorewrite with io
    | progress cbn [Consolidated.i2c_addr Consolidated.cs_no Consolidated.baud_rate
                      Consolidated.base Consolidated.bus_no Consolidated.type_name] ].

Lemma py_eq_refl_int (z : Z) : py_eq (PInt z) (PInt z) = true.
Proof. apply Z.eqb_refl. Qed.

(** On a registry of built sensors the validator of a built sensor
    answers [True] exactly when no registered sensor clashes with it;
    when one does, it answers [False] or raises on its error line. *)
Lemma consolidated_validator_run (registry : list Consolidated.sensor_t)
      (cls : Consolidated.sensor_class) (bus_no field dev_name alias : pyval) :
  Forall consolidated_made registry ->
  match result (match cls with
                | Consolidated.class_I2cSensor => Consolidated.i2c_validate
                | Consolidated.class_SpiSensor => Consolidated.spi_validate
                | Consolidated.class_UartSensor => Consolidated.uart_validate
                end registry (consolidated_built cls bus_no field dev_name alias)) with
  | Ok true =>
      existsb (consolidated_clash (consolidated_built cls bus_no field dev_name alias))
        registry = false
  | _ =>
      existsb (consolidated_clash (consolidated_built cls bus_no field dev_name alias))
        registry = true
  end.
Proof.
  intros Hmade.
  induction Hmade as [ | y rest (cls' & b' & f' & n' & a' & ->) _ IH].
  - destruct cls; reflexivity.
  - destruct cls, cls';
      unfold Consolidated.i2c_validate, Consolidated.spi_validate,
        Consolidated.uart_validate, Consolidated.get_i2c_sensors,
        Consolidated.get_spi_sensors, Consolidated.get_uart_sensors in *;
      cbn [filter Consolidated.is_type consolidated_built Consolidated.base
             Consolidated.type_name String.eqb Ascii.eqb Bool.eqb existsb
             consolidated_clash orb] in *;
      try exact IH.
    + cbn [Consolidated.i2c_scan]. io_step.
      destruct (py_eq field f'); [ | exact IH].
      io_step. destruct (fmt_d field); [ | reflexivity].
      io_step. destruct (fmt_d bus_no); reflexivity.
    + cbn [Consolidated.spi_scan]. io_step.
      destruct (py_eq bus_no b'); cbn [andb]; io_step; [ | exact IH].
      destruct (py_eq field f'); [ | exact IH].
      io_step. destruct (fmt_d field); [ | reflexivity].
      io_step. destruct (fmt_d bus_no); reflexivity.
    + cbn [Consolidated.uart_scan]. io_step.
      destruct (py_eq bus_no b'); [ | exact IH].
      io_step. destruct (fmt_d bus_no); reflexivity.
Qed.

(** X1. On a registry of built sensors, [add_sensor] with a known kind
    and at least four more values returns, and appends the sensor built
    from the first four exactly when no registered sensor of the kind
    clashes with it; otherwise the registry is as before.  No range is
    checked, and values beyond the fifth are ignored. *)
Theorem consolidated_add_sensor_criterion :
  forall (registry : list Consolidated.sensor_t) (kind : string)
         (cls : Consolidated.sensor_class)
         (bus_no field dev_name alias : pyval) (rest : list pyval),
    Forall consolidated_made registry ->
    Consolidated.sensor_type_map (PStr kind) = Ok cls ->
    result (Consolidated.add_sensor registry
              (PStr kind :: bus_no :: field :: dev_name :: alias :: rest)) =
    Ok (if existsb (consolidated_clash
                      (consolidated_built cls bus_no field dev_name alias)) registry
        then registry
        else registry ++ [consolidated_built cls bus_no field dev_name alias]).
Proof.
  intros registry kind cls bus_no field dev_name alias rest Hmade Hcls.
  pose proof (ConsolidatedFacts.consolidated_add_sensor_outcome registry
                (PStr kind :: bus_no :: field :: dev_name :: alias :: rest)
                (PStr kind) cls eq_refl Hcls) as H.
  rewrite ConsolidatedFacts.consolidated_add_sensor_try_result,
    ConsolidatedFacts.consolidated_build_sensor_result in H.
  cbn [tl] in H. rewrite ConsolidatedFacts.consolidated_validators_built in H.
  pose proof (consolidated_validator_run registry cls bus_no field dev_name alias Hmade)
    as Hv.
  destruct (result _) as [[ | ] | e] in H, Hv; rewrite Hv.
  - exact H.
  - exact (proj1 H).
  - exact (proj1 H).
Qed.

Lemma demo_registry_made : Forall consolidated_made demo_registry.
Proof.
  unfold demo_registry. repeat constructor; do 5 eexists; reflexivity.
Qed.

(** The demo block goes on: chip select 3 of bus 1 again, then chip
    select 4 of bus 1. *)
Lemma consolidated_add_sensor_criterion_witness :
  Forall consolidated_made demo_registry /\
  result (Consolidated.add_sensor demo_registry
            (spi_pack 1 3 (PStr "MPU6050") (PStr "IMU-A1"))) = Ok demo_registry /\
  result (Consolidated.add_sensor demo_registry
            (spi_pack 1 4 (PStr "MPU6050") (PStr "IMU-A1"))) =
    Ok (demo_registry ++
        [consolidated_built Consolidated.class_SpiSensor
           (PInt 1) (PInt 4) (PStr "MPU6050") (PStr "IMU-A1")]).
Proof.
  split; [exact demo_registry_made | split].
  - exact (consolidated_add_sensor_criterion demo_registry "spi"
             Consolidated.class_SpiSensor (PInt 1) (PInt 3)
             (PStr "MPU6050") (PStr "IMU-A1") [] demo_registry_made eq_refl).
  - exact (consolidated_add_sensor_criterion demo_registry "spi"
             Consolidated.class_SpiSensor (PInt 1) (PInt 4)
             (PStr "MPU6050") (PStr "IMU-A1") [] demo_registry_made eq_refl).
Defined.

(** X2. A pack with a known kind and fewer than four more values never
    registers a sensor: the builder runs out of values, and the call
    returns with the registry as before and [IndexError] reported. *)
Theorem consolidated_short_pack_rejected :
  forall (registry : list Consolidated.sensor_t) (kind : string)
         (cls : Consolidated.sensor_class) (values : list pyval),
    Consolidated.sensor_type_map (PStr kind) = Ok cls ->
    (List.length values < 4)%nat ->
    result (Consolidated.add_sensor registry (PStr kind :: values)) = Ok registry /\
    recovered (IndexError "tuple index out of range")
      (Consolidated.add_sensor registry (PStr kind :: values)).
Proof.
  intros registry kind cls values Hcls Hlen.
  pose proof (ConsolidatedFacts.consolidated_add_sensor_outcome registry
                (PStr kind :: values) (PStr kind) cls eq_refl Hcls) as H.
  rewrite ConsolidatedFacts.consolidated_add_sensor_try_result,
    ConsolidatedFacts.consolidated_build_sensor_result in H.
  cbn [tl] in H.
  destruct values as [ | b [ | f [ | n [ | a rest]]]]; try exact H.
  cbn in Hlen. lia.
Qed.

Lemma consolidated_short_pack_rejected_witness :
  (List.length [PInt 2; PInt 78] < 4)%nat /\
  result (Consolidated.add_sensor demo_registry [PStr "i2c"; PInt 2; PInt 78]) =
    Ok demo_registry.
Proof.
  assert (H : (List.length [PInt 2; PInt 78] < 4)%nat) by (cbn; lia).
  split; [exact H | ].
  exact (proj1 (consolidated_short_pack_rejected demo_registry "i2c"
                  Consolidated.class_I2cSensor [PInt 2; PInt 78] eq_refl H)).
Defined.

(** ** What every reachable registry of sensors_consolidated.py keeps *)

(** One call, however it ends: the list is as before, or it has gained
    the sensor built from the pack, which its validator let through. *)
Lemma consolidated_after_cases (registry : list Consolidated.sensor_t)
      (ppack : list pyval) :
  after registry (Consolidated.add_sensor registry ppack) = registry \/
  exists cls bus_no field dev_name alias,
    result (match cls with
            | Consolidated.class_I2cSensor => Consolidated.i2c_validate
            | Consolidated.class_SpiSensor => Consolidated.spi_validate
            | Consolidated.class_UartSensor => Consolidated.uart_validate
            end registry (consolidated_built cls bus_no field dev_name alias)) =
      Ok true /\
    after registry (Consolidated.add_sensor registry ppack) =
      registry ++ [consolidated_built cls bus_no field dev_name alias].
Proof.
  unfold after.
  pose proof (ConsolidatedFacts.consolidated_add_sensor_raises registry ppack) as Hraise.
  destruct (getitem ppack 0) as [k | e] eqn:Hk; [ | rewrite Hraise; left; reflexivity].
  destruct (Consolidated.sensor_type_map k) as [cls | e] eqn:Hcls;
    [ | rewrite Hraise; left; reflexivity].
  pose proof (ConsolidatedFacts.consolidated_add_sensor_outcome registry ppack k cls
                Hk Hcls) as H.
  rewrite ConsolidatedFacts.consolidated_add_sensor_try_result,
    ConsolidatedFacts.consolidated_build_sensor_result in H.
  destruct (tl ppack) as [ | b [ | f [ | n [ | a rest]]]];
    try (rewrite (proj1 H); left; reflexivity).
  rewrite ConsolidatedFacts.consolidated_validators_built in H.
  destruct (result _) as [[ | ] | e] eqn:Hv in H.
  - right. exists cls, b, f, n, a. split; [exact Hv | ]. rewrite H. reflexivity.
  - rewrite (proj1 H). left. reflexivity.
  - rewrite (proj1 H). left. reflexivity.
Qed.

Lemma consolidated_reachable_made (registry : list Consolidated.sensor_t) :
  consolidated_reachable registry -> Forall consolidated_made registry.
Proof.
  induction 1 as [ | registry ppack _ IH]; [constructor | ].
  destruct (consolidated_after_cases registry ppack)
    as [-> | (cls & b & f & n & a & _ & ->)]; [exact IH | ].
  apply Forall_app. split; [exact IH | ].
  constructor; [ | constructor]. exists cls, b, f, n, a. reflexivity.
Qed.

Lemma existsb_false_In {A} (f : A -> bool) (l : list A) (y : A) :
  existsb f l = false -> In y l -> f y = false.
Proof.
  intros Hex Hin. destruct (f y) eqn:Hy; [ | reflexivity].
  rewrite <- Hex. symmetry. apply existsb_exists. exists y. split; assumption.
Qed.

Lemma nth_error_snoc {A} (l : list A) (x z : A) (j : nat) :
  nth_error (l ++ [x]) j = Some z ->
  nth_error l j = Some z \/ (j = List.length l /\ z = x).
Proof.
  intros H. destruct (Nat.lt_ge_cases j (List.length l)) as [Hlt | Hge].
  - left. rewrite nth_error_app1 in H by exact Hlt. exact H.
  - right. rewrite nth_error_app2 in H by exact Hge.
    destruct (j - List.length l)%nat as [ | m] eqn:Hm; cbn in H.
    + injection H as <-. split; [lia | reflexivity].
    + destruct m; discriminate H.
Qed.

(** X3. In every registry of sensors_consolidated.py reached from the
    empty one, no sensor clashes with one registered before it: no two
    I2C sensors have the same address, no two SPI sensors the same bus
    number and chip select, no two UART sensors the same port. *)
Theorem consolidated_registry_keys_unique :
  forall registry : list Consolidated.sensor_t,
    consolidated_reachable registry ->
    forall (i j : nat) (y x : Consolidated.sensor_t),
      (i < j)%nat ->
      nth_error registry i = Some y ->
      nth_error registry j = Some x ->
      consolidated_clash x y = false.
Proof.
  induction 1 as [ | registry ppack Hreach IH]; intros i j y x Hij Hi Hj.
  - destruct i; discriminate Hi.
  - pose proof (consolidated_reachable_made _ Hreach) as Hmade.
    destruct (consolidated_after_cases registry ppack)
      as [Heq | (cls & b & f & n & a & Hv & Heq)]; rewrite Heq in Hi, Hj.
    + exact (IH i j y x Hij Hi Hj).
    + pose proof (consolidated_validator_run registry cls b f n a Hmade) as Hrun.
      rewrite Hv in Hrun.
      destruct (nth_error_snoc _ _ _ _ Hj) as [Hj' | [-> ->]].
      * destruct (nth_error_snoc _ _ _ _ Hi) as [Hi' | [-> _]].
        -- exact (IH i j y x Hij Hi' Hj').
        -- assert (j < List.length registry)%nat
             by (apply nth_error_Some; congruence).
           lia.
      * destruct (nth_error_snoc _ _ _ _ Hi) as [Hi' | [-> _]]; [ | lia].
        apply (existsb_false_In _ _ _ Hrun). exact (nth_error_In _ _ Hi').
Qed.

Lemma demo_registry_reachable : consolidated_reachable demo_registry.
Proof.
  exact (creach_add _ (uart_pack 4 115200 (PStr "CustomHygrometerSubmodule")
                         (PStr "RHT-sensor3"))
           (creach_add _ (spi_pack 1 8 (PStr "SHT721") (PStr "RHT-sensor2B"))
              (creach_add _ (spi_pack 1 3 (PStr "SHT721") (PStr "RHT-sensor2A"))
                 (creach_add [] (i2c_pack 2 78 (PStr "BM280") (PStr "RHT-sensor1"))
                    creach_empty)))).
Qed.

(** In the registry of the demo block, the two SPI sensors of bus 1. *)
Lemma consolidated_registry_keys_unique_witness :
  consolidated_reachable demo_registry /\
  (1 < 2)%nat /\
  consolidated_clash
    (consolidated_built Consolidated.class_SpiSensor
       (PInt 1) (PInt 8) (PStr "SHT721") (PStr "RHT-sensor2B"))
    (consolidated_built Consolidated.class_SpiSensor
       (PInt 1) (PInt 3) (PStr "SHT721") (PStr "RHT-sensor2A")) = false.
Proof.
  assert (Hlt : (1 < 2)%nat) by lia.
  split; [exact demo_registry_reachable | split; [exact Hlt | ]].
  exact (consolidated_registry_keys_unique demo_registry demo_registry_reachable
           1%nat 2%nat _ _ Hlt eq_refl eq_refl).
Defined.

(** ** Reading, sensors_consolidated.py *)

Lemma consolidated_read_loop (sensors : list Consolidated.sensor_t) :
  forall idx,
    result (for_enumerate
              (fun idx sensor =>
                 val <- Consolidated.call_read
                          (Consolidated.read (Consolidated.base sensor)) ;;
                 Consolidated.read_sensors_dispatch idx sensor val)
              idx sensors) = Ok tt /\
    List.length (stdout (for_enumerate
              (fun idx sensor =>
                 val <- Consolidated.call_read
                          (Consolidated.read (Consolidated.base sensor)) ;;
                 Consolidated.read_sensors_dispatch idx sensor val)
              idx sensors)) = (2 * List.length sensors)%nat /\
    ~ In (Print [AStr "Reading sensor: complex value - cannot parse!"])
        (stdout (for_enumerate
              (fun idx sensor =>
                 val <- Consolidated.call_read
                          (Consolidated.read (Consolidated.base sensor)) ;;
                 Consolidated.read_sensors_dispatch idx sensor val)
              idx sensors)).
Proof.
  induction sensors as [ | s rest IH]; intros idx; cbn [for_enumerate].
  - split; [reflexivity | split; [reflexivity | intros []]].
  - destruct (IH (S idx)) as (Hres & Hlen & Hnot).
    autorewrite with io.
    destruct (Consolidated.read (Consolidated.base s));
      cbn [Consolidated.call_read]; autorewrite with io;
      rewrite consolidated_scalar; cbn [result stdout fst snd app];
      rewrite Hres;
      (split; [reflexivity | split];
       [ cbn [List.length]; rewrite Hlen; cbn [List.length]; lia
       | cbn [In]; intros [H | [H | H]];
         [discriminate H | discriminate H | exact (Hnot H)] ]).
Qed.

(** X4. [read_sensors] of sensors_consolidated.py returns on every
    registry, after two header lines and two lines per sensor, the
    message of the read function and the summary line: its three read
    functions return floats, so neither the list branch nor the
    cannot-parse line is ever reached. *)
Theorem consolidated_read_sensors_returns :
  forall registry : list Consolidated.sensor_t,
    result (Consolidated.read_sensors registry) = Ok tt /\
    List.length (stdout (Consolidated.read_sensors registry)) =
      (2 + 2 * List.length registry)%nat /\
    ~ In (Print [AStr "Reading sensor: complex value - cannot parse!"])
        (stdout (Consolidated.read_sensors registry)).
Proof.
  intros registry. unfold Consolidated.read_sensors.
  destruct (consolidated_read_loop registry 0) as (Hres & Hlen & Hnot).
  autorewrite with io. cbn [app]. rewrite Hres. split; [reflexivity | split].
  - cbn [List.length]. rewrite ?app_nil_r, Hlen. lia.
  - rewrite ?app_nil_r. cbn [In].
    intros [H | [H | H]]; [discriminate H | discriminate H | exact (Hnot H)].
Qed.

(** ** The generator of sensors_consolidated.py *)

Lemma consolidated_call_read_result (f : Consolidated.read_fn) :
  result (Consolidated.call_read f) = Ok (consolidated_value f).
Proof. destruct f; reflexivity. Qed.

Lemma next_at (sensors : list Consolidated.sensor_t) (p : nat)
      (sensor : Consolidated.sensor_t) :
  nth_error sensors p = Some sensor ->
  result (ConsolidatedData.next sensors
            {| ConsolidatedData.position := p; ConsolidatedData.exhausted := false |}) =
  Ok (Some (consolidated_item sensor),
      {| ConsolidatedData.position := S p; ConsolidatedData.exhausted := false |}).
Proof.
  intros Hnth. unfold ConsolidatedData.next. cbn [ConsolidatedData.exhausted
    ConsolidatedData.position]. rewrite Hnth. autorewrite with io.
  rewrite consolidated_call_read_result. reflexivity.
Qed.

Lemma next_at_end (sensors : list Consolidated.sensor_t) (p : nat) :
  nth_error sensors p = None ->
  ConsolidatedData.next sensors
    {| ConsolidatedData.position := p; ConsolidatedData.exhausted := false |} =
  ret (None, {| ConsolidatedData.position := p; ConsolidatedData.exhausted := true |}).
Proof.
  intros Hnth. unfold ConsolidatedData.next. cbn [ConsolidatedData.exhausted
    ConsolidatedData.position]. rewrite Hnth. reflexivity.
Qed.

Lemma skipn_nth_error_cons {A} (l : list A) :
  forall (p : nat) (x : A),
    nth_error l p = Some x -> skipn p l = x :: skipn (S p) l.
Proof.
  induction l as [ | y rest IH]; intros [ | p] x H; try discriminate H.
  - injection H as ->. reflexivity.
  - cbn [skipn]. exact (IH p x H).
Qed.

(** The items from position [p] on, with fuel to spare or not. *)
Lemma items_from (sensors : list Consolidated.sensor_t) :
  forall (fuel p : nat),
    (p <= List.length sensors)%nat ->
    result (ConsolidatedData.items fuel sensors
              {| ConsolidatedData.position := p; ConsolidatedData.exhausted := false |}) =
    Ok (map consolidated_item (firstn fuel (skipn p sensors)),
        {| ConsolidatedData.position := Nat.min (p + fuel) (List.length sensors);
           ConsolidatedData.exhausted := Nat.ltb (List.length sensors) (p + fuel) |}).
Proof.
  induction fuel as [ | fuel IH]; intros p Hp.
  - cbn [ConsolidatedData.items firstn map]. autorewrite with io.
    rewrite Nat.add_0_r, Nat.min_l by exact Hp.
    replace (Nat.ltb (List.length sensors) p) with false
      by (symmetry; apply Nat.ltb_ge; exact Hp).
    reflexivity.
  - cbn [ConsolidatedData.items]. rewrite result_bind.
    destruct (nth_error sensors p) as [sensor | ] eqn:Hnth.
    + rewrite (next_at _ _ _ Hnth). rewrite result_bind.
      assert (Hlt : (p < List.length sensors)%nat)
        by (apply nth_error_Some; congruence).
      rewrite (IH (S p)) by lia. autorewrite with io. cbn [fst snd].
      replace (S p + fuel)%nat with (p + S fuel)%nat by lia.
      rewrite (skipn_nth_error_cons sensors p sensor Hnth).
      reflexivity.
    + rewrite (next_at_end _ _ Hnth). autorewrite with io.
      apply nth_error_None in Hnth.
      rewrite skipn_all2 by exact Hnth. cbn [firstn map].
      rewrite Nat.min_r by lia.
      replace (Nat.ltb (List.length sensors) (p + S fuel)) with true
        by (symmetry; apply Nat.ltb_lt; lia).
      replace p with (List.length sensors) by lia. reflexivity.
Qed.

(** X5. Asking the generator of [get_sensor_data] for up to [n] items,
    on a registry that does not change meanwhile, yields the alias and
    the value read of the first [n] sensors, in the order of the
    registry; the generator has returned exactly when more items were
    asked for than there are sensors. *)
Theorem get_sensor_data_items :
  forall (registry : list Consolidated.sensor_t) (n : nat),
    result (ConsolidatedData.items n registry ConsolidatedData.get_sensor_data) =
    Ok (map consolidated_item (firstn n registry),
        {| ConsolidatedData.position := Nat.min n (List.length registry);
           ConsolidatedData.exhausted := Nat.ltb (List.length registry) n |}).
Proof.
  intros registry n.
  exact (items_from registry n 0 (Nat.le_0_l _)).
Qed.

(** X6. The generator reads the list of the registry as it is when an
    item is asked for: after the items of all the sensors registered so
    far, a sensor appended meanwhile is yielded next; but once the
    generator has been asked past the end, it has returned and yields
    nothing more, whatever is appended later. *)
Theorem get_sensor_data_live :
  forall (registry : list Consolidated.sensor_t) (x : Consolidated.sensor_t) (n : nat),
    result (r <- ConsolidatedData.items (List.length registry) registry
                   ConsolidatedData.get_sensor_data ;;
            ConsolidatedData.next (registry ++ [x]) (snd r)) =
      Ok (Some (consolidated_item x),
          {| ConsolidatedData.position := S (List.length registry);
             ConsolidatedData.exhausted := false |}) /\
    ((List.length registry < n)%nat ->
     result (r <- ConsolidatedData.items n registry ConsolidatedData.get_sensor_data ;;
             ConsolidatedData.next (registry ++ [x]) (snd r)) =
       Ok (None,
           {| ConsolidatedData.position := List.length registry;
              ConsolidatedData.exhausted := true |})).
Proof.
  intros registry x n. split.
  - rewrite result_bind.
    unfold ConsolidatedData.get_sensor_data.
    rewrite (items_from registry _ 0 (Nat.le_0_l _)). cbn [snd Nat.add].
    rewrite Nat.min_id, Nat.ltb_irrefl.
    apply next_at. rewrite nth_error_app2 by lia.
    rewrite Nat.sub_diag. reflexivity.
  - intros Hn. rewrite result_bind.
    unfold ConsolidatedData.get_sensor_data.
    rewrite (items_from registry _ 0 (Nat.le_0_l _)). cbn [snd Nat.add].
    rewrite Nat.min_r by lia.
    replace (Nat.ltb (List.length registry) n) with true
      by (symmetry; apply Nat.ltb_lt; exact Hn).
    reflexivity.
Qed.

(** The demo block asks for as many items as there are sensors, then
    adds sensors. *)
Lemma get_sensor_data_live_witness :
  (List.length demo_registry < 5)%nat /\
  result (r <- ConsolidatedData.items 5 demo_registry ConsolidatedData.get_sensor_data ;;
          ConsolidatedData.next
            (demo_registry ++
             [consolidated_built Consolidated.class_SpiSensor
                (PInt 1) (PInt 4) (PStr "MPU6050") (PStr "IMU-A1")])
            (snd r)) =
    Ok (None,
        {| ConsolidatedData.position := List.length demo_registry;
           ConsolidatedData.exhausted := true |}).
Proof.
  assert (H : (List.length demo_registry < 5)%nat) by (cbn; lia).
  split; [exact H | ].
  exact (proj2 (get_sensor_data_live demo_registry
                  (consolidated_built Consolidated.class_SpiSensor
                     (PInt 1) (PInt 4) (PStr "MPU6050") (PStr "IMU-A1")) 5) H).
Defined.

(** ** The registry of sensors.py beyond its domains *)

(** X7. sensors.py checks no collision: whatever the registry holds, a
    pack of a known kind whose constructor returns is appended, so the
    same pack added twice is registered twice. *)
Theorem parampack_duplicates_accepted :
  forall (registry : list ParamPack.sensor_t) (kind : string)
         (creator : list pyval -> res ParamPack.sensor_t) (values : list pyval)
         (x : ParamPack.sensor_t),
    ParamPack.sensor_type_map (PStr kind) = Ok creator ->
    creator values = Ok x ->
    result (ParamPack.add_sensor registry (PStr kind :: values)) = Ok (registry ++ [x]) /\
    result (ParamPack.add_sensor (registry ++ [x]) (PStr kind :: values)) =
      Ok ((registry ++ [x]) ++ [x]).
Proof.
  intros registry kind creator values x Hc Hx.
  assert (H : forall r, result (ParamPack.add_sensor r (PStr kind :: values)) =
                        Ok (r ++ [x])).
  { intros r.
    pose proof (ParamPackFacts.parampack_add_sensor_outcome r (PStr kind :: values)
                  (PStr kind) creator eq_refl Hc) as H.
    cbn [tl] in H. rewrite Hx in H. exact H. }
  split; apply H.
Qed.

(** The first pack of the demo block, twice. *)
Lemma parampack_duplicates_accepted_witness :
  ParamPack.I2cSensor_init [PInt 2; PInt 78; PStr "BM280"; PStr "RHT-sensor1"] =
    Ok (ParamPack.I2cSensor (PInt 78)
          (ParamPack.SensorBase_init (PInt 2) (PStr "BM280") (PStr "RHT-sensor1")
             ParamPack.get_i2c_val)) /\
  result (ParamPack.add_sensor
            ([] ++ [ParamPack.I2cSensor (PInt 78)
                      (ParamPack.SensorBase_init (PInt 2) (PStr "BM280")
                         (PStr "RHT-sensor1") ParamPack.get_i2c_val)])
            (i2c_pack 2 78 (PStr "BM280") (PStr "RHT-sensor1"))) =
    Ok (([] ++ [ParamPack.I2cSensor (PInt 78)
                  (ParamPack.SensorBase_init (PInt 2) (PStr "BM280")
                     (PStr "RHT-sensor1") ParamPack.get_i2c_val)]) ++
        [ParamPack.I2cSensor (PInt 78)
           (ParamPack.SensorBase_init (PInt 2) (PStr "BM280")
              (PStr "RHT-sensor1") ParamPack.get_i2c_val)]).
Proof.
  split; [reflexivity | ].
  exact (proj2 (parampack_duplicates_accepted [] "i2c" ParamPack.I2cSensor_init
                  [PInt 2; PInt 78; PStr "BM280"; PStr "RHT-sensor1"] _
                  eq_refl eq_refl)).
Defined.

Lemma truthy_default (v : pyval) :
  truthy (if truthy v then v else PStr "none") = true.
Proof. destruct (truthy v) eqn:H; [exact H | reflexivity]. Qed.

Lemma parampack_creator_named (k : pyval)
      (creator : list pyval -> res ParamPack.sensor_t)
      (ppack : list pyval) (s : ParamPack.sensor_t) :
  ParamPack.sensor_type_map k = Ok creator -> creator ppack = Ok s ->
  parampack_named s.
Proof.
  unfold ParamPack.sensor_type_map. destruct k as [z | str | | x | t]; try discriminate.
  destruct (String.eqb str "i2c"); [ | destruct (String.eqb str "spi");
    [ | destruct (String.eqb str "uart"); [ | discriminate]]];
    intros [= <-];
    unfold ParamPack.I2cSensor_init, ParamPack.SpiSensor_init,
      ParamPack.UartSensor_init;
    (destruct (ParamPack.unpack4 ppack) as [[[[b f] n] a] | e]; [ | discriminate]);
    (destruct (ParamPack.outside f _ _) as [[ | ] | e]; try discriminate);
    intros [= <-]; split; apply truthy_default.
Qed.

(** One call of [add_sensor] of sensors.py, however it ends: the list is
    as before, or it has gained a sensor a constructor of the map
    returned. *)
Lemma parampack_after_cases (registry : list ParamPack.sensor_t) (ppack : list pyval) :
  after registry (ParamPack.add_sensor registry ppack) = registry \/
  exists k creator x,
    ParamPack.sensor_type_map k = Ok creator /\
    creator (tl ppack) = Ok x /\
    after registry (ParamPack.add_sensor registry ppack) = registry ++ [x].
Proof.
  unfold after.
  pose proof (ParamPackFacts.parampack_add_sensor_raises registry ppack) as Hraise.
  destruct (getitem ppack 0) as [k | e] eqn:Hk; [ | rewrite Hraise; left; reflexivity].
  destruct (ParamPack.sensor_type_map k) as [creator | e] eqn:Hc;
    [ | rewrite Hraise; left; reflexivity].
  pose proof (ParamPackFacts.parampack_add_sensor_outcome registry ppack k creator
                Hk Hc) as H.
  destruct (creator (tl ppack)) as [x | exc] eqn:Hx.
  - right. exists k, creator, x. rewrite H. repeat split; assumption.
  - rewrite (proj1 H). left. reflexivity.
Qed.

(** X8. In every registry of sensors.py reached from the empty one, each
    sensor has a device name and an alias that count as present: a name
    left out, [None] or empty, was replaced by ["none"]. *)
Theorem parampack_names_present :
  forall registry : list ParamPack.sensor_t,
    reachable registry -> Forall parampack_named registry.
Proof.
  induction 1 as [ | registry ppack _ IH]; [constructor | ].
  destruct (parampack_after_cases registry ppack)
    as [-> | (k & creator & x & Hc & Hx & ->)]; [exact IH | ].
  apply Forall_app. split; [exact IH | ].
  constructor; [ | constructor]. exact (parampack_creator_named _ _ _ _ Hc Hx).
Qed.

(** An I2C sensor added without names. *)
Lemma parampack_names_present_witness :
  reachable
    [ParamPack.I2cSensor (PInt 78)
       (ParamPack.SensorBase_init (PInt 2) PNone (PStr "") ParamPack.get_i2c_val)] /\
  Forall parampack_named
    [ParamPack.I2cSensor (PInt 78)
       (ParamPack.SensorBase_init (PInt 2) PNone (PStr "") ParamPack.get_i2c_val)].
Proof.
  assert (H : reachable
                [ParamPack.I2cSensor (PInt 78)
                   (ParamPack.SensorBase_init (PInt 2) PNone (PStr "")
                      ParamPack.get_i2c_val)])
    by exact (reach_add [] (i2c_pack 2 78 PNone (PStr "")) reach_empty).
  split; [exact H | exact (parampack_names_present _ H)].
Defined.








Lemma parampack_read_loop (sensors : list ParamPack.sensor_t) :
  forall idx,
    result (for_enumerate
              (fun idx sensor =>
                 val <- ParamPack.call_read (ParamPack.read (ParamPackReport.base sensor)) ;;
                 x <- lift (ParamPackReport.fmt_d_read val) ;;
                 print (PrintF "Sensor no.%d: %s (type=%s) value = %d"
                          [AIdx idx; AVal (ParamPack.alias (ParamPackReport.base sensor));
                           AVal (ParamPack.dev_name (ParamPackReport.base sensor)); x]))
              idx sensors) = Ok tt /\
    List.length (stdout (for_enumerate
              (fun idx sensor =>
                 val <- ParamPack.call_read (ParamPack.read (ParamPackReport.base sensor)) ;;
                 x <- lift (ParamPackReport.fmt_d_read val) ;;
                 print (PrintF "Sensor no.%d: %s (type=%s) value = %d"
                          [AIdx idx; AVal (ParamPack.alias (ParamPackReport.base sensor));
                           AVal (ParamPack.dev_name (ParamPackReport.base sensor)); x]))
              idx sensors)) = (2 * List.length sensors)%nat.
Proof.
  induction sensors as [ | s rest IH]; intros idx; cbn [for_enumerate].
  - split; reflexivity.
  - destruct (IH (S idx)) as (Hres & Hlen).
    autorewrite with io.
    destruct (ParamPack.read (ParamPackReport.base s));
      cbn [ParamPack.call_read]; autorewrite with io;
      cbn [ParamPackReport.fmt_d_read]; autorewrite with io;
      rewrite Hres; (split; [reflexivity | ]);
      cbn [app List.length]; rewrite ?length_app, Hlen; cbn [List.length]; lia.
Qed.

(** X10. [read_sensors] of sensors.py returns on every registry, after
    two header lines and two lines per sensor: its read functions return
    integers, which the [%d] of the summary line takes. *)
Theorem parampack_read_sensors_returns :
  forall registry : list ParamPack.sensor_t,
    result (ParamPackReport.read_sensors registry) = Ok tt /\
    List.length (stdout (ParamPackReport.read_sensors registry)) =
      (2 + 2 * List.length registry)%nat.
Proof.
  intros registry. unfold ParamPackReport.read_sensors.
  destruct (parampack_read_loop registry 0) as (Hres & Hlen).
  autorewrite with io. rewrite Hres. split; [reflexivity | ].
  cbn [app List.length]. rewrite ?app_nil_r, Hlen. lia.
Qed.

(** ** sensors_builder_validatedjson.py: look-up and reading *)

Lemma first_with_alias_spec (s_alias : pyval) (sensors : list ValidatedJson.sensor_t) :
  match ValidatedJsonLookup.first_with_alias s_alias sensors with
  | Some sensor =>
      exists before rest,
        sensors = before ++ sensor :: rest /\
        py_eq s_alias (ValidatedJson.alias (ValidatedJson.base sensor)) = true /\
        Forall (fun y => py_eq s_alias (ValidatedJson.alias (ValidatedJson.base y)) = false)
          before
  | None =>
      Forall (fun y => py_eq s_alias (ValidatedJson.alias (ValidatedJson.base y)) = false)
        sensors
  end.
Proof.
  induction sensors as [ | y rest IH]; cbn [ValidatedJsonLookup.first_with_alias].
  - constructor.
  - destruct (py_eq s_alias (ValidatedJson.alias (ValidatedJson.base y))) eqn:Hy.
    + exists [], rest. repeat split; [exact Hy | constructor].
    + destruct (ValidatedJsonLookup.first_with_alias s_alias rest) as [sensor | ].
      * destruct IH as (before & rest' & -> & Hs & Hbefore).
        exists (y :: before), rest'. repeat split; [exact Hs | ].
        constructor; assumption.
      * constructor; assumption.
Qed.

(** X11. [get_sensor_by_alias] answers [None] after an error line when
    the alias asked for is [None].  For any other alias it prints
    nothing and returns the first sensor of the registry with that
    alias, so of two sensors with one alias the later is never found;
    when no sensor has the alias it returns [None], not an error. *)
Theorem get_sensor_by_alias_first_match :
  forall (sensors : list ValidatedJson.sensor_t) (s_alias : pyval),
    ValidatedJsonLookup.get_sensor_by_alias sensors PNone =
      ([Print [AStr "ERROR: no sensor name specified!"]], Ok None) /\
    (s_alias <> PNone ->
     stdout (ValidatedJsonLookup.get_sensor_by_alias sensors s_alias) = [] /\
     exists found,
       result (ValidatedJsonLookup.get_sensor_by_alias sensors s_alias) = Ok found /\
       match found with
       | Some sensor =>
           exists before rest,
             sensors = before ++ sensor :: rest /\
             py_eq s_alias (ValidatedJson.alias (ValidatedJson.base sensor)) = true /\
             Forall (fun y =>
                       py_eq s_alias (ValidatedJson.alias (ValidatedJson.base y)) = false)
               before
       | None =>
           Forall (fun y =>
                     py_eq s_alias (ValidatedJson.alias (ValidatedJson.base y)) = false)
             sensors
       end).
Proof.
  intros sensors s_alias. split; [reflexivity | ].
  intros Hsome.
  assert (Hrun : ValidatedJsonLookup.get_sensor_by_alias sensors s_alias =
                 ret (ValidatedJsonLookup.first_with_alias s_alias sensors))
    by (destruct s_alias; try reflexivity; congruence).
  rewrite Hrun. split; [reflexivity | ].
  exists (ValidatedJsonLookup.first_with_alias s_alias sensors).
  split; [reflexivity | apply first_with_alias_spec].
Qed.

(** Two sensors with the alias of the demo block, and an alias no sensor
    has. *)
Lemma get_sensor_by_alias_first_match_witness :
  PStr "IMU-A1" <> PNone /\
  result (ValidatedJsonLookup.get_sensor_by_alias
            [ {| ValidatedJson.base :=
                   {| ValidatedJson.read := ValidatedJson.get_spi_val;
                      ValidatedJson.dev_name := PStr "MPU6050";
                      ValidatedJson.alias := PStr "IMU-A1" |} |};
              {| ValidatedJson.base :=
                   {| ValidatedJson.read := ValidatedJson.get_spi_val;
                      ValidatedJson.dev_name := PStr "MPU6051";
                      ValidatedJson.alias := PStr "IMU-A1" |} |} ]
            (PStr "IMU-A1")) =
    Ok (Some {| ValidatedJson.base :=
                  {| ValidatedJson.read := ValidatedJson.get_spi_val;
                     ValidatedJson.dev_name := PStr "MPU6050";
                     ValidatedJson.alias := PStr "IMU-A1" |} |}) /\
  stdout (ValidatedJsonLookup.get_sensor_by_alias [] (PStr "IMU-A1")) = [].
Proof.
  assert (H : PStr "IMU-A1" <> PNone) by discriminate.
  split; [exact H | split; [reflexivity | ]].
  exact (proj1 (proj2 (get_sensor_by_alias_first_match [] (PStr "IMU-A1")) H)).
Defined.

(** ** What every reachable registry of sensors_exp.py keeps *)

Lemma exp_outside_within (v : pyval) (lo hi : Z) :
  Exp.outside v lo hi = Ok false -> within lo hi v.
Proof.
  destruct v as [z | s | | x | t]; try discriminate.
  - rewrite ExpFacts.exp_outside_int. intros [= H]. cbn. lia.
  - unfold Exp.outside, py_lt, py_gt.
    destruct (match float_compare_int x lo with Some Lt => true | _ => false end) eqn:H1;
      [discriminate | ].
    intros [= H2]. exact (float_not_both x lo hi H1 H2).
  - unfold Exp.outside, py_lt, py_gt. rewrite Z.gtb_ltb.
    destruct (Z.ltb_spec (Z.b2z t) lo); [discriminate | ].
    destruct (Z.ltb_spec hi (Z.b2z t)); [discriminate | ].
    intros _. cbn. lia.
Qed.

Lemma exp_unpack5_ok (ppack : list pyval) (a b c d e : pyval) :
  Exp.unpack5 ppack = Ok (a, b, c, d, e) -> ppack = [a; b; c; d; e].
Proof.
  destruct ppack as [ | a' [ | b' [ | c' [ | d' [ | e' [ | ? ?]]]]]]; try discriminate.
  intros [= -> -> -> -> ->]. reflexivity.
Qed.

(** What [add_sensor] builds is sound: the constructor is the one of the
    kind the pack starts with. *)
Lemma exp_creator_sound (ppack : list pyval) (k : pyval)
      (creator : list pyval -> res Exp.sensor_t) (x : Exp.sensor_t) :
  getitem ppack 0 = Ok k ->
  Exp.sensor_type_map k = Ok creator ->
  creator ppack = Ok x ->
  exp_sound x.
Proof.
  intros Hk Hmap Hx. unfold Exp.sensor_type_map in Hmap.
  destruct k as [z | str | | fl | t]; try discriminate Hmap.
  destruct (String.eqb_spec str "i2c") as [-> | _];
    [ | destruct (String.eqb_spec str "spi") as [-> | _];
        [ | destruct (String.eqb_spec str "uart") as [-> | _];
            [ | discriminate Hmap]]];
    injection Hmap as <-;
    unfold Exp.I2cSensor_init, Exp.SpiSensor_init, Exp.UartSensor_init in Hx;
    (destruct (Exp.unpack5 ppack) as [[[[[tn b] f] n] a] | e] eqn:Hu;
       [ | discriminate Hx]);
    apply exp_unpack5_ok in Hu; subst ppack; injection Hk as ->;
    (destruct (Exp.outside f _ _) as [[ | ] | e] eqn:Hout; try discriminate Hx);
    cbn in Hx; injection Hx as <-;
    (split; [reflexivity | split; [exact (exp_outside_within _ _ _ Hout) | ]]);
    split; apply truthy_default.
Qed.

Ltac exp_step :=
  repeat first
    [ progress autorewrite with io
    | progress cbn [Exp.i2c_addr Exp.cs_no Exp.base Exp.bus_no] ].

(** On a registry of sound sensors the validator of a sound sensor
    answers [True] exactly when no registered sensor clashes with it. *)
Lemma exp_validator_run (registry : list Exp.sensor_t) (x : Exp.sensor_t)
      (validator : list Exp.sensor_t -> Exp.sensor_t -> io bool) :
  Forall exp_sound registry ->
  exp_sound x ->
  Exp.validators (Exp.type_name (Exp.base x)) = Ok validator ->
  match result (validator registry x) with
  | Ok true => existsb (exp_clash x) registry = false
  | _ => existsb (exp_clash x) registry = true
  end.
Proof.
  intros Hreg (Hkind & _) Hval. rewrite Hkind in Hval.
  induction Hreg as [ | y rest (Hy & _) _ IH].
  - destruct x; cbn in Hval; injection Hval as <-; reflexivity.
  - destruct x as [f b | f b | f b]; cbn in Hval; injection Hval as <-;
      unfold Exp.i2c_validate, Exp.spi_validate, Exp.uart_validate,
        Exp.get_i2c_sensors, Exp.get_spi_sensors, Exp.get_uart_sensors in *;
      cbn [filter]; unfold Exp.is_type at 1; rewrite Hy;
      destruct y as [f' b' | f' b' | f' b'];
      cbn [exp_kind String.eqb Ascii.eqb Bool.eqb existsb exp_clash orb];
      try exact IH.
    + cbn [Exp.i2c_scan]. exp_step.
      destruct (py_eq f f'); [ | exact IH].
      exp_step. destruct (fmt_d f); [ | reflexivity].
      exp_step. destruct (fmt_d (Exp.bus_no b)); reflexivity.
    + cbn [Exp.spi_scan]. exp_step.
      destruct (py_eq (Exp.bus_no b) (Exp.bus_no b')); cbn [andb]; exp_step;
        [ | exact IH].
      destruct (py_eq f f'); [ | exact IH].
      exp_step. destruct (fmt_d f); [ | reflexivity].
      exp_step. destruct (fmt_d (Exp.bus_no b)); reflexivity.
    + cbn [Exp.uart_scan]. exp_step.
      destruct (py_eq (Exp.bus_no b) (Exp.bus_no b')); [ | exact IH].
      exp_step. destruct (fmt_d (Exp.bus_no b)); reflexivity.
Qed.

Lemma exp_add_sensor_raises (sensors : list Exp.sensor_t) (ppack : list pyval) :
  match getitem ppack 0 with
  | Raise e => Exp.add_sensor sensors ppack = ([], Raise e)
  | Ok k =>
      match Exp.sensor_type_map k with
      | Raise e => Exp.add_sensor sensors ppack = ([Print [AStr "Type: "; AVal k]], Raise e)
      | Ok _ => True
      end
  end.
Proof.
  unfold Exp.add_sensor. destruct (getitem ppack 0) as [k | e]; [ | reflexivity].
  cbn. destruct (Exp.sensor_type_map k); [exact I | reflexivity].
Qed.

(** One call, however it ends: the list is as before, or it has gained a
    sound sensor that its validator let through. *)
Lemma exp_after_cases (registry : list Exp.sensor_t) (ppack : list pyval) :
  after registry (Exp.add_sensor registry ppack) = registry \/
  exists x validator,
    exp_sound x /\
    Exp.validators (Exp.type_name (Exp.base x)) = Ok validator /\
    result (validator registry x) = Ok true /\
    after registry (Exp.add_sensor registry ppack) = registry ++ [x].
Proof.
  unfold after.
  pose proof (exp_add_sensor_raises registry ppack) as Hraise.
  destruct (getitem ppack 0) as [k | e] eqn:Hk; [ | rewrite Hraise; left; reflexivity].
  destruct (Exp.sensor_type_map k) as [creator | e] eqn:Hc;
    [ | rewrite Hraise; left; reflexivity].
  pose proof (ExpFacts.exp_add_sensor_outcome registry ppack k creator Hk Hc) as H.
  rewrite ExpFacts.exp_add_sensor_try_result in H.
  destruct (creator ppack) as [x | e] eqn:Hx;
    [ | rewrite (proj1 H); left; reflexivity].
  destruct (Exp.validators _) as [validator | e] eqn:Hval;
    [ | rewrite (proj1 H); left; reflexivity].
  destruct (result _) as [[ | ] | e] eqn:Hv in H.
  - right. exists x, validator.
    split; [exact (exp_creator_sound _ _ _ _ Hk Hc Hx) | ].
    split; [exact Hval | split; [exact Hv | ]]. rewrite H. reflexivity.
  - rewrite (proj1 H). left. reflexivity.
  - rewrite (proj1 H). left. reflexivity.
Qed.

(** X13. In every registry of sensors_exp.py reached from the empty one,
    each sensor has the type name of its class, names that count as
    present, and a checked field the range test of its class let
    through: a number neither below the lower bound nor above the upper
    one.  So a field that is an integer lies in its domain ([0,127],
    [0,7], [2400,921400]), and no string or [None] is registered as a
    field; a float between the bounds, a boolean or NaN can be. *)
Theorem exp_registry_sound :
  forall registry : list Exp.sensor_t,
    exp_reachable registry -> Forall exp_sound registry.
Proof.
  induction 1 as [ | registry ppack _ IH]; [constructor | ].
  destruct (exp_after_cases registry ppack)
    as [-> | (x & validator & Hx & _ & _ & ->)]; [exact IH | ].
  apply Forall_app. split; [exact IH | ]. constructor; [exact Hx | constructor].
Qed.

Lemma exp_reachable_sound (registry : list Exp.sensor_t) :
  exp_reachable registry -> Forall exp_sound registry.
Proof.
  induction 1 as [ | registry ppack _ IH]; [constructor | ].
  destruct (exp_after_cases registry ppack)
    as [-> | (x & validator & Hx & _ & _ & ->)]; [exact IH | ].
  apply Forall_app. split; [exact IH | ]. constructor; [exact Hx | constructor].
Qed.

(** X14. In every registry of sensors_exp.py reached from the empty one,
    no sensor clashes with one registered before it: no two I2C sensors
    have the same address, no two SPI sensors the same bus number and
    chip select, no two UART sensors the same port. *)
Theorem exp_registry_keys_unique :
  forall registry : list Exp.sensor_t,
    exp_reachable registry ->
    forall (i j : nat) (y x : Exp.sensor_t),
      (i < j)%nat ->
      nth_error registry i = Some y ->
      nth_error registry j = Some x ->
      exp_clash x y = false.
Proof.
  induction 1 as [ | registry ppack Hreach IH]; intros i j y x Hij Hi Hj.
  - destruct i; discriminate Hi.
  - pose proof (exp_reachable_sound _ Hreach) as Hsound.
    destruct (exp_after_cases registry ppack)
      as [Heq | (x' & validator & Hx' & Hval & Hv & Heq)]; rewrite Heq in Hi, Hj.
    + exact (IH i j y x Hij Hi Hj).
    + pose proof (exp_validator_run registry x' validator Hsound Hx' Hval) as Hrun.
      rewrite Hv in Hrun.
      destruct (nth_error_snoc _ _ _ _ Hj) as [Hj' | [-> ->]].
      * destruct (nth_error_snoc _ _ _ _ Hi) as [Hi' | [-> _]].
        -- exact (IH i j y x Hij Hi' Hj').
        -- assert (j < List.length registry)%nat
             by (apply nth_error_Some; congruence).
           lia.
      * destruct (nth_error_snoc _ _ _ _ Hi) as [Hi' | [-> _]]; [ | lia].
        apply (existsb_false_In _ _ _ Hrun). exact (nth_error_In _ _ Hi').
Qed.

Lemma exp_demo_reachable :
  exp_reachable
    [exp_i2c 2 78 (PStr "BM280") (PStr "RHT-sensor1");
     exp_uart 4 115200 (PStr "CustomHygrometerSubmodule") (PStr "RHT-sensor3")].
Proof.
  exact (ereach_add _ (uart_pack 4 115200 (PStr "CustomHygrometerSubmodule")
                         (PStr "RHT-sensor3"))
           (ereach_add _ (spi_pack 1 8 (PStr "SHT721") (PStr "RHT-sensor2B"))
              (ereach_add [] (i2c_pack 2 78 (PStr "BM280") (PStr "RHT-sensor1"))
                 ereach_empty))).
Qed.

(** The demo block of sensors_exp.py followed by an address that is NaN:
    chip select 8 is refused, address 78 and port 4 are registered, and
    so is NaN, which equals no address and passes both comparisons. *)
Lemma exp_registry_sound_witness :
  exp_reachable
    [exp_i2c 2 78 (PStr "BM280") (PStr "RHT-sensor1");
     exp_uart 4 115200 (PStr "CustomHygrometerSubmodule") (PStr "RHT-sensor3");
     Exp.I2cSensor (PFloat S754_nan)
       (exp_base "i2c" "bus-address" Exp.get_i2c_val 2 (PStr "BM281") (PStr "sensor2C"))] /\
  Forall exp_sound
    [exp_i2c 2 78 (PStr "BM280") (PStr "RHT-sensor1");
     exp_uart 4 115200 (PStr "CustomHygrometerSubmodule") (PStr "RHT-sensor3");
     Exp.I2cSensor (PFloat S754_nan)
       (exp_base "i2c" "bus-address" Exp.get_i2c_val 2 (PStr "BM281") (PStr "sensor2C"))].
Proof.
  assert (H : exp_reachable
                [exp_i2c 2 78 (PStr "BM280") (PStr "RHT-sensor1");
                 exp_uart 4 115200 (PStr "CustomHygrometerSubmodule") (PStr "RHT-sensor3");
                 Exp.I2cSensor (PFloat S754_nan)
                   (exp_base "i2c" "bus-address" Exp.get_i2c_val 2 (PStr "BM281")
                      (PStr "sensor2C"))])
    by exact (ereach_add _
                [PStr "i2c"; PInt 2; PFloat S754_nan; PStr "BM281"; PStr "sensor2C"]
                exp_demo_reachable).
  split; [exact H | exact (exp_registry_sound _ H)].
Defined.

(** Addresses 78 and 77 of one bus, registered one after the other. *)
Lemma exp_registry_keys_unique_witness :
  exp_reachable
    [exp_i2c 2 78 (PStr "BM280") (PStr "RHT-sensor1");
     exp_i2c 2 77 (PStr "BM281") (PStr "sensor2C")] /\
  (0 < 1)%nat /\
  exp_clash
    (exp_i2c 2 77 (PStr "BM281") (PStr "sensor2C"))
    (exp_i2c 2 78 (PStr "BM280") (PStr "RHT-sensor1")) = false.
Proof.
  assert (H : exp_reachable
                [exp_i2c 2 78 (PStr "BM280") (PStr "RHT-sensor1");
                 exp_i2c 2 77 (PStr "BM281") (PStr "sensor2C")])
    by exact (ereach_add _ (i2c_pack 2 77 (PStr "BM281") (PStr "sensor2C"))
                (ereach_add [] (i2c_pack 2 78 (PStr "BM280") (PStr "RHT-sensor1"))
                   ereach_empty)).
  assert (Hlt : (0 < 1)%nat) by lia.
  split; [exact H | split; [exact Hlt | ]].
  exact (exp_registry_keys_unique _ H 0%nat 1%nat _ _ Hlt eq_refl eq_refl).
Defined.

(** X15. On a registry of sound sensors, [add_sensor] of sensors_exp.py
    with a pack that starts with a known kind and whose constructor
    returns a sensor appends that sensor exactly when no registered
    sensor of the kind clashes with it; otherwise the registry is as
    before.  In both cases the call returns. *)
Theorem exp_add_sensor_criterion :
  forall (registry : list Exp.sensor_t) (ppack : list pyval) (kind : string)
         (creator : list pyval -> res Exp.sensor_t) (x : Exp.sensor_t),
    Forall exp_sound registry ->
    getitem ppack 0 = Ok (PStr kind) ->
    Exp.sensor_type_map (PStr kind) = Ok creator ->
    creator ppack = Ok x ->
    result (Exp.add_sensor registry ppack) =
    Ok (if existsb (exp_clash x) registry then registry else registry ++ [x]).
Proof.
  intros registry ppack kind creator x Hsound Hk Hc Hx.
  pose proof (ExpFacts.exp_add_sensor_outcome registry ppack (PStr kind) creator Hk Hc)
    as H.
  rewrite ExpFacts.exp_add_sensor_try_result, Hx in H.
  pose proof (exp_creator_sound _ _ _ _ Hk Hc Hx) as Hxs.
  assert (Hval : exists validator,
             Exp.validators (Exp.type_name (Exp.base x)) = Ok validator).
  { destruct Hxs as (Hkind & _). rewrite Hkind.
    destruct x; eexists; reflexivity. }
  destruct Hval as (validator & Hval). rewrite Hval in H.
  pose proof (exp_validator_run registry x validator Hsound Hxs Hval) as Hv.
  destruct (result _) as [[ | ] | e] in H, Hv; rewrite Hv.
  - exact H.
  - exact (proj1 H).
  - exact (proj1 H).
Qed.

(** The demo block: chip select 3 of bus 1 beside address 78 of bus 2,
    and address 78 again, on bus 5. *)
Lemma exp_add_sensor_criterion_witness :
  Forall exp_sound [exp_i2c 2 78 (PStr "BM280") (PStr "RHT-sensor1")] /\
  result (Exp.add_sensor [exp_i2c 2 78 (PStr "BM280") (PStr "RHT-sensor1")]
            (i2c_pack 5 78 (PStr "BM281") (PStr "sensor2C"))) =
    Ok [exp_i2c 2 78 (PStr "BM280") (PStr "RHT-sensor1")].
Proof.
  assert (Hreach : exp_reachable [exp_i2c 2 78 (PStr "BM280") (PStr "RHT-sensor1")])
    by exact (ereach_add [] (i2c_pack 2 78 (PStr "BM280") (PStr "RHT-sensor1"))
                ereach_empty).
  pose proof (exp_reachable_sound _ Hreach) as Hsound.
  split; [exact Hsound | ].
  exact (exp_add_sensor_criterion
           [exp_i2c 2 78 (PStr "BM280") (PStr "RHT-sensor1")]
           (i2c_pack 5 78 (PStr "BM281") (PStr "sensor2C")) "i2c"
           Exp.I2cSensor_init (exp_i2c 5 78 (PStr "BM281") (PStr "sensor2C"))
           Hsound eq_refl eq_refl eq_refl).
Defined.


(** ** The builder and the registry of sensors_builder_validatedjson.py *)

Lemma validatedjson_dict_has_set (d : ValidatedJsonRegistry.dict) (key : string) (v : pyval) :
  ValidatedJsonRegistry.dict_has (ValidatedJsonRegistry.dict_set d key v) key = true.
Proof.
  induction d as [ | [k w] rest IH]; cbn.
  - rewrite String.eqb_refl. reflexivity.
  - destruct (String.eqb k key) eqn:Hk; cbn; rewrite Hk; [reflexivity | exact IH].
Qed.

Lemma validatedjson_dict_get_set (d : ValidatedJsonRegistry.dict) (key : string) (v : pyval) :
  ValidatedJsonRegistry.dict_get (ValidatedJsonRegistry.dict_set d key v) key = Ok v.
Proof.
  induction d as [ | [k w] rest IH]; cbn.
  - rewrite String.eqb_refl. reflexivity.
  - destruct (String.eqb k key) eqn:Hk; cbn; rewrite Hk; [reflexivity | exact IH].
Qed.

Lemma validatedjson_dict_get_set_other (d : ValidatedJsonRegistry.dict)
    (key other : string) (v : pyval) :
  String.eqb other key = false ->
  ValidatedJsonRegistry.dict_get (ValidatedJsonRegistry.dict_set d key v) other =
  match ValidatedJsonRegistry.dict_get d other with
  | Ok w => Ok w
  | Raise e => Raise e
  end.
Proof.
  intros Hne. induction d as [ | [k w] rest IH]; cbn.
  - rewrite String.eqb_sym, Hne. reflexivity.
  - destruct (String.eqb k key) eqn:Hk; cbn.
    + apply String.eqb_eq in Hk. subst k. rewrite String.eqb_sym, Hne.
      destruct (ValidatedJsonRegistry.dict_get rest other); reflexivity.
    + destruct (String.eqb k other); [reflexivity | exact IH].
Qed.

Lemma validatedjson_in_dev_props_set (s : ValidatedJsonRegistry.sensor_t)
    (field_name : string) (v : pyval) :
  ValidatedJsonRegistry.in_dev_props
    (ValidatedJsonRegistry.set_dev_prop s field_name v) field_name = true.
Proof.
  unfold ValidatedJsonRegistry.in_dev_props, ValidatedJsonRegistry.set_dev_prop.
  destruct (String.eqb field_name "base") eqn:Hb; cbn; [reflexivity | ].
  apply validatedjson_dict_has_set.
Qed.

Lemma validatedjson_with_field_run (s : ValidatedJsonRegistry.sensor_t)
    (field_name : string) (v : pyval) :
  ValidatedJsonRegistry.with_field s field_name v =
  match ValidatedJsonRegistry.base s with
  | inr _ => raise (AttributeError "__dict__")
  | inl b =>
      ret (if ValidatedJsonRegistry.in_base_props field_name
           then {| ValidatedJsonRegistry.class := ValidatedJsonRegistry.class s;
                   ValidatedJsonRegistry.own := ValidatedJsonRegistry.own s;
                   ValidatedJsonRegistry.base :=
                     inl (ValidatedJsonRegistry.set_base_prop b field_name v) |}
           else ValidatedJsonRegistry.set_dev_prop s field_name v)
  end.
Proof.
  unfold ValidatedJsonRegistry.with_field.
  destruct (ValidatedJsonRegistry.base s) as [b | w]; [ | reflexivity].
  destruct (ValidatedJsonRegistry.in_base_props field_name); cbn [negb]; [reflexivity | ].
  rewrite validatedjson_in_dev_props_set. reflexivity.
Qed.

(** X18. [with_field] on an object that has its base object returns and
    prints nothing, the warning about a field outside the class
    included.  A name of the base object is written there and leaves
    every attribute of the object itself as it was; the name [base]
    replaces the base object by the value; any other name becomes an
    attribute of the object that reads back the value, beside the
    unchanged base object.  Attributes of other names keep what they
    held. *)
Theorem validatedjson_with_field_routes :
  forall (s : ValidatedJsonRegistry.sensor_t) (b : ValidatedJsonRegistry.ExternalSensorBase)
         (field_name : string) (v : pyval),
    ValidatedJsonRegistry.base s = inl b ->
    exists s' : ValidatedJsonRegistry.sensor_t,
      ValidatedJsonRegistry.with_field s field_name v = ret s' /\
      ValidatedJsonRegistry.class s' = ValidatedJsonRegistry.class s /\
      (forall other : string,
          String.eqb other field_name = false ->
          ValidatedJsonRegistry.getattr s' other = ValidatedJsonRegistry.getattr s other) /\
      if ValidatedJsonRegistry.in_base_props field_name then
        ValidatedJsonRegistry.base s' =
          inl (ValidatedJsonRegistry.set_base_prop b field_name v) /\
        ValidatedJsonRegistry.getattr s' field_name =
          ValidatedJsonRegistry.getattr s field_name
      else if String.eqb field_name "base" then
        ValidatedJsonRegistry.base s' = inr v /\
        forall (other : string) (w : pyval),
          ValidatedJsonRegistry.with_field s' other w = raise (AttributeError "__dict__")
      else
        ValidatedJsonRegistry.base s' = inl b /\
        ValidatedJsonRegistry.getattr s' field_name = Ok v.
Proof.
  intros s b field_name v Hb.
  rewrite validatedjson_with_field_run, Hb.
  eexists. split; [reflexivity | ].
  destruct (ValidatedJsonRegistry.in_base_props field_name) eqn:Hin.
  - cbn. repeat split; reflexivity.
  - unfold ValidatedJsonRegistry.set_dev_prop.
    destruct (String.eqb field_name "base") eqn:Hbase; cbn.
    + repeat split; reflexivity.
    + split; [reflexivity | ]. split.
      * intros other Hne. unfold ValidatedJsonRegistry.getattr. cbn.
        rewrite (validatedjson_dict_get_set_other _ _ _ _ Hne).
        destruct (ValidatedJsonRegistry.dict_get (ValidatedJsonRegistry.own s) other);
          reflexivity.
      * split; [exact Hb | ].
        unfold ValidatedJsonRegistry.getattr. cbn.
        rewrite validatedjson_dict_get_set. reflexivity.
Qed.

Lemma bind_ret_l {A B} (a : A) (k : A -> io B) : bind (ret a) k = k a.
Proof. unfold bind, ret. destruct (k a). reflexivity. Qed.

Lemma bind_raise_l {A B} (e : exn) (k : A -> io B) : bind (raise e) k = raise e.
Proof. reflexivity. Qed.

(** The constructors as the shipped driver makes them run. *)
Lemma validatedjson_new_sensor_run (c : ValidatedJsonRegistry.sensor_class) :
  ValidatedJsonRegistry.new_sensor c =
  match c with
  | ValidatedJsonRegistry.class_I2cSensor =>
      ([Print [AStr "Creating a I2C sensor ..."]], Raise not_a_number)
  | ValidatedJsonRegistry.class_SpiSensor =>
      ([Print [AStr "Creating a SPI sensor ..."]], Raise not_a_number)
  | ValidatedJsonRegistry.class_UartSensor =>
      ([Print [AStr "Creating a UART sensor ..."];
        Print [AStr "No configuration/initialization of sensor specified - skipping."]],
       Ok validatedjson_uart_raw)
  end.
Proof. destruct c; reflexivity. Qed.

(** The loop of the builder keeps the class of the object, prints
    nothing, and stops at the first property after a key [base]. *)
Lemma validatedjson_build_fields_class (props : ValidatedJsonRegistry.dict) :
  forall (s : ValidatedJsonRegistry.sensor_t) (first_pass : bool),
    stdout (ValidatedJsonRegistry.build_fields s first_pass props) = [] /\
    forall built,
      result (ValidatedJsonRegistry.build_fields s first_pass props) = Ok built ->
      ValidatedJsonRegistry.class (fst built) = ValidatedJsonRegistry.class s.
Proof.
  induction props as [ | [k v] rest IH]; intros s first_pass; cbn [ValidatedJsonRegistry.build_fields].
  - split; [reflexivity | ]. intros built H. injection H as <-. reflexivity.
  - destruct (negb (String.eqb k "sensor_type")); [ | apply IH].
    rewrite validatedjson_with_field_run.
    destruct (ValidatedJsonRegistry.base s) as [b | w].
    + rewrite bind_ret_l.
      match goal with
      | |- context [ValidatedJsonRegistry.build_fields ?x false rest] =>
          destruct (IH x false) as [Hout Hcls]
      end.
      split; [exact Hout | ].
      intros built H. rewrite (Hcls built H).
      destruct (ValidatedJsonRegistry.in_base_props k); [reflexivity | ].
      unfold ValidatedJsonRegistry.set_dev_prop.
      destruct (String.eqb k "base"); reflexivity.
    + rewrite bind_raise_l. split; [reflexivity | ]. intros built H. discriminate H.
Qed.

Ltac json_step :=
  repeat first
    [ progress autorewrite with io
    | progress cbn [negb fst snd app] ].

Lemma validatedjson_except_result (registry : list ValidatedJsonRegistry.sensor_t) (e : exn) :
  result (ValidatedJsonRegistry.add_sensor_except registry e) = Ok registry.
Proof. reflexivity. Qed.

(** The [try] of [add_sensor] either leaves the list as it is or appends
    an instance of [UartSensor] that has its base object and that the
    validator of its type name accepted. *)
Lemma validatedjson_try_cases (unbound_tmp : exn)
    (registry : list ValidatedJsonRegistry.sensor_t)
    (cls : ValidatedJsonRegistry.sensor_class) (sensor_spec : ValidatedJsonRegistry.dict) :
  result (try_except
            (ValidatedJsonRegistry.add_sensor_try unbound_tmp registry cls sensor_spec)
            (ValidatedJsonRegistry.add_sensor_except registry)) = Ok registry \/
  exists sensor b validator,
    result (try_except
              (ValidatedJsonRegistry.add_sensor_try unbound_tmp registry cls sensor_spec)
              (ValidatedJsonRegistry.add_sensor_except registry)) =
      Ok (registry ++ [sensor]) /\
    ValidatedJsonRegistry.class sensor = ValidatedJsonRegistry.class_UartSensor /\
    ValidatedJsonRegistry.base sensor = inl b /\
    ValidatedJsonRegistry.validators (ValidatedJsonRegistry.type_name b) = Ok validator /\
    result (validator registry sensor) = Ok true.
Proof.
  rewrite result_try_except.
  unfold ValidatedJsonRegistry.add_sensor_try, ValidatedJsonRegistry.build_sensor.
  rewrite validatedjson_new_sensor_run.
  destruct cls; try (left; reflexivity).
  repeat (autorewrite with io; cbn [result snd]).
  match goal with
  | |- context [ValidatedJsonRegistry.build_fields ?raw true sensor_spec] =>
      destruct (validatedjson_build_fields_class sensor_spec raw true) as [_ Hcls];
      destruct (result (ValidatedJsonRegistry.build_fields raw true sensor_spec))
        as [[sensor first_pass] | e]; [ | left; reflexivity];
      specialize (Hcls _ eq_refl)
  end.
  cbn [fst snd] in *.
  destruct first_pass; autorewrite with io; [left; reflexivity | ].
  unfold ValidatedJsonRegistry.base_type_name.
  destruct (ValidatedJsonRegistry.base sensor) as [b | w] eqn:Hb; [ | left; reflexivity].
  destruct (ValidatedJsonRegistry.validators (ValidatedJsonRegistry.type_name b))
    as [validator | e] eqn:Hv; [ | left; reflexivity].
  autorewrite with io.
  destruct (result (validator registry sensor)) as [[ | ] | e] eqn:Hok;
    autorewrite with io; try (left; reflexivity).
  right. exists sensor, b, validator. repeat split; assumption.
Qed.

(** [add_sensor] as a whole does the same. *)
Lemma validatedjson_after_cases
    (check : ValidatedJsonRegistry.schema -> ValidatedJsonRegistry.dict -> io bool)
    (unbound_tmp : exn) (registry : list ValidatedJsonRegistry.sensor_t)
    (sensor_spec : ValidatedJsonRegistry.dict) :
  after registry
    (ValidatedJsonRegistry.add_sensor check unbound_tmp registry sensor_spec) = registry \/
  exists sensor b validator,
    after registry
      (ValidatedJsonRegistry.add_sensor check unbound_tmp registry sensor_spec) =
      registry ++ [sensor] /\
    ValidatedJsonRegistry.class sensor = ValidatedJsonRegistry.class_UartSensor /\
    ValidatedJsonRegistry.base sensor = inl b /\
    ValidatedJsonRegistry.validators (ValidatedJsonRegistry.type_name b) = Ok validator /\
    result (validator registry sensor) = Ok true.
Proof.
  unfold after, ValidatedJsonRegistry.add_sensor.
  json_step.
  destruct (result (check ValidatedJsonRegistry.sensor_base_schema sensor_spec))
    as [[ | ] | e]; json_step; try (left; reflexivity).
  destruct (ValidatedJsonRegistry.dict_get sensor_spec "sensor_type")
    as [sensor_type | e]; json_step; [ | left; reflexivity].
  destruct (ValidatedJsonRegistry.sensor_type_map sensor_type)
    as [cls | e]; json_step; [ | left; reflexivity].
  destruct (ValidatedJsonRegistry.json_dev_schemas sensor_type)
    as [dev_schema | e]; json_step; [ | left; reflexivity].
  destruct (result (check dev_schema sensor_spec)) as [[ | ] | e]; json_step;
    try (left; reflexivity).
  destruct (validatedjson_try_cases unbound_tmp registry cls sensor_spec)
    as [Hr | (sensor & b & validator & Hr & H)]; rewrite Hr; [left; reflexivity | ].
  right. exists sensor, b, validator. split; [reflexivity | exact H].
Qed.

Lemma bind_lift_ok {A B} (a : A) (k : A -> io B) : bind (lift (Ok a)) k = k a.
Proof. exact (bind_ret_l a k). Qed.

Lemma existsb_filter {A} (f g : A -> bool) (l : list A) :
  existsb f (filter g l) = existsb (fun y => g y && f y) l.
Proof.
  induction l as [ | y rest IH]; [reflexivity | ]. cbn.
  destruct (g y); cbn; rewrite IH; reflexivity.
Qed.

(** On a list of sensors that have their base objects [get_i2c_sensors]
    and its siblings return the sensors of the type name. *)
Lemma validatedjson_get_sensors_of_run (t : string)
    (registry : list ValidatedJsonRegistry.sensor_t) :
  Forall (fun y => exists b, ValidatedJsonRegistry.base y = inl b) registry ->
  ValidatedJsonRegistry.get_sensors_of t registry =
  Ok (filter (fun y => match ValidatedJsonRegistry.base y with
                       | inl b => py_eq (ValidatedJsonRegistry.type_name b) (PStr t)
                       | inr _ => false
                       end) registry).
Proof.
  induction 1 as [ | y rest [b Hb] _ IH]; [reflexivity | ].
  cbn [ValidatedJsonRegistry.get_sensors_of filter].
  unfold ValidatedJsonRegistry.base_type_name. rewrite Hb, IH.
  destruct (py_eq (ValidatedJsonRegistry.type_name b) (PStr t)); reflexivity.
Qed.

Lemma validatedjson_uart_scan_run (sensor : ValidatedJsonRegistry.sensor_t)
    (b : ValidatedJsonRegistry.ExternalSensorBase)
    (uart_sensors : list ValidatedJsonRegistry.sensor_t) :
  ValidatedJsonRegistry.base sensor = inl b ->
  Forall (fun y => exists b', ValidatedJsonRegistry.base y = inl b') uart_sensors ->
  ValidatedJsonRegistry.uart_scan sensor uart_sensors =
  if existsb (fun y => match ValidatedJsonRegistry.base y with
                       | inl b' => py_eq (ValidatedJsonRegistry.bus_no b)
                                         (ValidatedJsonRegistry.bus_no b')
                       | inr _ => false
                       end) uart_sensors
  then (x <- lift (fmt_d (ValidatedJsonRegistry.bus_no b)) ;;
        print (PrintF "ERROR: validating UART-sensor: serialport=%d already in use!" [x]) ;;
        ret false)
  else ret true.
Proof.
  intros Hb. induction 1 as [ | y rest [b' Hb'] _ IH]; [reflexivity | ].
  cbn [ValidatedJsonRegistry.uart_scan existsb].
  unfold ValidatedJsonRegistry.base_bus_no. rewrite Hb, Hb', !bind_lift_ok.
  destruct (py_eq (ValidatedJsonRegistry.bus_no b) (ValidatedJsonRegistry.bus_no b'));
    [reflexivity | exact IH].
Qed.

(** [uart_validate] answers [True] exactly when no registered sensor of
    type name "uart" has the bus number of the new one; it answers
    [False] after the error line when one has and the number is an
    integer. *)
Lemma validatedjson_uart_validate_run (registry : list ValidatedJsonRegistry.sensor_t)
    (sensor : ValidatedJsonRegistry.sensor_t)
    (b : ValidatedJsonRegistry.ExternalSensorBase) :
  ValidatedJsonRegistry.base sensor = inl b ->
  Forall (fun y => exists b', ValidatedJsonRegistry.base y = inl b') registry ->
  ValidatedJsonRegistry.uart_validate registry sensor =
  if existsb (validatedjson_on_port (ValidatedJsonRegistry.bus_no b)) registry
  then (x <- lift (fmt_d (ValidatedJsonRegistry.bus_no b)) ;;
        print (PrintF "ERROR: validating UART-sensor: serialport=%d already in use!" [x]) ;;
        ret false)
  else ret true.
Proof.
  intros Hb Hall.
  unfold ValidatedJsonRegistry.uart_validate, ValidatedJsonRegistry.get_uart_sensors.
  rewrite (validatedjson_get_sensors_of_run _ _ Hall), bind_lift_ok.
  rewrite (validatedjson_uart_scan_run _ _ _ Hb).
  - rewrite existsb_filter.
    replace (existsb (validatedjson_on_port (ValidatedJsonRegistry.bus_no b)) registry)
      with (existsb
              (fun y =>
                 match ValidatedJsonRegistry.base y with
                 | inl b0 => py_eq (ValidatedJsonRegistry.type_name b0) (PStr "uart")
                 | inr _ => false
                 end &&
                 match ValidatedJsonRegistry.base y with
                 | inl b' => py_eq (ValidatedJsonRegistry.bus_no b)
                               (ValidatedJsonRegistry.bus_no b')
                 | inr _ => false
                 end) registry); [reflexivity | ].
    clear. induction registry as [ | y rest IH]; [reflexivity | ].
    cbn [existsb]. rewrite IH. unfold validatedjson_on_port.
    destruct (ValidatedJsonRegistry.base y); reflexivity.
  - apply Forall_forall. intros y Hy. apply filter_In in Hy.
    exact (proj1 (Forall_forall _ _) Hall y (proj1 Hy)).
Qed.

Lemma validatedjson_validators_uart :
  ValidatedJsonRegistry.validators (PStr "uart") = Ok ValidatedJsonRegistry.uart_validate.
Proof. reflexivity. Qed.

(** Every sensor of a reachable registry is an instance of [UartSensor]
    that has its base object. *)
Lemma validatedjson_reachable_uart
    (check : ValidatedJsonRegistry.schema -> ValidatedJsonRegistry.dict -> io bool)
    (unbound_tmp : exn) (registry : list ValidatedJsonRegistry.sensor_t) :
  validatedjson_reachable check unbound_tmp registry ->
  Forall (fun y => ValidatedJsonRegistry.class y = ValidatedJsonRegistry.class_UartSensor /\
                   exists b, ValidatedJsonRegistry.base y = inl b) registry.
Proof.
  induction 1 as [ | registry sensor_spec _ IH]; [constructor | ].
  destruct (validatedjson_after_cases check unbound_tmp registry sensor_spec)
    as [-> | (sensor & b & validator & -> & Hcls & Hb & _)]; [exact IH | ].
  apply Forall_app. split; [exact IH | ].
  constructor; [ | constructor]. split; [exact Hcls | exists b; exact Hb].
Qed.

Lemma validatedjson_reachable_based
    (check : ValidatedJsonRegistry.schema -> ValidatedJsonRegistry.dict -> io bool)
    (unbound_tmp : exn) (registry : list ValidatedJsonRegistry.sensor_t) :
  validatedjson_reachable check unbound_tmp registry ->
  Forall (fun y => exists b, ValidatedJsonRegistry.base y = inl b) registry.
Proof.
  intros H. apply validatedjson_reachable_uart in H.
  revert H. apply Forall_impl. intros y [_ Hb]. exact Hb.
Qed.

(** X19. Every registry of sensors_builder_validatedjson.py reached from
    the empty one, whatever the schema checks answer, holds instances of
    [UartSensor] only, each with its base object, and no two of them
    whose base has the type name "uart" have the same bus number there.
    With the driver the file imports no instance of [I2cSensor] or
    [SpiSensor] is ever registered. *)
Theorem validatedjson_registry_uart_only :
  forall (check : ValidatedJsonRegistry.schema -> ValidatedJsonRegistry.dict -> io bool)
         (unbound_tmp : exn) (registry : list ValidatedJsonRegistry.sensor_t),
    validatedjson_reachable check unbound_tmp registry ->
    Forall (fun y => ValidatedJsonRegistry.class y = ValidatedJsonRegistry.class_UartSensor /\
                     exists b, ValidatedJsonRegistry.base y = inl b) registry /\
    forall (i j : nat) (y x : ValidatedJsonRegistry.sensor_t)
           (b : ValidatedJsonRegistry.ExternalSensorBase),
      (i < j)%nat ->
      nth_error registry i = Some y ->
      nth_error registry j = Some x ->
      ValidatedJsonRegistry.base x = inl b ->
      ValidatedJsonRegistry.type_name b = PStr "uart" ->
      validatedjson_on_port (ValidatedJsonRegistry.bus_no b) y = false.
Proof.
  intros check unbound_tmp registry Hreach.
  split; [exact (validatedjson_reachable_uart _ _ _ Hreach) | ].
  induction Hreach as [ | registry sensor_spec Hreach IH]; intros i j y x b Hij Hi Hj Hb Ht.
  - destruct i; discriminate Hi.
  - pose proof (validatedjson_reachable_based _ _ _ Hreach) as Hall.
    destruct (validatedjson_after_cases check unbound_tmp registry sensor_spec)
      as [Heq | (x' & b' & validator & Heq & _ & Hb' & Hval & Hv)]; rewrite Heq in Hi, Hj.
    + exact (IH i j y x b Hij Hi Hj Hb Ht).
    + destruct (nth_error_snoc _ _ _ _ Hj) as [Hj' | [-> ->]].
      * destruct (nth_error_snoc _ _ _ _ Hi) as [Hi' | [-> _]].
        -- exact (IH i j y x b Hij Hi' Hj' Hb Ht).
        -- assert (j < List.length registry)%nat
             by (apply nth_error_Some; congruence).
           lia.
      * destruct (nth_error_snoc _ _ _ _ Hi) as [Hi' | [-> _]]; [ | lia].
        rewrite Hb' in Hb. injection Hb as <-.
        rewrite Ht, validatedjson_validators_uart in Hval. injection Hval as <-.
        rewrite (validatedjson_uart_validate_run _ _ _ Hb' Hall) in Hv.
        destruct (existsb (validatedjson_on_port (ValidatedJsonRegistry.bus_no b')) registry)
          eqn:Hex.
        -- exfalso. revert Hv. json_step.
           destruct (fmt_d (ValidatedJsonRegistry.bus_no b')); json_step; discriminate.
        -- apply (existsb_false_In _ _ _ Hex). exact (nth_error_In _ _ Hi').
Qed.

(** The [try] of [add_sensor] for the classes whose constructor calls the
    configuration function of the driver. *)
Lemma validatedjson_try_configured (unbound_tmp : exn)
    (registry : list ValidatedJsonRegistry.sensor_t)
    (cls : ValidatedJsonRegistry.sensor_class) (sensor_spec : ValidatedJsonRegistry.dict) :
  cls <> ValidatedJsonRegistry.class_UartSensor ->
  exists created,
    try_except
      (ValidatedJsonRegistry.add_sensor_try unbound_tmp registry cls sensor_spec)
      (ValidatedJsonRegistry.add_sensor_except registry) =
    ([created; Print [AStr "ERROR creating sensor!!"]; Print [AArgs not_a_number]],
     Ok registry).
Proof.
  intros Hcls.
  unfold ValidatedJsonRegistry.add_sensor_try, ValidatedJsonRegistry.build_sensor.
  rewrite validatedjson_new_sensor_run.
  destruct cls; [ | | contradiction]; eexists; reflexivity.
Qed.

(** [add_sensor] once both schema checks have answered [True]. *)
Lemma validatedjson_add_sensor_checked
    (check : ValidatedJsonRegistry.schema -> ValidatedJsonRegistry.dict -> io bool)
    (unbound_tmp : exn) (registry : list ValidatedJsonRegistry.sensor_t)
    (sensor_spec : ValidatedJsonRegistry.dict) (sensor_type : pyval)
    (cls : ValidatedJsonRegistry.sensor_class) (dev_schema : ValidatedJsonRegistry.schema) :
  ValidatedJsonRegistry.dict_get sensor_spec "sensor_type" = Ok sensor_type ->
  ValidatedJsonRegistry.sensor_type_map sensor_type = Ok cls ->
  ValidatedJsonRegistry.json_dev_schemas sensor_type = Ok dev_schema ->
  validatedjson_checked check sensor_spec ->
  result (ValidatedJsonRegistry.add_sensor check unbound_tmp registry sensor_spec) =
    result (try_except
              (ValidatedJsonRegistry.add_sensor_try unbound_tmp registry cls sensor_spec)
              (ValidatedJsonRegistry.add_sensor_except registry)) /\
  stdout (ValidatedJsonRegistry.add_sensor check unbound_tmp registry sensor_spec) =
    (stdout (check ValidatedJsonRegistry.sensor_base_schema sensor_spec) ++
     stdout (check dev_schema sensor_spec)) ++
    stdout (try_except
              (ValidatedJsonRegistry.add_sensor_try unbound_tmp registry cls sensor_spec)
              (ValidatedJsonRegistry.add_sensor_except registry)).
Proof.
  intros Ht Hcls Hschema [Hbase Hdev].
  specialize (Hdev _ _ Ht Hschema).
  unfold ValidatedJsonRegistry.add_sensor.
  json_step. rewrite Hbase. json_step. rewrite Ht. json_step. rewrite Hcls. json_step.
  rewrite Hschema. json_step. rewrite Hdev. json_step.
  split; [reflexivity | ]. rewrite app_assoc. reflexivity.
Qed.

(** X20. With the driver the file imports, [add_sensor] never registers
    a sensor of type "i2c" or "spi": whatever the schema checks answer the
    list is left as it was, and when both answer [True] the call returns
    after the [except] branch has printed the [TypeError] of the
    configuration function, which formats the bus number and the
    address of the new object, both [None], with [%d]. *)
Theorem validatedjson_i2c_spi_never_added :
  forall (check : ValidatedJsonRegistry.schema -> ValidatedJsonRegistry.dict -> io bool)
         (unbound_tmp : exn) (registry : list ValidatedJsonRegistry.sensor_t)
         (sensor_spec : ValidatedJsonRegistry.dict) (sensor_type : string),
    ValidatedJsonRegistry.dict_get sensor_spec "sensor_type" = Ok (PStr sensor_type) ->
    sensor_type = "i2c" \/ sensor_type = "spi" ->
    after registry
      (ValidatedJsonRegistry.add_sensor check unbound_tmp registry sensor_spec) = registry /\
    (validatedjson_checked check sensor_spec ->
     result (ValidatedJsonRegistry.add_sensor check unbound_tmp registry sensor_spec) =
       Ok registry /\
     recovered not_a_number
       (ValidatedJsonRegistry.add_sensor check unbound_tmp registry sensor_spec)).
Proof.
  intros check unbound_tmp registry sensor_spec sensor_type Ht Hkind.
  assert (Hmaps : exists cls dev_schema,
             ValidatedJsonRegistry.sensor_type_map (PStr sensor_type) = Ok cls /\
             ValidatedJsonRegistry.json_dev_schemas (PStr sensor_type) = Ok dev_schema /\
             cls <> ValidatedJsonRegistry.class_UartSensor).
  { destruct Hkind as [-> | ->]; do 2 eexists; repeat split; discriminate. }
  destruct Hmaps as (cls & dev_schema & Hcls & Hschema & Hne).
  destruct (validatedjson_try_configured unbound_tmp registry cls sensor_spec Hne)
    as [created Htry].
  split.
  - unfold after, ValidatedJsonRegistry.add_sensor. json_step.
    destruct (result (check ValidatedJsonRegistry.sensor_base_schema sensor_spec))
      as [[ | ] | e]; json_step; try reflexivity.
    rewrite Ht. json_step. rewrite Hcls. json_step. rewrite Hschema. json_step.
    destruct (result (check dev_schema sensor_spec)) as [[ | ] | e]; json_step;
      try reflexivity.
    rewrite Htry. reflexivity.
  - intros Hchecked.
    destruct (validatedjson_add_sensor_checked check unbound_tmp registry sensor_spec
                _ _ _ Ht Hcls Hschema Hchecked) as [Hres Hout].
    rewrite Hres, Htry. split; [reflexivity | ].
    unfold recovered. rewrite Hout, Htry. cbn [stdout fst].
    exists ((stdout (check ValidatedJsonRegistry.sensor_base_schema sensor_spec) ++
             stdout (check dev_schema sensor_spec)) ++ [created]).
    rewrite <- (app_assoc _ [created]). reflexivity.
Qed.

Lemma validatedjson_accept_checked (sensor_spec : ValidatedJsonRegistry.dict) :
  validatedjson_checked validatedjson_accept sensor_spec.
Proof. split; [reflexivity | intros; reflexivity]. Qed.

Lemma validatedjson_i2c_spi_never_added_witness :
  after []
    (ValidatedJsonRegistry.add_sensor validatedjson_accept validatedjson_unbound []
       validatedjson_i2c_demo) = [] /\
  result (ValidatedJsonRegistry.add_sensor validatedjson_accept validatedjson_unbound []
            validatedjson_i2c_demo) = Ok [] /\
  recovered not_a_number
    (ValidatedJsonRegistry.add_sensor validatedjson_accept validatedjson_unbound []
       validatedjson_i2c_demo).
Proof.
  destruct (validatedjson_i2c_spi_never_added validatedjson_accept validatedjson_unbound []
              validatedjson_i2c_demo "i2c" eq_refl (or_introl eq_refl)) as [Hafter Hrun].
  split; [exact Hafter | ].
  exact (Hrun (validatedjson_accept_checked validatedjson_i2c_demo)).
Defined.

Lemma validatedjson_dict_get_has (d : ValidatedJsonRegistry.dict) (key : string) :
  ValidatedJsonRegistry.dict_has d key = false ->
  ValidatedJsonRegistry.dict_get d key = Raise (KeyError (PStr key)).
Proof.
  induction d as [ | [k w] rest IH]; cbn; [reflexivity | ].
  destruct (String.eqb k key); [discriminate | exact IH].
Qed.

Lemma validatedjson_dict_has_In (d : ValidatedJsonRegistry.dict) (key : string) :
  ~ In key (map fst d) -> ValidatedJsonRegistry.dict_has d key = false.
Proof.
  induction d as [ | [k w] rest IH]; cbn; [reflexivity | ].
  intros Hnot. destruct (String.eqb_spec k key) as [-> | Hne].
  - exfalso. apply Hnot. left. reflexivity.
  - apply IH. intros Hin. apply Hnot. right. exact Hin.
Qed.

(** What writing a property of the base leaves of its type name and its
    bus number. *)
Lemma validatedjson_set_base_prop_type_name (b : ValidatedJsonRegistry.ExternalSensorBase)
    (field_name : string) (v : pyval) :
  String.eqb field_name "type_name" = false ->
  ValidatedJsonRegistry.type_name (ValidatedJsonRegistry.set_base_prop b field_name v) =
  ValidatedJsonRegistry.type_name b.
Proof.
  intros Hne. unfold ValidatedJsonRegistry.set_base_prop. rewrite Hne.
  repeat match goal with
         | |- context [if String.eqb ?a ?c then _ else _] => destruct (String.eqb a c)
         end; reflexivity.
Qed.

Lemma validatedjson_set_base_prop_bus_no (b : ValidatedJsonRegistry.ExternalSensorBase)
    (field_name : string) (v : pyval) :
  ValidatedJsonRegistry.bus_no (ValidatedJsonRegistry.set_base_prop b field_name v) =
  if String.eqb field_name "bus_no" then v else ValidatedJsonRegistry.bus_no b.
Proof.
  unfold ValidatedJsonRegistry.set_base_prop.
  destruct (String.eqb_spec field_name "bus_no") as [-> | Hne]; [reflexivity | ].
  repeat match goal with
         | |- context [if String.eqb ?a ?c then _ else _] =>
             destruct (String.eqb_spec a c)
         end; try reflexivity; contradiction.
Qed.

Lemma validatedjson_in_base_props_bus_no (field_name : string) :
  ValidatedJsonRegistry.in_base_props field_name = false ->
  String.eqb field_name "bus_no" = false.
Proof.
  unfold ValidatedJsonRegistry.in_base_props. cbn [existsb].
  destruct (String.eqb field_name "bus_no"); [ | reflexivity].
  rewrite !orb_true_r. cbn. rewrite ?orb_true_r. intros H; exact H.
Qed.

(** The builder on a dictionary of distinct keys that names neither
    [base] nor [type_name]: the loop returns, the object keeps its class,
    its base object and the type name there; the bus number of the base
    becomes the one the dictionary gives, and the attribute [bus_no] of
    the object itself is not written. *)
Lemma validatedjson_build_fields_plain (props : ValidatedJsonRegistry.dict) :
  forall (s : ValidatedJsonRegistry.sensor_t) (b : ValidatedJsonRegistry.ExternalSensorBase)
         (first_pass : bool),
    ValidatedJsonRegistry.base s = inl b ->
    ValidatedJsonRegistry.dict_has props "base" = false ->
    ValidatedJsonRegistry.dict_has props "type_name" = false ->
    NoDup (map fst props) ->
    exists s' b',
      ValidatedJsonRegistry.build_fields s first_pass props =
        ret (s', first_pass &&
                 forallb (fun item => String.eqb (fst item) "sensor_type") props) /\
      ValidatedJsonRegistry.class s' = ValidatedJsonRegistry.class s /\
      ValidatedJsonRegistry.base s' = inl b' /\
      ValidatedJsonRegistry.type_name b' = ValidatedJsonRegistry.type_name b /\
      ValidatedJsonRegistry.getattr s' "bus_no" = ValidatedJsonRegistry.getattr s "bus_no" /\
      ValidatedJsonRegistry.bus_no b' =
        match ValidatedJsonRegistry.dict_get props "bus_no" with
        | Ok v => v
        | Raise _ => ValidatedJsonRegistry.bus_no b
        end.
Proof.
  induction props as [ | [k v] rest IH]; intros s b first_pass Hb Hbase Htype Hnodup.
  - exists s, b. cbn. rewrite andb_true_r. repeat split; assumption.
  - cbn [ValidatedJsonRegistry.dict_has] in Hbase, Htype.
    destruct (String.eqb k "base") eqn:Hkb; [discriminate | ].
    destruct (String.eqb k "type_name") eqn:Hkt; [discriminate | ].
    cbn [map fst] in Hnodup. apply NoDup_cons_iff in Hnodup. destruct Hnodup as [Hk Hnodup].
    cbn [ValidatedJsonRegistry.build_fields forallb fst ValidatedJsonRegistry.dict_get].
    destruct (String.eqb_spec k "sensor_type") as [-> | Hst]; cbn [negb].
    + destruct (IH s b first_pass Hb Hbase Htype Hnodup) as (s' & b' & Hrun & H).
      exists s', b'. split; [exact Hrun | exact H].
    + rewrite validatedjson_with_field_run, Hb, bind_ret_l, andb_false_r.
      destruct (ValidatedJsonRegistry.in_base_props k) eqn:Hin.
      * match goal with
        | |- context [ValidatedJsonRegistry.build_fields ?s1 false rest] =>
            destruct (IH s1 (ValidatedJsonRegistry.set_base_prop b k v) false eq_refl
                        Hbase Htype Hnodup) as (s' & b' & Hrun & Hc & Hb' & Ht & Hown & Hbus)
        end.
        exists s', b'. split; [exact Hrun | ]. split; [exact Hc | ].
        split; [exact Hb' | ]. split.
        { rewrite Ht. apply validatedjson_set_base_prop_type_name. exact Hkt. }
        split; [exact Hown | ].
        rewrite Hbus, validatedjson_set_base_prop_bus_no.
        destruct (String.eqb_spec k "bus_no") as [-> | Hne]; [ | reflexivity].
        rewrite (validatedjson_dict_get_has rest "bus_no"
                   (validatedjson_dict_has_In _ _ Hk)). reflexivity.
      * pose proof (validatedjson_in_base_props_bus_no k Hin) as Hkbus.
        assert (Hs1 : ValidatedJsonRegistry.base
                        (ValidatedJsonRegistry.set_dev_prop s k v) = inl b).
        { unfold ValidatedJsonRegistry.set_dev_prop. rewrite Hkb. exact Hb. }
        destruct (IH _ b false Hs1 Hbase Htype Hnodup)
          as (s' & b' & Hrun & Hc & Hb' & Ht & Hown & Hbus).
        exists s', b'. split; [exact Hrun | ]. split.
        { rewrite Hc. unfold ValidatedJsonRegistry.set_dev_prop. rewrite Hkb. reflexivity. }
        split; [exact Hb' | ]. split; [exact Ht | ]. split.
        { rewrite Hown. unfold ValidatedJsonRegistry.getattr,
            ValidatedJsonRegistry.set_dev_prop. rewrite Hkb. cbn.
          rewrite validatedjson_dict_get_set_other
            by (rewrite String.eqb_sym; exact Hkbus).
          destruct (ValidatedJsonRegistry.dict_get (ValidatedJsonRegistry.own s) "bus_no");
            reflexivity. }
        rewrite Hbus, Hkbus. reflexivity.
Qed.

Lemma validatedjson_named_not_first (props : ValidatedJsonRegistry.dict) (v : pyval) :
  ValidatedJsonRegistry.dict_get props "bus_no" = Ok v ->
  forallb (fun item => String.eqb (fst item) "sensor_type") props = false.
Proof.
  induction props as [ | [k w] rest IH]; cbn; [discriminate | ].
  destruct (String.eqb_spec k "bus_no") as [-> | Hne]; [reflexivity | ].
  intros H. rewrite (IH H). apply andb_false_r.
Qed.

Lemma bind_ok {A B} (out : list line) (a : A) (k : A -> io B) :
  bind (out, Ok a) k = (out ++ stdout (k a), result (k a)).
Proof. unfold bind. destruct (k a). reflexivity. Qed.

(** [build_sensor] for the class [UartSensor] on such a dictionary that
    names a bus number. *)
Lemma validatedjson_build_sensor_uart (unbound_tmp : exn)
    (sensor_spec : ValidatedJsonRegistry.dict) (bus : pyval) :
  NoDup (map fst sensor_spec) ->
  validatedjson_plain sensor_spec ->
  ValidatedJsonRegistry.dict_get sensor_spec "bus_no" = Ok bus ->
  exists sensor b,
    ValidatedJsonRegistry.build_sensor unbound_tmp
      ValidatedJsonRegistry.class_UartSensor sensor_spec =
      ([Print [AStr "Creating a UART sensor ..."];
        Print [AStr "No configuration/initialization of sensor specified - skipping."]],
       Ok sensor) /\
    ValidatedJsonRegistry.class sensor = ValidatedJsonRegistry.class_UartSensor /\
    ValidatedJsonRegistry.base sensor = inl b /\
    ValidatedJsonRegistry.type_name b = PStr "uart" /\
    ValidatedJsonRegistry.bus_no b = bus /\
    ValidatedJsonRegistry.getattr sensor "bus_no" = Ok PNone.
Proof.
  intros Hnodup [Hbase Htype] Hbus.
  unfold ValidatedJsonRegistry.build_sensor.
  rewrite validatedjson_new_sensor_run, bind_ok.
  match goal with
  | |- context [ValidatedJsonRegistry.build_fields ?raw true sensor_spec] =>
      destruct (validatedjson_build_fields_plain sensor_spec raw _ true eq_refl
                  Hbase Htype Hnodup)
        as (sensor & b & Hrun & Hcls & Hb & Hname & Hown & Hno)
  end.
  rewrite (validatedjson_named_not_first _ _ Hbus) in Hrun.
  rewrite Hbus in Hno.
  exists sensor, b. rewrite Hrun, bind_ret_l.
  repeat split; assumption.
Qed.

(** X21. A UART sensor is registered exactly when its port is free.  For
    a dictionary of distinct keys of type "uart" that names an integer
    bus number, neither [base] nor [type_name], and that both schema
    checks accept, [add_sensor] on a reachable registry returns; if a
    registered sensor of type name "uart" has that bus number, the list
    is unchanged and the [except] branch prints the conflict; otherwise
    one instance of [UartSensor] is appended, whose base carries the bus
    number while the attribute [bus_no] of the object itself is still
    [None]. *)
Theorem validatedjson_uart_criterion :
  forall (check : ValidatedJsonRegistry.schema -> ValidatedJsonRegistry.dict -> io bool)
         (unbound_tmp : exn) (registry : list ValidatedJsonRegistry.sensor_t)
         (sensor_spec : ValidatedJsonRegistry.dict) (bus : Z),
    validatedjson_reachable check unbound_tmp registry ->
    NoDup (map fst sensor_spec) ->
    validatedjson_plain sensor_spec ->
    ValidatedJsonRegistry.dict_get sensor_spec "sensor_type" = Ok (PStr "uart") ->
    ValidatedJsonRegistry.dict_get sensor_spec "bus_no" = Ok (PInt bus) ->
    validatedjson_checked check sensor_spec ->
    if existsb (validatedjson_on_port (PInt bus)) registry
    then
      result (ValidatedJsonRegistry.add_sensor check unbound_tmp registry sensor_spec) =
        Ok registry /\
      recovered conflict
        (ValidatedJsonRegistry.add_sensor check unbound_tmp registry sensor_spec) /\
      In (PrintF "ERROR: validating UART-sensor: serialport=%d already in use!"
            [AVal (PInt bus)])
         (stdout (ValidatedJsonRegistry.add_sensor check unbound_tmp registry sensor_spec))
    else
      exists sensor : ValidatedJsonRegistry.sensor_t,
        result (ValidatedJsonRegistry.add_sensor check unbound_tmp registry sensor_spec) =
          Ok (registry ++ [sensor]) /\
        ValidatedJsonRegistry.class sensor = ValidatedJsonRegistry.class_UartSensor /\
        validatedjson_on_port (PInt bus) sensor = true /\
        ValidatedJsonRegistry.getattr sensor "bus_no" = Ok PNone.
Proof.
  intros check unbound_tmp registry sensor_spec bus Hreach Hnodup Hplain Ht Hbus Hchecked.
  pose proof (validatedjson_reachable_based _ _ _ Hreach) as Hall.
  destruct (validatedjson_add_sensor_checked check unbound_tmp registry sensor_spec
              (PStr "uart") ValidatedJsonRegistry.class_UartSensor
              ValidatedJsonRegistry.sensor_uart_schema Ht eq_refl eq_refl Hchecked)
    as [Hres Hout].
  rewrite Hres. unfold recovered. rewrite Hout. clear Hres Hout.
  destruct (validatedjson_build_sensor_uart unbound_tmp sensor_spec _ Hnodup Hplain Hbus)
    as (sensor & b & Hbuild & Hcls & Hb & Hname & Hno & Hown).
  unfold ValidatedJsonRegistry.add_sensor_try.
  rewrite Hbuild, bind_ok. unfold ValidatedJsonRegistry.base_type_name.
  rewrite Hb, Hname, bind_lift_ok, validatedjson_validators_uart, bind_lift_ok.
  rewrite (validatedjson_uart_validate_run _ _ _ Hb Hall), Hno.
  destruct (existsb (validatedjson_on_port (PInt bus)) registry) eqn:Hex.
  - cbn. split; [reflexivity | ]. split.
    + exists ((stdout (check ValidatedJsonRegistry.sensor_base_schema sensor_spec) ++
               stdout (check ValidatedJsonRegistry.sensor_uart_schema sensor_spec)) ++
              [Print [AStr "Creating a UART sensor ..."];
               Print [AStr
                 "No configuration/initialization of sensor specified - skipping."];
               PrintF "ERROR: validating UART-sensor: serialport=%d already in use!"
                 [AVal (PInt bus)]]).
      rewrite <- !app_assoc. reflexivity.
    + apply in_or_app. right. find_line.
  - rewrite bind_ret_l. cbn.
    exists sensor. split; [reflexivity | ]. split; [exact Hcls | ]. split; [ | exact Hown].
    unfold validatedjson_on_port. rewrite Hb, Hname, Hno. cbn. apply Z.eqb_refl.
Qed.

Lemma validatedjson_with_field_routes_witness :
  exists s' : ValidatedJsonRegistry.sensor_t,
    ValidatedJsonRegistry.with_field validatedjson_uart_raw "clk_speed" (PInt 5000000) =
      ret s' /\
    ValidatedJsonRegistry.class s' = ValidatedJsonRegistry.class_UartSensor /\
    ValidatedJsonRegistry.getattr s' "bus_no" = Ok PNone /\
    ValidatedJsonRegistry.getattr s' "clk_speed" = Ok (PInt 5000000).
Proof.
  destruct (validatedjson_with_field_routes validatedjson_uart_raw _ "clk_speed"
              (PInt 5000000) eq_refl) as (s' & Hrun & Hcls & Hother & _ & Hget).
  exists s'. split; [exact Hrun | ]. split; [exact Hcls | ].
  split; [exact (Hother "bus_no" eq_refl) | exact Hget].
Defined.

Lemma validatedjson_registry_uart_only_witness :
  Forall (fun y => ValidatedJsonRegistry.class y = ValidatedJsonRegistry.class_UartSensor /\
                   exists b, ValidatedJsonRegistry.base y = inl b)
    (after validatedjson_demo_registry
       (ValidatedJsonRegistry.add_sensor validatedjson_accept validatedjson_unbound
          validatedjson_demo_registry validatedjson_port5_demo)) /\
  exists y x b,
    nth_error
      (after validatedjson_demo_registry
         (ValidatedJsonRegistry.add_sensor validatedjson_accept validatedjson_unbound
            validatedjson_demo_registry validatedjson_port5_demo)) 0 = Some y /\
    nth_error
      (after validatedjson_demo_registry
         (ValidatedJsonRegistry.add_sensor validatedjson_accept validatedjson_unbound
            validatedjson_demo_registry validatedjson_port5_demo)) 1 = Some x /\
    ValidatedJsonRegistry.base x = inl b /\
    ValidatedJsonRegistry.bus_no b = PInt 5 /\
    validatedjson_on_port (ValidatedJsonRegistry.bus_no b) y = false.
Proof.
  destruct (validatedjson_registry_uart_only validatedjson_accept validatedjson_unbound _
              (vreach_add _ _ _ validatedjson_port5_demo
                 (vreach_add _ _ [] (validatedjson_uart_demo 115200 "RHT-sensor3")
                    (vreach_empty _ _)))) as [Hall Huniq].
  split; [exact Hall | ].
  do 3 eexists. split; [reflexivity | ]. split; [reflexivity | ].
  split; [reflexivity | ]. split; [reflexivity | ].
  eapply (Huniq 0%nat 1%nat); [lia | reflexivity | reflexivity | reflexivity | reflexivity].
Defined.

Lemma validatedjson_uart_demo_nodup (baud_rate : Z) (alias : string) :
  NoDup (map fst (validatedjson_uart_demo baud_rate alias)).
Proof.
  cbn. repeat (constructor; [cbn; intuition discriminate | ]). constructor.
Qed.

Lemma validatedjson_uart_criterion_witness :
  (exists sensor : ValidatedJsonRegistry.sensor_t,
      result (ValidatedJsonRegistry.add_sensor validatedjson_accept validatedjson_unbound
                [] (validatedjson_uart_demo 115200 "RHT-sensor3")) = Ok [sensor] /\
      ValidatedJsonRegistry.class sensor = ValidatedJsonRegistry.class_UartSensor /\
      validatedjson_on_port (PInt 4) sensor = true /\
      ValidatedJsonRegistry.getattr sensor "bus_no" = Ok PNone) /\
  result (ValidatedJsonRegistry.add_sensor validatedjson_accept validatedjson_unbound
            validatedjson_demo_registry (validatedjson_uart_demo 38400 "RHT-sensor4")) =
    Ok validatedjson_demo_registry /\
  recovered conflict
    (ValidatedJsonRegistry.add_sensor validatedjson_accept validatedjson_unbound
       validatedjson_demo_registry (validatedjson_uart_demo 38400 "RHT-sensor4")).
Proof.
  split.
  - exact (validatedjson_uart_criterion validatedjson_accept validatedjson_unbound []
             (validatedjson_uart_demo 115200 "RHT-sensor3") 4
             (vreach_empty _ _) (validatedjson_uart_demo_nodup _ _)
             (conj eq_refl eq_refl) eq_refl eq_refl
             (validatedjson_accept_checked _)).
  - pose proof (validatedjson_uart_criterion validatedjson_accept validatedjson_unbound
                  validatedjson_demo_registry
                  (validatedjson_uart_demo 38400 "RHT-sensor4") 4
                  (vreach_add _ _ [] (validatedjson_uart_demo 115200 "RHT-sensor3")
                     (vreach_empty _ _))
                  (validatedjson_uart_demo_nodup _ _)
                  (conj eq_refl eq_refl) eq_refl eq_refl
                  (validatedjson_accept_checked _)) as H.
    change (existsb (validatedjson_on_port (PInt 4)) validatedjson_demo_registry)
      with true in H.
    split; [exact (proj1 H) | exact (proj1 (proj2 H))].
Defined.

(** ** Reading the registry of sensors_builder_validatedjson.py *)

Lemma validatedjson_dispatch_returns (idx : nat) (view : ValidatedJson.sensor_t)
    (f : ValidatedJson.read_fn) :
  result (val <- ValidatedJson.call_read f ;;
          ValidatedJson.read_sensors_dispatch idx view val) = Ok tt /\
  ~ In unrecognized_line
      (stdout (val <- ValidatedJson.call_read f ;;
               ValidatedJson.read_sensors_dispatch idx view val)).
Proof.
  destruct f; (split; [reflexivity | ]); cbn; intros H;
    repeat (destruct H as [H | H]; [discriminate H | ]); exact H.
Qed.

Lemma validatedjson_read_one_run (idx : nat) (sensor : ValidatedJsonRegistry.sensor_t) :
  (exists b, ValidatedJsonRegistry.base sensor = inl b) ->
  if validatedjson_read_kept sensor
  then result (ValidatedJsonRegistry.read_one idx sensor) = Ok tt /\
       ~ In unrecognized_line (stdout (ValidatedJsonRegistry.read_one idx sensor))
  else exists v, ValidatedJsonRegistry.read_one idx sensor =
                 raise (ValidatedJsonRegistry.not_callable v).
Proof.
  intros [b Hb]. unfold validatedjson_read_kept, ValidatedJsonRegistry.read_one.
  rewrite Hb. destruct (ValidatedJsonRegistry.read b) as [f | v].
  - apply validatedjson_dispatch_returns.
  - exists v. reflexivity.
Qed.

Lemma validatedjson_read_loop (sensors : list ValidatedJsonRegistry.sensor_t) :
  Forall (fun y => exists b, ValidatedJsonRegistry.base y = inl b) sensors ->
  forall idx,
    if forallb validatedjson_read_kept sensors
    then result (for_enumerate ValidatedJsonRegistry.read_one idx sensors) = Ok tt /\
         ~ In unrecognized_line
             (stdout (for_enumerate ValidatedJsonRegistry.read_one idx sensors))
    else exists v,
        result (for_enumerate ValidatedJsonRegistry.read_one idx sensors) =
        Raise (ValidatedJsonRegistry.not_callable v).
Proof.
  induction 1 as [ | s rest Hs _ IH]; intros idx; cbn [for_enumerate forallb].
  - split; [reflexivity | intros []].
  - pose proof (validatedjson_read_one_run idx s Hs) as Hone.
    specialize (IH (S idx)).
    destruct (validatedjson_read_kept s); cbn [andb].
    + destruct Hone as [Hres Hnot]. autorewrite with io. rewrite Hres.
      destruct (forallb validatedjson_read_kept rest).
      * destruct IH as [Hrest Hnot']. split; [exact Hrest | ].
        intros Hin. apply in_app_or in Hin. destruct Hin; [apply Hnot | apply Hnot'];
          assumption.
      * exact IH.
    + destruct Hone as [v ->]. exists v. reflexivity.
Qed.

(** X12. [read_sensors] of sensors_builder_validatedjson.py on a registry
    reached from the empty one.  The builder writes a dictionary key
    [read] over the read function of the base, so the call returns
    exactly when every registered sensor still has its read function,
    and then never prints its cannot-parse line: the value of a driver
    function reaches the branch of its shape.  Otherwise the call of the
    value written raises [TypeError] to the caller. *)
Theorem validatedjson_read_sensors_needs_read :
  forall (check : ValidatedJsonRegistry.schema -> ValidatedJsonRegistry.dict -> io bool)
         (unbound_tmp : exn) (registry : list ValidatedJsonRegistry.sensor_t),
    validatedjson_reachable check unbound_tmp registry ->
    if forallb validatedjson_read_kept registry
    then result (ValidatedJsonRegistry.read_sensors registry) = Ok tt /\
         ~ In unrecognized_line (stdout (ValidatedJsonRegistry.read_sensors registry))
    else exists v,
        result (ValidatedJsonRegistry.read_sensors registry) =
        Raise (ValidatedJsonRegistry.not_callable v).
Proof.
  intros check unbound_tmp registry Hreach.
  pose proof (validatedjson_read_loop registry
                (validatedjson_reachable_based _ _ _ Hreach) 0%nat) as Hloop.
  unfold ValidatedJsonRegistry.read_sensors. autorewrite with io.
  destruct (forallb validatedjson_read_kept registry).
  - destruct Hloop as [Hres Hnot]. rewrite Hres. split; [reflexivity | ].
    cbn [app In]. rewrite ?app_nil_r.
    intros [H | [H | H]]; [discriminate H | discriminate H | exact (Hnot H)].
  - exact Hloop.
Qed.

(** The UART sensor of the demo block is read; one built from a
    dictionary with a key [read] is registered and stops the reading. *)
Lemma validatedjson_read_sensors_needs_read_witness :
  result (ValidatedJsonRegistry.read_sensors validatedjson_demo_registry) = Ok tt /\
  exists v,
    result (ValidatedJsonRegistry.read_sensors
              (after []
                 (ValidatedJsonRegistry.add_sensor validatedjson_accept
                    validatedjson_unbound [] validatedjson_read_demo))) =
    Raise (ValidatedJsonRegistry.not_callable v).
Proof.
  split.
  - exact (proj1 (validatedjson_read_sensors_needs_read validatedjson_accept
                    validatedjson_unbound validatedjson_demo_registry
                    (vreach_add _ _ [] (validatedjson_uart_demo 115200 "RHT-sensor3")
                       (vreach_empty _ _)))).
  - exact (validatedjson_read_sensors_needs_read validatedjson_accept
             validatedjson_unbound _
             (vreach_add _ _ [] validatedjson_read_demo (vreach_empty _ _))).
Defined.
